(** * WSG-50 gripper driver node: a shallow embedding of [main.cpp]

    The development follows [src/wsg50_driver/src/main.cpp]: the process-wide
    flags ([in_motion], [last_cmd_id], [stop_called], [g_size], ...), the
    motion services ([moveSrv], [graspSrv], [incrementSrv], [releaseSrv],
    [homingSrv]), [stopSrv], the streaming reader [read_thread] and the size
    selection of [main]; then, in [Callbacks], the configuration services,
    the goal topics, the timer, the signal handler and the rest of [main].

    The gripper library ([wsg50/functions.h], [wsg50/cmd.h], [wsg50/msg.h],
    [wsg50/common.h]) is outside this file.  Its functions are the
    environment of the node: what they return is read from an oracle ([env])
    and every call is recorded in a trace.  Floats are IEEE binary32 values,
    times are the integer nanoseconds of [ros::Time]. *)

From Stdlib Require Import ZArith List Bool String Lia.
From Stdlib Require Import Floats.SpecFloat.
Import ListNotations.

Local Open Scope Z_scope.

(** ** Numbers *)

(** C [float] is IEEE-754 binary32: 24 bits of precision, infinities at
    exponent 128.  Values are [spec_float]s in canonical form. *)
Module F32.

Definition prec : Z := 24.
Definition emax : Z := 128.

Definition t := spec_float.

(** Conversion of an [int] to [float] (round to nearest, ties to even). *)
Definition of_int (z : Z) : t := binary_normalize prec emax z 0 false.

Definition add (x y : t) : t := SFadd prec emax x y.
Definition sub (x y : t) : t := SFsub prec emax x y.

(** The C comparison operators; all of them are false on a NaN. *)
Definition lt (x y : t) : bool := SFltb x y.
Definition gt (x y : t) : bool := SFltb y x.
Definition le (x y : t) : bool := SFleb x y.
Definition ge (x y : t) : bool := SFleb y x.

Definition valid (x : t) : bool := valid_binary prec emax x.

Definition zero : t := S754_zero false.

(** [420.0], the upper speed limit of the services. *)
Definition c420 : t := of_int 420.

(** [1] and [20], the two speeds of [incrementSrv]. *)
Definition c1 : t := of_int 1.
Definition c20 : t := of_int 20.

(** What a float is worth.  Every finite binary32 number is a whole number of
    [2^-149], the smallest positive one; a NaN is worth nothing. *)
Inductive number := NegInf | Units (u : Z) | PosInf.

Definition value (x : t) : option number :=
  match x with
  | S754_nan => None
  | S754_zero _ => Some (Units 0)
  | S754_infinity s => Some (if s then NegInf else PosInf)
  | S754_finite s m e => Some (Units (cond_Zopp s (Zpos m * 2 ^ (e + 149))))
  end.

Definition number_compare (a b : number) : comparison :=
  match a, b with
  | NegInf, NegInf | PosInf, PosInf => Eq
  | NegInf, _ | _, PosInf => Lt
  | _, NegInf | PosInf, _ => Gt
  | Units u, Units v => Z.compare u v
  end.

(** The integer [n] as a number. *)
Definition whole (n : Z) : number := Units (n * 2 ^ 149).

(** [x] is a number, and it is less (greater) than the integer [n]. *)
Definition below (x : t) (n : Z) : Prop :=
  exists a, value x = Some a /\ number_compare a (whole n) = Lt.

Definition above (x : t) (n : Z) : Prop :=
  exists a, value x = Some a /\ number_compare a (whole n) = Gt.

End F32.

(** ** Status codes *)

(** Modelled from the spec: [status_t] is declared in [wsg50/common.h], which
    is not among the sources.  The spec names the device results (Success,
    CmdPending, AlreadyRunning, RangeError, AxisBlocked, CmdAborted, other);
    the numbers are those of the WSG command set.  [main.cpp] tests
    [res.error == 0] for success. *)
Definition status_t := Z.

Definition E_SUCCESS : status_t := 0.
Definition E_ALREADY_RUNNING : status_t := 4.
Definition E_CMD_FAILED : status_t := 18.
Definition E_CMD_ABORTED : status_t := 19.
Definition E_CMD_PENDING : status_t := 26.
Definition E_RANGE_ERROR : status_t := 28.
Definition E_AXIS_BLOCKED : status_t := 29.

(** [#define GRIPPER_MIN_OPEN 0.0] *)
Definition GRIPPER_MIN_OPEN : F32.t := F32.zero.

(** [const float timeout_commands = 30.0], in nanoseconds of [ros::Time]. *)
Definition timeout_commands : Z := 30 * 1000000000.

(** [ros::Duration(0.1)], in nanoseconds. *)
Definition settle_delay : Z := 100000000.

(** ** Requests, replies and link traffic *)

(** [wsg50_common::Move::Request]: [float32 width], [float32 speed]. *)
Record MoveRequest := { mr_width : F32.t; mr_speed : F32.t }.

(** [wsg50_common::Incr::Request]: [string direction], [float32 increment]. *)
Record IncrRequest := { ir_direction : string; ir_increment : F32.t }.

(** The callbacks that take part in the guard [in_motion]: the motion
    services, which test and hold it, and stop, which lifts it.  These are
    the callbacks the dispatcher of this part of the model runs.  The other
    callbacks [main] registers (the configuration services, the timer and
    the goal topics) neither test nor assign [in_motion], [stop_called] or
    [last_cmd_id]; they are modelled in [Callbacks], over the state of the
    services as they find it. *)
Inductive request :=
| ReqMove (q : MoveRequest)
| ReqGrasp (q : MoveRequest)
| ReqRelease (q : MoveRequest)
| ReqIncrement (q : IncrRequest)
| ReqHoming
| ReqStop.

(** What a service callback hands back: its [bool] result and [res.error]
    ([uint8]); [None] when the callback never assigned the field (the
    [std_srvs::Empty] services have no such field at all). *)
Record reply := { ok : bool; error : option Z }.

(** The library calls of [main.cpp] that write a command frame on the link,
    with the command id the services pair them with. *)
Inductive command :=
| CmdHoming                                             (* homing_async(), 0x20 *)
| CmdMove (width speed : F32.t) (stop_on_block : bool)  (* move_async(), 0x21 *)
| CmdStop (ignore_response : bool)                      (* stop(), 0x22 *)
| CmdGrasp (width speed : F32.t)                        (* grasp_async(), 0x25 *)
| CmdRelease (width speed : F32.t)                      (* release_async(), 0x26 *)
| CmdGetOpening.                                        (* getOpening(), 0x43 *)

Inductive level := Info | Warn | Error.

(** The texts of the ROS log calls, by what they report. *)
Inductive message :=
| MsgBusy            (* "Another Motion Control service is already running..." *)
| MsgRange           (* "Imposible to move to this position..." *)
| MsgSpeedLimits     (* "Speed values are outside the gripper's physical limits ([0.1 - 420.0])..." *)
| MsgProgress        (* "Moving to...", "Grasping object...", "Homing...", ... *)
| MsgDone            (* "Target position reached", "Object grasped correctly.", ... *)
| MsgFailed          (* "Failed while moving : ...", ... *)
| MsgStop            (* "Stop!" *)
| MsgWaiting         (* "Waiting for the last motion control command" *)
| MsgStopped         (* "Stopped." *)
| MsgSizeInvalid.    (* "Gripper size: %d is invalid. Using default size of 210 mm." *)

Inductive event :=
| EvSend (c : command) (rc : Z)               (* a command written, and what the call returned *)
| EvRecvAck (id rc : Z) (st : status_t)       (* recv_ack(id, &status) *)
| EvLog (l : level) (m : message)
| EvSleep (d : Z)
| EvInMotion (b : bool)                       (* in_motion = b *)
| EvStopCalled (b : bool)                     (* stop_called = b *)
| EvReply (r : request) (p : reply)           (* a callback returned to the dispatcher *)
| EvQuit.                                     (* quit(...) *)

(** ** The environment

    The answers of the gripper library, in the order the calls are made. *)
Record env := {
  (** n-th [recv_ack]: its return value (0 no message, 1 message, -1 error),
      the [status] it leaves behind and the time the call took. *)
  ack_at : nat -> Z * status_t * N;
  (** n-th command submission: its return value (0 on success). *)
  send_at : nat -> Z;
  (** n-th [ros::spinOnce()]: the callbacks that are ready. *)
  spin_at : nat -> list request;
  (** n-th [getOpening()]. *)
  opening_at : nat -> F32.t;
  (** The time the n-th command submission took. *)
  send_time_at : nat -> N;
  (** The time the n-th [getOpening()] took. *)
  opening_time_at : nat -> N
}.

(** ** The process state: the globals of [main.cpp], the clock, how far the
    environment has been consumed, and the trace (newest event first).

    [now] is [ros::Time::now()] in nanoseconds.  Time passes while the node
    is in a call of the gripper library (a poll of the link, the writing of
    a command, the query of the opening) and while it sleeps; the steps of
    the node itself take none. *)
Record world := {
  in_motion : bool;
  last_cmd_id : Z;
  stop_called : bool;
  objectGraspped : bool;
  g_size : Z;
  now : Z;
  n_ack : nat;
  n_send : nat;
  n_spin : nat;
  n_open : nat;
  trace : list event
}.

Definition log (e : event) (w : world) : world :=
  {| in_motion := in_motion w; last_cmd_id := last_cmd_id w;
     stop_called := stop_called w; objectGraspped := objectGraspped w;
     g_size := g_size w; now := now w; n_ack := n_ack w; n_send := n_send w;
     n_spin := n_spin w; n_open := n_open w; trace := e :: trace w |}.

Definition set_in_motion (b : bool) (w : world) : world :=
  log (EvInMotion b)
  {| in_motion := b; last_cmd_id := last_cmd_id w;
     stop_called := stop_called w; objectGraspped := objectGraspped w;
     g_size := g_size w; now := now w; n_ack := n_ack w; n_send := n_send w;
     n_spin := n_spin w; n_open := n_open w; trace := trace w |}.

Definition set_stop_called (b : bool) (w : world) : world :=
  log (EvStopCalled b)
  {| in_motion := in_motion w; last_cmd_id := last_cmd_id w;
     stop_called := b; objectGraspped := objectGraspped w;
     g_size := g_size w; now := now w; n_ack := n_ack w; n_send := n_send w;
     n_spin := n_spin w; n_open := n_open w; trace := trace w |}.

Definition set_last_cmd_id (id : Z) (w : world) : world :=
  {| in_motion := in_motion w; last_cmd_id := id;
     stop_called := stop_called w; objectGraspped := objectGraspped w;
     g_size := g_size w; now := now w; n_ack := n_ack w; n_send := n_send w;
     n_spin := n_spin w; n_open := n_open w; trace := trace w |}.

Definition set_objectGraspped (b : bool) (w : world) : world :=
  {| in_motion := in_motion w; last_cmd_id := last_cmd_id w;
     stop_called := stop_called w; objectGraspped := b;
     g_size := g_size w; now := now w; n_ack := n_ack w; n_send := n_send w;
     n_spin := n_spin w; n_open := n_open w; trace := trace w |}.

Definition set_g_size (s : Z) (w : world) : world :=
  {| in_motion := in_motion w; last_cmd_id := last_cmd_id w;
     stop_called := stop_called w; objectGraspped := objectGraspped w;
     g_size := s; now := now w; n_ack := n_ack w; n_send := n_send w;
     n_spin := n_spin w; n_open := n_open w; trace := trace w |}.

(** Time passes by [d] nanoseconds. *)
Definition tick (d : Z) (w : world) : world :=
  {| in_motion := in_motion w; last_cmd_id := last_cmd_id w;
     stop_called := stop_called w; objectGraspped := objectGraspped w;
     g_size := g_size w; now := now w + d; n_ack := n_ack w; n_send := n_send w;
     n_spin := n_spin w; n_open := n_open w; trace := trace w |}.

Definition next_ack (w : world) : world :=
  {| in_motion := in_motion w; last_cmd_id := last_cmd_id w;
     stop_called := stop_called w; objectGraspped := objectGraspped w;
     g_size := g_size w; now := now w; n_ack := S (n_ack w); n_send := n_send w;
     n_spin := n_spin w; n_open := n_open w; trace := trace w |}.

Definition next_send (w : world) : world :=
  {| in_motion := in_motion w; last_cmd_id := last_cmd_id w;
     stop_called := stop_called w; objectGraspped := objectGraspped w;
     g_size := g_size w; now := now w; n_ack := n_ack w; n_send := S (n_send w);
     n_spin := n_spin w; n_open := n_open w; trace := trace w |}.

Definition next_spin (w : world) : world :=
  {| in_motion := in_motion w; last_cmd_id := last_cmd_id w;
     stop_called := stop_called w; objectGraspped := objectGraspped w;
     g_size := g_size w; now := now w; n_ack := n_ack w; n_send := n_send w;
     n_spin := S (n_spin w); n_open := n_open w; trace := trace w |}.

Definition next_open (w : world) : world :=
  {| in_motion := in_motion w; last_cmd_id := last_cmd_id w;
     stop_called := stop_called w; objectGraspped := objectGraspped w;
     g_size := g_size w; now := now w; n_ack := n_ack w; n_send := n_send w;
     n_spin := n_spin w; n_open := S (n_open w); trace := trace w |}.

(** The globals as the process starts ([main] sets [in_motion] and
    [stop_called] to false itself; the others are zero-initialised). *)
Definition boot : world :=
  {| in_motion := false; last_cmd_id := 0; stop_called := false;
     objectGraspped := false; g_size := 0; now := 0; n_ack := 0;
     n_send := 0; n_spin := 0; n_open := 0; trace := [] |}.

(** The size selection of [main]:
    [if (size != 210 && size != 110) { ROS_WARN(...); g_size = 210; }
     else { g_size = size; }] *)
Definition select_size (size : Z) (w : world) : world :=
  if negb (size =? 210) && negb (size =? 110)
  then set_g_size 210 (log (EvLog Warn MsgSizeInvalid) w)
  else set_g_size size w.

(** The state in which [main] starts to serve callbacks. *)
Definition startup (size : Z) : world := select_size size boot.

(** ** Results of running code: a value and the new state, the process
    ended by [quit], or the step budget of the model used up (the loops of
    the node have no bound of their own).  Each carries the state reached. *)
Inductive outcome (A : Type) : Type :=
| Ret (a : A) (w : world)
| Quit (w : world)
| OutOfFuel (w : world).

Arguments Ret {A} a w.
Arguments Quit {A} w.
Arguments OutOfFuel {A} w.

Definition world_of {A : Type} (c : outcome A) : world :=
  match c with
  | Ret _ w => w
  | Quit w => w
  | OutOfFuel w => w
  end.

Definition bind {A B : Type} (c : outcome A) (k : A -> world -> outcome B)
  : outcome B :=
  match c with
  | Ret a w => k a w
  | Quit w => Quit w
  | OutOfFuel w => OutOfFuel w
  end.

(** ** The node *)
Section Node.

Variable E : env.

(** *** Calls into the gripper library *)

(** [recv_ack(cmd_id, &status)]: the next answer of the environment. *)
Definition recv_ack (cmd_id : Z) (w : world) : Z * status_t * world :=
  let '(rc, st, d) := ack_at E (n_ack w) in
  (rc, st, log (EvRecvAck cmd_id rc st) (tick (Z.of_N d) (next_ack w))).

(** A call that writes one command frame and returns an [int]. *)
Definition submit (c : command) (w : world) : Z * world :=
  let rc := send_at E (n_send w) in
  (rc, log (EvSend c rc)
         (tick (Z.of_N (send_time_at E (n_send w))) (next_send w))).

Definition move_async (width speed : F32.t) (stop_on_block : bool) :=
  submit (CmdMove width speed stop_on_block).
Definition grasp_async (width speed : F32.t) := submit (CmdGrasp width speed).
Definition release_async (width speed : F32.t) := submit (CmdRelease width speed).
Definition homing_async := submit CmdHoming.

(** [stop(ignore_response)]; [stop()] is [stop(false)].  The services drop
    what it returns. *)
Definition stop (ignore_response : bool) (w : world) : world :=
  snd (submit (CmdStop ignore_response) w).

(** [getOpening()]: a request on the link and the opening it reports. *)
Definition getOpening (w : world) : F32.t * world :=
  (opening_at E (n_open w),
   log (EvSend CmdGetOpening 0)
     (tick (Z.of_N (opening_time_at E (n_open w))) (next_open w))).

(** [ros::Duration(d).sleep()] *)
Definition sleep (d : Z) (w : world) : world := log (EvSleep d) (tick d w).

(** Modelled from the spec: [quit] is a function of the gripper library, not
    among the sources.  The spec has the expiry of the deadline reported as a
    fatal, process-level condition and not returned to the caller: the
    process ends here. *)
Definition quit {A : Type} (w : world) : outcome A := Quit (log EvQuit w).

(** *** [ros::spinOnce()]: run the callbacks that are ready, one after the
    other, in this same thread. *)
Fixpoint run_callbacks (dispatch : request -> world -> outcome reply)
    (cbs : list request) (w : world) : outcome unit :=
  match cbs with
  | [] => Ret tt w
  | r :: cbs' =>
      bind (dispatch r w) (fun p w1 =>
      run_callbacks dispatch cbs' (log (EvReply r p) w1))
  end.

Definition spinOnce (dispatch : request -> world -> outcome reply)
    (w : world) : outcome unit :=
  run_callbacks dispatch (spin_at E (n_spin w)) (next_spin w).

(** *** The wait loop of the motion services

    [do { msg_available = recv_ack(id, &status); ...; ros::spinOnce();
          if (stop_called) {...; return true;}
          if ((now - begin).toSec() > timeout_commands) quit(...); }
     while (msg_available == 0 || (msg_available == 1 && status == E_CMD_PENDING));]

    [spins] is false for [homingSrv], whose loop neither spins nor looks at
    [stop_called].  [(now - begin).toSec() > 30.0] is a comparison of whole
    nanoseconds: the conversion to [double] is exact to well below one. *)
Inductive waited :=
| Finished (msg_available : Z) (status : status_t)   (* the loop ran to its end *)
| Cancelled.                                         (* left through [stop_called] *)

Definition goes_on (msg_available : Z) (status : status_t) : bool :=
  (msg_available =? 0) || ((msg_available =? 1) && (status =? E_CMD_PENDING)).

Fixpoint await (dispatch : request -> world -> outcome reply) (spins : bool)
    (fuel : nat) (id : Z) (begin : Z) (w : world) : outcome waited :=
  match fuel with
  | O => OutOfFuel w
  | S fuel' =>
      let '(msg_available, status, w1) := recv_ack id w in
      let w2 := if (msg_available =? 1) && (status =? E_CMD_PENDING)
                then log (EvLog Info MsgProgress) w1 else w1 in
      bind (if spins then spinOnce dispatch w2 else Ret tt w2) (fun _ w3 =>
      if spins && stop_called w3 then
        (* res.error = E_CMD_ABORTED; stop_called = false; in_motion = false; *)
        Ret Cancelled (set_in_motion false (set_stop_called false w3))
      else if now w3 - begin >? timeout_commands then quit w3
      else if goes_on msg_available status
           then await dispatch spins fuel' id begin w3
           else Ret (Finished msg_available status) w3)
  end.

(** [res.error = msg_available == -1 ? 255 : status], stored in a [uint8]. *)
Definition error_of (msg_available : Z) (status : status_t) : Z :=
  if msg_available =? -1 then 255 else status mod 256.

(** What follows the loop in move, grasp, release and increment: the settle
    sleep, [in_motion = false], the error code and a log line.
    [graspped] is what a success writes to [objectGraspped], if anything. *)
Definition conclude (graspped : option bool) (r : waited) (w : world)
  : outcome reply :=
  match r with
  | Cancelled => Ret {| ok := true; error := Some E_CMD_ABORTED |} w
  | Finished msg_available status =>
      let w1 := set_in_motion false (sleep settle_delay w) in
      let err := error_of msg_available status in
      if err =? 0 then
        let w2 := match graspped with
                  | Some b => set_objectGraspped b w1
                  | None => w1
                  end in
        Ret {| ok := true; error := Some err |} (log (EvLog Info MsgDone) w2)
      else
        Ret {| ok := true; error := Some err |} (log (EvLog Error MsgFailed) w1)
  end.

(** The width test shared by move, grasp and release:
    [req.width < 0.0 || req.width > g_size]. *)
Definition width_out_of_range (width : F32.t) (w : world) : bool :=
  F32.lt width F32.zero || F32.gt width (F32.of_int (g_size w)).

(** The speed test: [req.speed < 0.0 || req.speed > 420.0]. *)
Definition speed_out_of_limits (speed : F32.t) : bool :=
  F32.lt speed F32.zero || F32.gt speed F32.c420.

Definition busy_reply : reply := {| ok := true; error := Some E_ALREADY_RUNNING |}.

(** *** The services, parametrised by the dispatcher [ros::spinOnce] runs *)
Section Services.

Variable dispatch : request -> world -> outcome reply.
Variable fuel : nat.

Definition moveSrv (req : MoveRequest) (w : world) : outcome reply :=
  if in_motion w then
    Ret busy_reply (log (EvLog Warn MsgBusy) w)
  else if width_out_of_range (mr_width req) w then
    Ret {| ok := false; error := Some E_RANGE_ERROR |}
        (log (EvLog Error MsgRange) w)
  else
    let w1 := if speed_out_of_limits (mr_speed req)
              then log (EvLog Warn MsgSpeedLimits) w else w in
    let '(rc, w2) := move_async (mr_width req) (mr_speed req) false w1 in
    if rc =? 0 then
      let w3 := set_last_cmd_id 0x21 (set_in_motion true w2) in
      bind (await dispatch true fuel 0x21 (now w3) w3) (conclude None)
    else Ret {| ok := true; error := Some 255 |} w2.

Definition graspSrv (req : MoveRequest) (w : world) : outcome reply :=
  if in_motion w then
    Ret busy_reply (log (EvLog Warn MsgBusy) w)
  else if width_out_of_range (mr_width req) w then
    Ret {| ok := false; error := Some E_RANGE_ERROR |}
        (log (EvLog Error MsgRange) w)
  else
    let w1 := if speed_out_of_limits (mr_speed req)
              then log (EvLog Warn MsgSpeedLimits) w else w in
    let '(rc, w2) := grasp_async (mr_width req) (mr_speed req) w1 in
    if rc =? 0 then
      let w3 := set_last_cmd_id 0x25 (set_in_motion true w2) in
      bind (await dispatch true fuel 0x25 (now w3) w3) (conclude (Some true))
    else Ret {| ok := true; error := Some 255 |} w2.

Definition releaseSrv (req : MoveRequest) (w : world) : outcome reply :=
  if in_motion w then
    Ret busy_reply (log (EvLog Warn MsgBusy) w)
  else if width_out_of_range (mr_width req) w then
    Ret {| ok := false; error := Some E_RANGE_ERROR |}
        (log (EvLog Error MsgRange) w)
  else
    let w1 := if speed_out_of_limits (mr_speed req)
              then log (EvLog Warn MsgSpeedLimits) w else w in
    let '(rc, w2) := release_async (mr_width req) (mr_speed req) w1 in
    if rc =? 0 then
      let w3 := set_last_cmd_id 0x26 (set_in_motion true w2) in
      bind (await dispatch true fuel 0x26 (now w3) w3) (conclude (Some false))
    else Ret {| ok := true; error := Some 255 |} w2.

(** The target and speed [incrementSrv] derives; [None] when the direction is
    neither ["open"] nor ["close"] (the locals stay unset and are not read). *)
Definition increment_target (req : IncrRequest) (w : world)
  : option (F32.t * F32.t) * world :=
  if String.eqb (ir_direction req) "open" then
    let '(currentWidth, w1) := getOpening w in
    let nextWidth := F32.add currentWidth (ir_increment req) in
    let nextWidth := if F32.ge nextWidth (F32.of_int (g_size w))
                     then F32.of_int (g_size w) else nextWidth in
    let speed := if F32.ge nextWidth (F32.of_int (g_size w))
                 then F32.c1 else F32.c20 in
    (Some (nextWidth, speed), w1)
  else if String.eqb (ir_direction req) "close" then
    let '(currentWidth, w1) := getOpening w in
    let nextWidth := F32.sub currentWidth (ir_increment req) in
    let nextWidth := if F32.le nextWidth GRIPPER_MIN_OPEN
                     then GRIPPER_MIN_OPEN else nextWidth in
    let speed := if F32.le nextWidth GRIPPER_MIN_OPEN
                 then F32.c1 else F32.c20 in
    (Some (nextWidth, speed), w1)
  else (None, w).

Definition incrementSrv (req : IncrRequest) (w : world) : outcome reply :=
  if in_motion w then
    Ret busy_reply (log (EvLog Warn MsgBusy) w)
  else
    match increment_target req w with
    | (Some (nextWidth, speed), w1) =>
        let '(rc, w2) := move_async nextWidth speed true w1 in
        if rc =? 0 then
          let w3 := set_last_cmd_id 0x21 (set_in_motion true w2) in
          bind (await dispatch true fuel 0x21 (now w3) w3) (conclude None)
        else Ret {| ok := true; error := Some 255 |} w2
    | (None, w1) => Ret {| ok := true; error := None |} w1
    end.

Definition homingSrv (w : world) : outcome reply :=
  if in_motion w then
    Ret {| ok := false; error := None |} (log (EvLog Warn MsgBusy) w)
  else
    let '(rc, w1) := homing_async w in
    if rc =? 0 then
      let w2 := set_last_cmd_id 0x20 (set_in_motion true w1) in
      bind (await dispatch false fuel 0x20 (now w2) w2) (fun r w3 =>
      match r with
      | Cancelled => (* not reached: this loop has no such branch *)
          Ret {| ok := true; error := None |} w3
      | Finished msg_available status =>
          let w4 := set_in_motion false (sleep settle_delay w3) in
          if msg_available =? -1 then Ret {| ok := false; error := None |} w4
          else if (msg_available =? 1) && (status =? E_SUCCESS) then
            Ret {| ok := true; error := None |} (log (EvLog Info MsgDone) w4)
          else
            Ret {| ok := false; error := None |} (log (EvLog Error MsgFailed) w4)
      end)
    else Ret {| ok := true; error := None |} w1.

(** [while (recv_ack(last_cmd_id, &status) == 0);] *)
Fixpoint drain (n : nat) (id : Z) (w : world) : outcome unit :=
  match n with
  | O => OutOfFuel w
  | S n' =>
      let '(rc, _, w1) := recv_ack id w in
      if rc =? 0 then drain n' id w1 else Ret tt w1
  end.

Definition stopSrv (w : world) : outcome reply :=
  let w1 := log (EvLog Warn MsgStop) w in
  bind (if in_motion w1 then
          let w2 := stop (last_cmd_id w1 =? 0x20) w1 in
          let w3 := log (EvLog Warn MsgWaiting) w2 in
          bind (drain fuel (last_cmd_id w3) w3) (fun _ w4 =>
          Ret tt (set_stop_called true w4))
        else Ret tt (stop false w1)) (fun _ w5 =>
  Ret {| ok := true; error := None |} (log (EvLog Warn MsgStopped) w5)).

End Services.

(** *** The dispatcher: which callback serves which request.  A callback
    that spins runs the dispatcher again, one level down; [fuel] bounds both
    that depth and the turns of a loop. *)
Fixpoint serve (fuel : nat) (r : request) (w : world) : outcome reply :=
  match fuel with
  | O => OutOfFuel w
  | S fuel' =>
      match r with
      | ReqMove q => moveSrv (serve fuel') fuel' q w
      | ReqGrasp q => graspSrv (serve fuel') fuel' q w
      | ReqRelease q => releaseSrv (serve fuel') fuel' q w
      | ReqIncrement q => incrementSrv (serve fuel') fuel' q w
      | ReqHoming => homingSrv (serve fuel') fuel' w
      | ReqStop => stopSrv fuel' w
      end
  end.

(** [ros::spin()]: the callbacks of [reqs], one after the other. *)
Definition spin (fuel : nat) (reqs : list request) (w : world) : outcome unit :=
  run_callbacks (serve fuel) reqs w.

End Node.

(** ** The streaming reader, [read_thread] *)
Module Reader.

(** [msg_t] of [wsg50/msg.h]: [id], [len], [data]; bytes are numbers below 256. *)
Record msg_t := { id : Z; len : Z; data : list Z }.

(** Modelled from the spec: [cmd_get_response_status] belongs to the gripper
    library, which is not among the sources.  The payload starts with a
    2-byte status header, little-endian like the other fields. *)
Definition cmd_get_response_status (d : list Z) : status_t :=
  nth 0 d 0 + 256 * nth 1 d 0.

(** Modelled from the spec: [convert] belongs to the gripper library, which is
    not among the sources.  It reads a little-endian 32-bit floating-point
    field: sign bit, 8 exponent bits, 23 fraction bits. *)
Definition convert (d : list Z) : F32.t :=
  let bits := nth 0 d 0 + 256 * nth 1 d 0 + 65536 * nth 2 d 0
              + 16777216 * nth 3 d 0 in
  let s := Z.testbit bits 31 in
  let e := Z.land (Z.shiftr bits 23) 255 in
  let f := Z.land bits 8388607 in
  if e =? 0 then
    match f with
    | Zpos m => S754_finite s m (-149)
    | _ => S754_zero s
    end
  else if e =? 255 then
    (if f =? 0 then S754_infinity s else S754_nan)
  else
    match f + 8388608 with
    | Zpos m => S754_finite s m (e - 150)
    | _ => S754_zero s
    end.

(** What the thread hands to the outside. *)
Inductive output :=
| PubState (position speed f_motor : F32.t)   (* publish_status_and_joint_states(info) *)
| PubMoving (b : bool)                        (* g_pub_moving.publish(...) *)
| LogTooShort                                 (* "Gripper response failure: too short" *)
| LogFailure                                  (* "Gripper response failure for opening/speed/force" *)
| LogMotion (s : status_t)                    (* "Position reached", "Axis blocked", ... *)
| LogUnknown (id len : Z).                    (* "Received unknown respone ..." *)

(** The locals of [read_thread] that live across iterations, [g_ismoving],
    and what has been published and logged so far (newest first). *)
Record state := {
  position : F32.t;       (* info.position *)
  speed : F32.t;          (* info.speed *)
  f_motor : F32.t;        (* info.f_motor *)
  pub_state : bool;
  g_ismoving : bool;
  cnt : Z * Z * Z;
  outputs : list output
}.

Definition emit (o : output) (r : state) : state :=
  {| position := position r; speed := speed r; f_motor := f_motor r;
     pub_state := pub_state r; g_ismoving := g_ismoving r; cnt := cnt r;
     outputs := o :: outputs r |}.

(** The [switch (msg.id)]: the new state and [motion]. *)
Definition handle (m : msg_t) (status : status_t) (val : F32.t) (r : state)
  : state * Z :=
  let '(c0, c1, c2) := cnt r in
  if id m =? 0x43 then
    ({| position := val; speed := speed r; f_motor := f_motor r;
        pub_state := true; g_ismoving := g_ismoving r; cnt := (c0 + 1, c1, c2);
        outputs := outputs r |}, -1)
  else if id m =? 0x44 then
    ({| position := position r; speed := val; f_motor := f_motor r;
        pub_state := pub_state r; g_ismoving := g_ismoving r;
        cnt := (c0, c1 + 1, c2); outputs := outputs r |}, -1)
  else if id m =? 0x45 then
    ({| position := position r; speed := speed r; f_motor := val;
        pub_state := pub_state r; g_ismoving := g_ismoving r;
        cnt := (c0, c1, c2 + 1); outputs := outputs r |}, -1)
  else if id m =? 0x21 then
    (emit (LogMotion status) r,
     if status =? E_SUCCESS then 0
     else if status =? E_AXIS_BLOCKED then 0
     else if status =? E_CMD_PENDING then 1
     else if status =? E_ALREADY_RUNNING then -1
     else if status =? E_CMD_ABORTED then 0
     else 0)
  else if id m =? 0x22 then (r, -1)
  else (emit (LogUnknown (id m) (len m)) r, -1).

(** The two publications that end an iteration. *)
Definition publish (motion : Z) (r : state) : state :=
  let r1 := if (motion =? 0) || (motion =? 1) then
              {| position := position r; speed := speed r;
                 f_motor := f_motor r; pub_state := pub_state r;
                 g_ismoving := negb (motion =? 0); cnt := cnt r;
                 outputs := PubMoving (negb (motion =? 0)) :: outputs r |}
            else r in
  if pub_state r1 then
    {| position := position r1; speed := speed r1; f_motor := f_motor r1;
       pub_state := false; g_ismoving := g_ismoving r1; cnt := cnt r1;
       outputs := PubState (position r1) (speed r1) (f_motor r1)
                  :: outputs r1 |}
  else r1.

(** One turn of [while (g_mode_periodic)], given what [msg_receive] gave.
    (The rate report every five seconds only logs and clears [cnt]; it is
    left out.) *)
Definition iteration (res : Z) (m : msg_t) (r : state) : state :=
  if (res <? 0) || (len m <? 2) then emit LogTooShort r
  else
    let status := cmd_get_response_status (data m) in
    if (0x43 <=? id m) && (id m <=? 0x45) && (len m =? 6) then
      if negb (status =? E_SUCCESS) then emit LogFailure r
      else
        let val := convert (skipn 2 (data m)) in
        let '(r1, motion) := handle m status val r in
        publish motion r1
    else
      let '(r1, motion) := handle m status F32.zero r in
      publish motion r1.

Fixpoint read_thread (received : list (Z * msg_t)) (r : state) : state :=
  match received with
  | [] => r
  | (res, m) :: rest => read_thread rest (iteration res m r)
  end.

(** The state at the top of the loop: nothing published yet. *)
Definition start (p s f : F32.t) : state :=
  {| position := p; speed := s; f_motor := f; pub_state := false;
     g_ismoving := false; cnt := (0, 0, 0); outputs := [] |}.

(** How many state publications a list of outputs holds. *)
Definition publications (os : list output) : nat :=
  List.length (filter (fun o => match o with PubState _ _ _ => true | _ => false end) os).

End Reader.

(** ** Vocabulary of the properties *)

(** The commands written so far, newest first. *)
Definition sent (tr : list event) : list command :=
  flat_map (fun e => match e with EvSend c _ => [c] | _ => [] end) tr.

(** The replies handed to the dispatcher so far, newest first. *)
Definition replies (tr : list event) : list reply :=
  flat_map (fun e => match e with EvReply _ p => [p] | _ => [] end) tr.

(** The answers of [recv_ack] so far, newest first: id asked for, return
    value, status. *)
Definition polls (tr : list event) : list (Z * Z * status_t) :=
  flat_map (fun e => match e with EvRecvAck i rc st => [(i, rc, st)] | _ => [] end) tr.

Definition is_stop (c : command) : bool :=
  match c with CmdStop _ => true | _ => false end.

(** *** The moves of the motion services and stop

    Every state change these callbacks make is one of these.  The two that
    write anything but a Stop on the link, and the setting of the guard
    [in_motion], are only made with the guard clear; the guard is only
    cleared while set. *)
Inductive prim (E : env) : world -> world -> Prop :=
| prim_log : forall l m w, prim E w (log (EvLog l m) w)
| prim_recv : forall id w, prim E w (snd (recv_ack E id w))
| prim_stop : forall b w, prim E w (stop E b w)
| prim_submit : forall c w,
    in_motion w = false -> prim E w (snd (submit E c w))
| prim_opening : forall w,
    in_motion w = false -> prim E w (snd (getOpening E w))
| prim_issued : forall id w,
    in_motion w = false ->
    prim E w (set_last_cmd_id id (set_in_motion true w))
| prim_settled : forall w,
    in_motion w = true ->
    prim E w (set_in_motion false (sleep settle_delay w))
| prim_aborted : forall w,
    in_motion w = true ->
    prim E w (set_in_motion false (set_stop_called false w))
| prim_stop_called : forall w, prim E w (set_stop_called true w)
| prim_spin : forall w, prim E w (next_spin w)
| prim_reply : forall r p w, prim E w (log (EvReply r p) w)
| prim_graspped : forall b w, prim E w (set_objectGraspped b w)
| prim_quit : forall w, prim E w (log EvQuit w).

Inductive steps (E : env) (w : world) : world -> Prop :=
| steps_refl : steps E w w
| steps_snoc : forall w1 w2, steps E w w1 -> prim E w1 w2 -> steps E w w2.

(** *** Properties of a trace (newest event first) *)

(** The guard as the trace leaves it: the last assignment to [in_motion]. *)
Fixpoint guard_of (tr : list event) : bool :=
  match tr with
  | [] => false
  | EvInMotion b :: _ => b
  | _ :: older => guard_of older
  end.

(** Single flight: the motion services and stop write nothing but a Stop
    while the guard is set; the guard is only set while clear and only
    cleared while set. *)
Fixpoint single_flight (tr : list event) : bool :=
  match tr with
  | [] => true
  | e :: older =>
      single_flight older &&
      match e with
      | EvSend c _ => is_stop c || negb (guard_of older)
      | EvInMotion true => negb (guard_of older)
      | EvInMotion false => guard_of older
      | _ => true
      end
  end.

(** The commands of the motion services: those of [homing_async],
    [move_async], [grasp_async] and [release_async]. *)
Definition is_motion (c : command) : bool :=
  match c with
  | CmdHoming | CmdMove _ _ _ | CmdGrasp _ _ | CmdRelease _ _ => true
  | _ => false
  end.

(** One motion service at a time: a command of the motion services is only
    written, and the guard only set, while the guard is clear; the guard is
    only cleared while set. *)
Fixpoint one_at_a_time (tr : list event) : bool :=
  match tr with
  | [] => true
  | e :: older =>
      one_at_a_time older &&
      match e with
      | EvSend c _ => negb (is_motion c) || negb (guard_of older)
      | EvInMotion true => negb (guard_of older)
      | EvInMotion false => guard_of older
      | _ => true
      end
  end.

(** Every clearing of the guard comes right after the settle sleep. *)
Fixpoint settles_always (tr : list event) : bool :=
  match tr with
  | [] => true
  | e :: older =>
      settles_always older &&
      match e, older with
      | EvInMotion false, EvSleep d :: _ => d =? settle_delay
      | EvInMotion false, _ => false
      | _, _ => true
      end
  end.

(** Every clearing of the guard comes right after the settle sleep, or is the
    one of the cancellation branch, which follows [stop_called = false]. *)
Fixpoint settles_unless_cancelled (tr : list event) : bool :=
  match tr with
  | [] => true
  | e :: older =>
      settles_unless_cancelled older &&
      match e, older with
      | EvInMotion false, EvSleep d :: _ => d =? settle_delay
      | EvInMotion false, EvStopCalled false :: _ => true
      | EvInMotion false, _ => false
      | _, _ => true
      end
  end.

(** *** Waiting *)

(** A motion request that passes the checks of its service and whose command
    is written with success: from here on the service waits. *)
Definition accepted (E : env) (r : request) (w : world) : bool :=
  negb (in_motion w) && (send_at E (n_send w) =? 0) &&
  match r with
  | ReqMove q | ReqGrasp q | ReqRelease q =>
      negb (width_out_of_range (mr_width q) w)
  | ReqIncrement q =>
      String.eqb (ir_direction q) "open" || String.eqb (ir_direction q) "close"
  | ReqHoming => true
  | ReqStop => false
  end.

(** The clock once a service called in state [w] has made the library calls
    that come before its wait: the query of the opening, for an increment,
    and the writing of the command.  For a request that is accepted this is
    the time the service reads as [begin]. *)
Definition begin_of (E : env) (r : request) (w : world) : Z :=
  now w
  + match r with
    | ReqIncrement _ => Z.of_N (opening_time_at E (n_open w))
    | _ => 0
    end
  + Z.of_N (send_time_at E (n_send w)).

(** The time the [n] calls of [recv_ack] from the [k]-th on take together. *)
Fixpoint elapsed (E : env) (k n : nat) : Z :=
  match n with
  | O => 0
  | S n' => Z.of_N (snd (ack_at E k)) + elapsed E (S k) n'
  end.

(** The [k]-th answer lets the wait loop go round again: no message, or the
    interim status. *)
Definition interim (E : env) (k : nat) : bool :=
  goes_on (fst (fst (ack_at E k))) (snd (fst (ack_at E k))).

(** *** Finite environments, for running the node on given answers *)

(** Writes and queries take the times [send_times] and [opening_times]. *)
Definition env_with (acks : list (Z * status_t * N)) (sends : list Z)
    (spins : list (list request)) (openings : list F32.t)
    (send_times opening_times : list N) : env :=
  {| ack_at := fun n => nth n acks (0, 0, 1000000%N);
     send_at := fun n => nth n sends 0;
     spin_at := fun n => nth n spins [];
     opening_at := fun n => nth n openings F32.zero;
     send_time_at := fun n => nth n send_times 0%N;
     opening_time_at := fun n => nth n opening_times 0%N |}.

(** Writes and queries take no time. *)
Definition env_of (acks : list (Z * status_t * N)) (sends : list Z)
    (spins : list (list request)) (openings : list F32.t) : env :=
  env_with acks sends spins openings [] [].

(** *** The node against its moves *)

(** A dispatcher that only makes moves of the node and leaves a set guard
    set. *)
Definition sound (E : env) (dispatch : request -> world -> outcome reply)
  : Prop :=
  forall r w,
    steps E w (world_of (dispatch r w)) /\
    (in_motion w = true -> in_motion (world_of (dispatch r w)) = true).

(** The wait loop keeps the guard set, unless it leaves through the
    cancellation branch. *)
Definition still_busy (o : outcome waited) : Prop :=
  match o with
  | Ret Cancelled _ => True
  | _ => in_motion (world_of o) = true
  end.

(** The part move, grasp, release and increment share once the checks are
    passed: write the command, set the guard, wait, conclude. *)
Definition issue (E : env) (dispatch : request -> world -> outcome reply)
    (fuel : nat) (c : command) (id : Z) (g : option bool) (w : world)
  : outcome reply :=
  let '(rc, w2) := submit E c w in
  if rc =? 0 then
    let w3 := set_last_cmd_id id (set_in_motion true w2) in
    bind (await E dispatch true fuel id (now w3) w3) (conclude g)
  else Ret {| ok := true; error := Some 255 |} w2.

(** What the node has done is consistent with its guard. *)
Definition coherent (w : world) : Prop :=
  guard_of (trace w) = in_motion w /\
  single_flight (trace w) = true /\
  settles_unless_cancelled (trace w) = true.

(** [w'] differs from [w] in nothing the wait loop looks at. *)
Definition unmoved (w w' : world) : Prop :=
  in_motion w' = in_motion w /\ stop_called w' = stop_called w /\
  now w' = now w /\ n_ack w' = n_ack w /\ n_spin w' = n_spin w /\
  last_cmd_id w' = last_cmd_id w /\ sent (trace w') = sent (trace w).

(** The command a move, grasp or release request asks for. *)
Definition motion_command (r : request) : option command :=
  match r with
  | ReqMove q => Some (CmdMove (mr_width q) (mr_speed q) false)
  | ReqGrasp q => Some (CmdGrasp (mr_width q) (mr_speed q))
  | ReqRelease q => Some (CmdRelease (mr_width q) (mr_speed q))
  | _ => None
  end.

(** *** Example requests, environments and states *)

Definition move_to (width speed : Z) : MoveRequest :=
  {| mr_width := F32.of_int width; mr_speed := F32.of_int speed |}.

Definition step_by (direction : string) (increment : Z) : IncrRequest :=
  {| ir_direction := direction; ir_increment := F32.of_int increment |}.

(** Nothing ever arrives, every command is written, no callback is ready. *)
Definition silent : env := env_of [] [] [] [].

(** A move has been issued on a 210 mm gripper and is being waited for. *)
Definition pending : world :=
  world_of (serve silent 1 (ReqMove (move_to 50 100)) (startup 210)).

(** A stop comes in before the first answer to a move: the first poll finds
    nothing, [stopSrv] then reads the interim frame of the move, and the
    frame that ends the move (aborted) is still to come. *)
Definition stop_races_ack : env :=
  env_of [(0, 0, 1000%N); (1, E_CMD_PENDING, 1000%N); (1, E_CMD_ABORTED, 1000%N);
          (1, E_CMD_PENDING, 1000%N); (1, E_SUCCESS, 1000%N)]
         [] [[ReqStop]] [].

(** Writing a command takes two seconds and every poll ten; the second
    poll brings the interim status. *)
Definition slow_link : env :=
  env_with [(0, 0, 10000000000%N); (1, E_CMD_PENDING, 10000000000%N);
            (0, 0, 10000000000%N); (0, 0, 10000000000%N)] [] [] []
           [2000000000%N] [].

(** The first poll fails. *)
Definition link_fails : env := env_of [(-1, 0, 1000%N)] [] [] [].

(** A stop comes in before the first answer to a move and reads the interim
    frame of the move; nothing comes after. *)
Definition stop_then_silence : env :=
  env_of [(0, 0, 1000%N); (1, E_CMD_PENDING, 1000%N)] [] [[ReqStop]] [].

(** A stop comes in before the first answer to a move, and the link stays
    silent; every poll takes a second. *)
Definition silent_seconds : env :=
  {| ack_at := fun _ => (0, 0, 1000000000%N);
     send_at := fun _ => 0;
     spin_at := fun n => match n with O => [ReqStop] | _ => [] end;
     opening_at := fun _ => F32.zero;
     send_time_at := fun _ => 0%N;
     opening_time_at := fun _ => 0%N |}.

(** The gripper reports an opening of 10 mm, then of 208 mm. *)
Definition opened_10_then_208 : env :=
  env_of [(1, E_SUCCESS, 1000%N); (1, E_SUCCESS, 1000%N)] [] []
         [F32.of_int 10; F32.of_int 208].

(** A move completes at the first poll. *)
Definition prompt : env := env_of [(1, E_SUCCESS, 1000%N)] [] [] [].

(** An error reply to the opening request: the two status bytes
    ([E_CMD_FAILED]) and nothing else. *)
Definition failed_opening : Reader.msg_t :=
  {| Reader.id := 0x43; Reader.len := 2; Reader.data := [18; 0] |}.

(** The same error with the six bytes of a reply that carries a value. *)
Definition failed_opening_6 : Reader.msg_t :=
  {| Reader.id := 0x43; Reader.len := 6; Reader.data := [18; 0; 0; 0; 72; 66] |}.

(** A pushed opening of 50.0 ([0x42480000], little-endian after the status). *)
Definition opening_50 : Reader.msg_t :=
  {| Reader.id := 0x43; Reader.len := 6; Reader.data := [0; 0; 0; 0; 72; 66] |}.

(** ** Further vocabulary: the services *)

(** No [stop(true)] has been written: every Stop so far awaits its answer. *)
Definition no_blind_stop (w : world) : Prop :=
  ~ In (CmdStop true) (sent (trace w)).

(** A motion request that gets past the guard and the checks of its service
    (whether its command can then be written is another matter). *)
Definition passes_checks (r : request) (w : world) : bool :=
  negb (in_motion w) &&
  match r with
  | ReqMove q | ReqGrasp q | ReqRelease q =>
      negb (width_out_of_range (mr_width q) w)
  | ReqIncrement q =>
      String.eqb (ir_direction q) "open" || String.eqb (ir_direction q) "close"
  | ReqHoming => true
  | ReqStop => false
  end.

(** The command id a motion service waits for. *)
Definition command_id (r : request) : Z :=
  match r with
  | ReqMove _ | ReqIncrement _ => 0x21
  | ReqGrasp _ => 0x25
  | ReqRelease _ => 0x26
  | ReqHoming => 0x20
  | ReqStop => 0x22
  end.

(** ** Further vocabulary: the streaming reader *)

(** A received frame that reaches [case 0x43]: it is not too short, carries
    the opening id and, when it is six bytes long, the status of success. *)
Definition opening_frame (x : Z * Reader.msg_t) : bool :=
  let '(res, m) := x in
  negb ((res <? 0) || (Reader.len m <? 2)) && (Reader.id m =? 0x43) &&
  (negb (Reader.len m =? 6) ||
   (Reader.cmd_get_response_status (Reader.data m) =? E_SUCCESS)).

(** What a received frame tells about motion: a reply to a move (id 0x21)
    that is not too short says the gripper moves when its status is
    [E_CMD_PENDING], says nothing when it is [E_ALREADY_RUNNING], and says
    the gripper stands still otherwise. *)
Definition motion_reply (x : Z * Reader.msg_t) : option bool :=
  let '(res, m) := x in
  if negb ((res <? 0) || (Reader.len m <? 2)) && (Reader.id m =? 0x21) then
    let status := Reader.cmd_get_response_status (Reader.data m) in
    if status =? E_ALREADY_RUNNING then None
    else Some (status =? E_CMD_PENDING)
  else None.

(** The values the reader has published on the [moving] topic, newest first. *)
Definition moving_published (os : list Reader.output) : list bool :=
  flat_map (fun o => match o with Reader.PubMoving b => [b] | _ => [] end) os.

(** ** The other callbacks of the node and [main]

    The configuration services ([setAccSrv], [setForceSrv], [ackSrv]), the
    goal topics ([position_cb], [speed_cb]), the timer ([timer_cb]), the
    signal handler and [main].  They share the globals of the services
    ([base]) and have globals of their own.  Their calls into the gripper
    library are answered by a [library] and recorded, in order and together
    with what they publish and log, in [done] (newest first). *)
Module Callbacks.

(** C [double] is IEEE-754 binary64. *)
Definition double := spec_float.

(** Conversion of a [double] argument to a [float] parameter (round to
    nearest, ties to even). *)
Definition to_float (x : double) : F32.t :=
  match x with
  | S754_finite s m e =>
      binary_normalize F32.prec F32.emax (cond_Zopp s (Zpos m)) e s
  | _ => x
  end.

(** Conversion of an [int] to [double]. *)
Definition of_int (z : Z) : double := binary_normalize 53 1024 z 0 false.

(** [std::isnan] *)
Definition isnan (x : F32.t) : bool :=
  match x with S754_nan => true | _ => false end.

(** [NAN] *)
Definition NAN : F32.t := S754_nan.

(** Modelled from the spec: [gripper_response] is declared in
    [wsg50/functions.h], which is not among the sources.  It is the
    telemetry snapshot of the spec (position, speed, force, acceleration,
    state text); the fields are those [main.cpp] reads and writes. *)
Record gripper_response := {
  state_text : string;
  position : F32.t;
  speed : F32.t;
  acceleration : F32.t;
  f_motor : F32.t;
  f_finger0 : F32.t;
  f_finger1 : F32.t;
  ismoving : bool
}.

(** The functions of the gripper library these callbacks and [main] call. *)
Inductive call :=
| SystemState                                          (* systemState() *)
| GetOpening                                           (* getOpening() *)
| GetAcceleration                                      (* getAcceleration() *)
| GetForce                                             (* getForce() *)
| ScriptMeasureMove (cmd_type : Z) (width speed : F32.t)
                                                       (* script_measure_move(...) *)
| Stop (ignore_response : bool)                        (* stop(...) *)
| Move (width speed : F32.t) (stop_on_block ignore_response : bool)
                                                       (* move(...) *)
| SetAcceleration (val : F32.t)                        (* setAcceleration(...) *)
| SetGraspingForceLimit (val : F32.t)                  (* setGraspingForceLimit(...) *)
| AckFault                                             (* ack_fault() *)
| Homing                                               (* homing() *)
| ConnectSerial (device : string) (baudrate : Z)       (* cmd_connect_serial(...) *)
| ConnectUdp (local_port : Z) (ip : string) (port : Z) (* cmd_connect_udp(...) *)
| ConnectTcp (ip : string) (port : Z)                  (* cmd_connect_tcp(...) *)
| Disconnect.                                          (* cmd_disconnect() *)

(** The texts of the ROS log calls, by what they report. *)
Inductive note :=
| NotePositionCommand    (* "Position command: pos=..., speed=..." *)
| NoteVelocityCommand    (* "Velocity command: speed=..." *)
| NoteMeasureFailed      (* "Measure-and-move command failed" *)
| NoteMoveFailed         (* "Failed to send MOVE command" *)
| NoteExiting            (* "Exiting..." *)
| NoteConnecting         (* "Connecting to ...; communication mode: ..." *)
| NoteUnknownProtocol    (* "UNKNOWN protocol!" *)
| NoteConnected          (* "Gripper connection established" *)
| NoteReady              (* "Ready to use, homing now..." *)
| NoteForceLimit         (* "Setting grasping force limit to ..." *)
| NoteInitDone           (* "Init done. Starting timer/thread with target rate ..." *)
| NoteUnableToConnect.   (* "Unable to connect, please check the port and address used." *)

Inductive act :=
| Called (c : call)
| PubStatus (info : gripper_response)      (* publish_status_and_joint_states(info) *)
| PubMoving (data : bool)                  (* g_pub_moving.publish(moving_msg) *)
| PubComponentStatus (status_id : Z) (status_msg : string)
                                           (* component_status.publish(cstatus_msg) *)
| Logged (l : level) (m : note)
| AdvertisedService (name : string)        (* nh.advertiseService(name, ...) *)
| Subscribed (topic : string)              (* nh.subscribe(topic, ...) *)
| AdvertisedTopic (topic : string)         (* nh.advertise<...>(topic, ...) *)
| TimerCreated (rate : double)             (* nh.createTimer(ros::Duration(1.0/rate), timer_cb) *)
| ThreadStarted (rate : double)            (* std::thread(read_thread, (int)(1000.0/rate)) *)
| Slept (seconds : Z)                      (* sleep(seconds) *)
| Spun                                     (* ros::spin() *)
| Shutdown.                                (* ros::shutdown() *)

(** The answers of the gripper library, by the number of the call. *)
Record library := {
  (** what the local [info] of [timer_cb] holds when it is declared *)
  info_at : nat -> gripper_response;
  (** [systemState()]: a text, or a null pointer *)
  systemState_at : nat -> option string;
  (** [getOpening()], [getAcceleration()], [getForce()] *)
  float_at : nat -> F32.t;
  (** [script_measure_move(..., info)]: its result and what it leaves in [info] *)
  script_measure_move_at : nat -> gripper_response -> Z * gripper_response;
  (** [move(...)], [cmd_connect_...(...)] *)
  int_at : nat -> Z
}.

Record node := {
  base : world;
  g_mode_script : bool;
  g_mode_periodic : bool;
  g_mode_polling : bool;
  g_goal_position : F32.t;
  g_goal_speed : F32.t;
  g_speed : F32.t;
  g_ismoving : bool;
  n_call : nat;
  done : list act
}.

Definition record (a : act) (n : node) : node :=
  {| base := base n; g_mode_script := g_mode_script n;
     g_mode_periodic := g_mode_periodic n; g_mode_polling := g_mode_polling n;
     g_goal_position := g_goal_position n; g_goal_speed := g_goal_speed n;
     g_speed := g_speed n; g_ismoving := g_ismoving n; n_call := n_call n;
     done := a :: done n |}.

Definition set_base (w : world) (n : node) : node :=
  {| base := w; g_mode_script := g_mode_script n;
     g_mode_periodic := g_mode_periodic n; g_mode_polling := g_mode_polling n;
     g_goal_position := g_goal_position n; g_goal_speed := g_goal_speed n;
     g_speed := g_speed n; g_ismoving := g_ismoving n; n_call := n_call n;
     done := done n |}.

Definition set_g_mode_script (b : bool) (n : node) : node :=
  {| base := base n; g_mode_script := b;
     g_mode_periodic := g_mode_periodic n; g_mode_polling := g_mode_polling n;
     g_goal_position := g_goal_position n; g_goal_speed := g_goal_speed n;
     g_speed := g_speed n; g_ismoving := g_ismoving n; n_call := n_call n;
     done := done n |}.

Definition set_g_mode_periodic (b : bool) (n : node) : node :=
  {| base := base n; g_mode_script := g_mode_script n;
     g_mode_periodic := b; g_mode_polling := g_mode_polling n;
     g_goal_position := g_goal_position n; g_goal_speed := g_goal_speed n;
     g_speed := g_speed n; g_ismoving := g_ismoving n; n_call := n_call n;
     done := done n |}.

Definition set_g_mode_polling (b : bool) (n : node) : node :=
  {| base := base n; g_mode_script := g_mode_script n;
     g_mode_periodic := g_mode_periodic n; g_mode_polling := b;
     g_goal_position := g_goal_position n; g_goal_speed := g_goal_speed n;
     g_speed := g_speed n; g_ismoving := g_ismoving n; n_call := n_call n;
     done := done n |}.

Definition set_g_goal_position (x : F32.t) (n : node) : node :=
  {| base := base n; g_mode_script := g_mode_script n;
     g_mode_periodic := g_mode_periodic n; g_mode_polling := g_mode_polling n;
     g_goal_position := x; g_goal_speed := g_goal_speed n;
     g_speed := g_speed n; g_ismoving := g_ismoving n; n_call := n_call n;
     done := done n |}.

Definition set_g_goal_speed (x : F32.t) (n : node) : node :=
  {| base := base n; g_mode_script := g_mode_script n;
     g_mode_periodic := g_mode_periodic n; g_mode_polling := g_mode_polling n;
     g_goal_position := g_goal_position n; g_goal_speed := x;
     g_speed := g_speed n; g_ismoving := g_ismoving n; n_call := n_call n;
     done := done n |}.

Definition set_g_speed (x : F32.t) (n : node) : node :=
  {| base := base n; g_mode_script := g_mode_script n;
     g_mode_periodic := g_mode_periodic n; g_mode_polling := g_mode_polling n;
     g_goal_position := g_goal_position n; g_goal_speed := g_goal_speed n;
     g_speed := x; g_ismoving := g_ismoving n; n_call := n_call n;
     done := done n |}.

Definition set_g_ismoving (b : bool) (n : node) : node :=
  {| base := base n; g_mode_script := g_mode_script n;
     g_mode_periodic := g_mode_periodic n; g_mode_polling := g_mode_polling n;
     g_goal_position := g_goal_position n; g_goal_speed := g_goal_speed n;
     g_speed := g_speed n; g_ismoving := b; n_call := n_call n;
     done := done n |}.

(** A call into the library: it is recorded and takes the next answer. *)
Definition called (c : call) (n : node) : node :=
  {| base := base n; g_mode_script := g_mode_script n;
     g_mode_periodic := g_mode_periodic n; g_mode_polling := g_mode_polling n;
     g_goal_position := g_goal_position n; g_goal_speed := g_goal_speed n;
     g_speed := g_speed n; g_ismoving := g_ismoving n; n_call := S (n_call n);
     done := Called c :: done n |}.

(** The globals as the process starts:
    [g_ismoving = false, g_mode_script = false, g_mode_periodic = false,
     g_mode_polling = false; g_goal_position = NAN, g_goal_speed = NAN,
     g_speed = 10.0]. *)
Definition fresh : node :=
  {| base := boot; g_mode_script := false; g_mode_periodic := false;
     g_mode_polling := false; g_goal_position := NAN; g_goal_speed := NAN;
     g_speed := F32.of_int 10; g_ismoving := false; n_call := 0; done := [] |}.

Section Library.

Variable L : library.

(** *** Calls into the gripper library *)

Definition systemState (n : node) : option string * node :=
  (systemState_at L (n_call n), called SystemState n).

Definition getOpening (n : node) : F32.t * node :=
  (float_at L (n_call n), called GetOpening n).

Definition getAcceleration (n : node) : F32.t * node :=
  (float_at L (n_call n), called GetAcceleration n).

Definition getForce (n : node) : F32.t * node :=
  (float_at L (n_call n), called GetForce n).

Definition script_measure_move (cmd_type : Z) (width speed : F32.t)
    (info : gripper_response) (n : node) : Z * gripper_response * node :=
  (script_measure_move_at L (n_call n) info,
   called (ScriptMeasureMove cmd_type width speed) n).

(** [stop(ignore_response)]; what it returns is dropped. *)
Definition stop (ignore_response : bool) (n : node) : node :=
  called (Stop ignore_response) n.

Definition move (width speed : F32.t) (stop_on_block ignore_response : bool)
    (n : node) : Z * node :=
  (int_at L (n_call n), called (Move width speed stop_on_block ignore_response) n).

(** What [setAcceleration], [setGraspingForceLimit], [ack_fault] and
    [homing] return is dropped by their callers. *)
Definition setAcceleration (val : F32.t) (n : node) : node :=
  called (SetAcceleration val) n.

Definition setGraspingForceLimit (val : F32.t) (n : node) : node :=
  called (SetGraspingForceLimit val) n.

Definition ack_fault (n : node) : node := called AckFault n.

Definition homing (n : node) : node := called Homing n.

(** [publish_status_and_joint_states(info)]: the status message and the
    joint state made from [info] go out together. *)
Definition publish_status_and_joint_states (info : gripper_response)
    (n : node) : node :=
  record (PubStatus info) n.

(** *** The configuration services: each returns true, whatever the guard
    and whatever the library returns. *)

Definition setAccSrv (val : F32.t) (n : node) : bool * node :=
  (true, setAcceleration val n).

Definition setForceSrv (val : F32.t) (n : node) : bool * node :=
  (true, setGraspingForceLimit val n).

Definition ackSrv (n : node) : bool * node := (true, ack_fault n).

(** *** The goal topics *)

(** [position_cb]: [msg->pos], [msg->speed]. *)
Definition position_cb (pos speed : F32.t) (n : node) : node :=
  let n1 := set_g_goal_position pos (set_g_speed speed n) in
  if g_mode_periodic n1 then
    let n2 := stop true n1 in
    let '(rc, n3) := move (g_goal_position n2) (g_speed n2) false true n2 in
    if negb (rc =? 0) then record (Logged Error NoteMoveFailed) n3 else n3
  else n1.

(** [speed_cb]: [msg->data]. *)
Definition speed_cb (data : F32.t) (n : node) : node :=
  set_g_speed data (set_g_goal_speed data n).

(** *** The timer *)
Definition timer_cb (n : node) : node :=
  let info := info_at L (n_call n) in
  let info :=
    {| state_text := state_text info; position := position info;
       speed := F32.zero; acceleration := F32.zero; f_motor := f_motor info;
       f_finger0 := f_finger0 info; f_finger1 := f_finger1 info;
       ismoving := ismoving info |} in
  if g_mode_polling n && negb (in_motion (base n)) then
    match systemState n with
    | (None, n1) => n1
    | (Some state, n1) =>
        let '(opening, n2) := getOpening n1 in
        let '(acc, n3) := getAcceleration n2 in
        let '(force, n4) := getForce n3 in
        publish_status_and_joint_states
          {| state_text := state; position := opening; speed := speed info;
             acceleration := acc; f_motor := force;
             f_finger0 := f_finger0 info; f_finger1 := f_finger1 info;
             ismoving := ismoving info |} n4
    end
  else if g_mode_script n then
    let '(res, info1, n1) :=
      if negb (isnan (g_goal_position n)) then
        script_measure_move 1 (g_goal_position n) (g_speed n) info
          (record (Logged Info NotePositionCommand) n)
      else if negb (isnan (g_goal_speed n)) then
        script_measure_move 2 F32.zero (g_goal_speed n) info
          (record (Logged Info NoteVelocityCommand) n)
      else script_measure_move 0 F32.zero F32.zero info n in
    let n2 := if negb (isnan (g_goal_position n1))
              then set_g_goal_position NAN n1 else n1 in
    let n3 := if negb (isnan (g_goal_speed n2))
              then set_g_goal_speed NAN n2 else n2 in
    if res =? 0 then record (Logged Error NoteMeasureFailed) n3
    else
      let n4 := if negb (Bool.eqb (g_ismoving n3) (ismoving info1))
                then set_g_ismoving (ismoving info1)
                       (record (PubMoving (ismoving info1)) n3)
                else n3 in
      publish_status_and_joint_states info1 n4
  else n.

(** *** The signal handler *)
Definition sigint_handler (n : node) : node :=
  record Shutdown
    (set_g_mode_polling false (set_g_mode_script false
       (set_g_mode_periodic false (record (Logged Info NoteExiting) n)))).

(** *** Callbacks in sequence

    What the dispatcher delivers besides the motion services.  The motion
    services run in between; of the state here they change [base] only:
    [Motion w] stands for their having left it as [w]. *)
Inductive callback :=
| Timer
| Position (pos speed : F32.t)
| Speed (data : F32.t)
| SetAcc (val : F32.t)
| SetForce (val : F32.t)
| Ack
| Motion (w : world).

Definition deliver (cb : callback) (n : node) : node :=
  match cb with
  | Timer => timer_cb n
  | Position pos speed => position_cb pos speed n
  | Speed data => speed_cb data n
  | SetAcc val => snd (setAccSrv val n)
  | SetForce val => snd (setForceSrv val n)
  | Ack => snd (ackSrv n)
  | Motion w => set_base w n
  end.

Fixpoint run (cbs : list callback) (n : node) : node :=
  match cbs with
  | [] => n
  | cb :: rest => run rest (deliver cb n)
  end.

(** *** [main] *)

(** The parameters as [nh.param] leaves them. *)
Record params := {
  size : Z;
  ip : string;
  port : Z;
  local_port : Z;
  serial_port : string;
  serial_baudrate : Z;
  protocol : string;
  com_mode : string;
  rate : double;
  grasping_force : double
}.

(** [if (com_mode == "script") ... else if (com_mode == "auto_update") ...
     else { com_mode = "polling"; g_mode_polling = true; }] *)
Definition select_mode (com_mode : string) (n : node) : node :=
  if String.eqb com_mode "script" then set_g_mode_script true n
  else if String.eqb com_mode "auto_update" then set_g_mode_periodic true n
  else set_g_mode_polling true n.

(** The connection, by protocol; [res_con] stays -1 when the protocol is
    unknown. *)
Definition connect (p : params) (n : node) : Z * node :=
  if String.eqb (protocol p) "serial" then
    (int_at L (n_call n),
     record (Logged Info NoteConnecting)
       (called (ConnectSerial (serial_port p) (serial_baudrate p)) n))
  else if String.eqb (protocol p) "udp" then
    (int_at L (n_call n),
     record (Logged Info NoteConnecting)
       (called (ConnectUdp (local_port p) (ip p) (port p)) n))
  else if String.eqb (protocol p) "tcp" then
    (int_at L (n_call n),
     record (Logged Info NoteConnecting)
       (called (ConnectTcp (ip p) (port p)) n))
  else (-1, record (Logged Error NoteUnknownProtocol) n).

(** The services advertised in the modes script and polling. *)
Definition services : list string :=
  ["move"; "grasp"; "release"; "homing"; "stop"; "ack"; "move_incrementally";
   "set_acceleration"; "set_force"]%string.

(** The branch of a successful connection, up to [ros::spin()]. *)
Definition bring_up (p : params) (n : node) : node :=
  let n := record (Logged Info NoteConnected) n in
  let n := if g_mode_script n || g_mode_polling n
           then fold_left (fun n s => record (AdvertisedService s) n) services n
           else n in
  let n := if g_mode_script n || g_mode_periodic n
           then record (Subscribed "goal_position") n else n in
  let n := if g_mode_script n then record (Subscribed "goal_speed") n else n in
  let n := record (AdvertisedTopic "status") n in
  let n := record (AdvertisedTopic "/joint_states") n in
  let n := if g_mode_script n || g_mode_periodic n
           then record (AdvertisedTopic "moving") n else n in
  let n := record (Slept 1) n in
  let n := ack_fault n in
  let n := record (Slept 1) n in
  let n := record (Logged Info NoteReady) n in
  let n := homing n in
  let n := record (PubComponentStatus 2 "WSG50 was homed and is running.") n in
  let n := if SFltb (S754_zero false) (grasping_force p)
           then setGraspingForceLimit (to_float (grasping_force p))
                  (record (Logged Info NoteForceLimit) n)
           else n in
  let n := record (Logged Info NoteInitDone) n in
  let n := if g_mode_polling n || g_mode_script n
           then record (TimerCreated (rate p)) n else n in
  let n := if g_mode_periodic n
           then record (ThreadStarted (rate p)) n else n in
  record (Slept 5) n.

(** What [main] does after the branch, however it went. *)
Definition wind_down (n : node) : node :=
  let n := record (PubComponentStatus 1 "Driver was stopped.") n in
  let n := record (Logged Info NoteExiting) n in
  let n := set_g_mode_polling false (set_g_mode_script false
             (set_g_mode_periodic false n)) in
  let n := record (Slept 1) n in
  called Disconnect n.

(** How [main] ends: with [return 0], or in [std::terminate()]. *)
Inductive ending :=
| Returns (n : node)
| Terminates (n : node).

(** [main]; [spin] is what the callbacks and the reader thread do to the
    state until [ros::spin()] returns.

    [std::thread th] is a local of the block that [ros::spin()] ends.  It
    holds a thread when the mode is auto_update and is never joined or
    detached, so leaving the block destroys a joinable [std::thread], which
    calls [std::terminate()]: what follows the block is not reached. *)
Definition main (p : params) (spin : node -> node) : ending :=
  let n := record (AdvertisedTopic "component/status") fresh in
  let n := set_base (select_size (size p) (base n)) n in
  let n := select_mode (com_mode p) n in
  let '(res_con, n) := connect p n in
  if res_con =? 0 then
    let n := bring_up p n in
    let th := g_mode_periodic n in
    let n := spin (record Spun n) in
    if th then Terminates n else Returns (wind_down n)
  else
    Returns
      (wind_down
         (record (PubComponentStatus 4
                    "Unable to connect, please check the port and address used.")
            (record (Logged Error NoteUnableToConnect) n))).

End Library.

(** *** Vocabulary *)

(** The state in which [main] connects: the size and the mode are chosen. *)
Definition configured (p : params) : node :=
  select_mode (com_mode p)
    (set_base (startup (size p))
       (record (AdvertisedTopic "component/status") fresh)).

(** [main] knows the protocol. *)
Definition known_protocol (p : params) : bool :=
  String.eqb (protocol p) "serial" || String.eqb (protocol p) "udp" ||
  String.eqb (protocol p) "tcp".

(** The library calls made so far, newest first. *)
Definition calls (ds : list act) : list call :=
  flat_map (fun a => match a with Called c => [c] | _ => [] end) ds.

(** The status messages published so far, newest first. *)
Definition statuses (ds : list act) : list gripper_response :=
  flat_map (fun a => match a with PubStatus i => [i] | _ => [] end) ds.

(** The values published on the [moving] topic so far, newest first. *)
Definition movings (ds : list act) : list bool :=
  flat_map (fun a => match a with PubMoving b => [b] | _ => [] end) ds.

(** The component status ids published so far, newest first. *)
Definition component_statuses (ds : list act) : list Z :=
  flat_map (fun a => match a with PubComponentStatus i _ => [i] | _ => [] end) ds.

(** The services advertised, the topics subscribed to and the topics
    advertised so far, newest first. *)
Definition advertised_services (ds : list act) : list string :=
  flat_map (fun a => match a with AdvertisedService s => [s] | _ => [] end) ds.

Definition subscriptions (ds : list act) : list string :=
  flat_map (fun a => match a with Subscribed t => [t] | _ => [] end) ds.

Definition advertised_topics (ds : list act) : list string :=
  flat_map (fun a => match a with AdvertisedTopic t => [t] | _ => [] end) ds.

(** The timer has been created; the reader thread has been started. *)
Definition timer_created (ds : list act) : bool :=
  existsb (fun a => match a with TimerCreated _ => true | _ => false end) ds.

Definition thread_started (ds : list act) : bool :=
  existsb (fun a => match a with ThreadStarted _ => true | _ => false end) ds.

(** A call that opens or closes the link, as opposed to a command to the
    gripper. *)
Definition is_link_setup (c : call) : bool :=
  match c with
  | ConnectSerial _ _ | ConnectUdp _ _ _ | ConnectTcp _ _ | Disconnect => true
  | _ => false
  end.

(** No value is published twice in a row (the list is newest first). *)
Fixpoint alternates (bs : list bool) : bool :=
  match bs with
  | b :: (b' :: _) as older => negb (Bool.eqb b b') && alternates older
  | _ => true
  end.

(** A callback of the goal topics or of the timer. *)
Definition topic_or_timer (cb : callback) : bool :=
  match cb with
  | Timer | Position _ _ | Speed _ => true
  | _ => false
  end.

(** The library never answers; every call returns zero. *)
Definition quiet : library :=
  {| info_at := fun _ =>
       {| state_text := ""; position := F32.zero; speed := F32.zero;
          acceleration := F32.zero; f_motor := F32.zero; f_finger0 := F32.zero;
          f_finger1 := F32.zero; ismoving := false |};
     systemState_at := fun _ => None;
     float_at := fun _ => F32.zero;
     script_measure_move_at := fun _ info => (0, info);
     int_at := fun _ => 0 |}.

(** The gripper is ready: [systemState] gives a text, the queries give 42,
    [script_measure_move] succeeds and reports a gripper that moves in every
    second answer. *)
Definition ready : library :=
  {| info_at := fun _ =>
       {| state_text := ""; position := F32.zero; speed := F32.of_int 7;
          acceleration := F32.of_int 7; f_motor := F32.zero;
          f_finger0 := F32.zero; f_finger1 := F32.zero; ismoving := false |};
     systemState_at := fun _ => Some "IDLE"%string;
     float_at := fun _ => F32.of_int 42;
     script_measure_move_at := fun k info =>
       (1, {| state_text := "SCRIPT"; position := F32.of_int 42;
              speed := F32.of_int 5; acceleration := acceleration info;
              f_motor := F32.zero; f_finger0 := F32.zero;
              f_finger1 := F32.zero; ismoving := Nat.even k |});
     int_at := fun _ => 0 |}.

(** Parameters with their defaults: serial, polling, 5 Hz, no force limit. *)
Definition defaults : params :=
  {| size := 210; ip := "192.168.1.20"; port := 1000; local_port := 1501;
     serial_port := "/dev/ttyS1"; serial_baudrate := 115200;
     protocol := "serial"; com_mode := ""; rate := of_int 5;
     grasping_force := S754_zero false |}.

End Callbacks.

(** * Floats: comparison and value *)

Lemma digits2_pos_bounds m :
  2 ^ (Zpos (digits2_pos m) - 1) <= Zpos m < 2 ^ Zpos (digits2_pos m).
Proof.
  induction m as [m IH|m IH|]; simpl digits2_pos.
  - rewrite Pos2Z.inj_succ.
    replace (Z.succ (Zpos (digits2_pos m)) - 1) with (Z.succ (Zpos (digits2_pos m) - 1)) by lia.
    rewrite !Z.pow_succ_r by lia. lia.
  - rewrite Pos2Z.inj_succ.
    replace (Z.succ (Zpos (digits2_pos m)) - 1) with (Z.succ (Zpos (digits2_pos m) - 1)) by lia.
    rewrite !Z.pow_succ_r by lia. lia.
  - simpl. lia.
Qed.

(** A valid binary32 mantissa has at most 24 digits, its exponent is at
    least -149, and above that exponent it has all 24. *)
Lemma bounded_facts m e :
  bounded F32.prec F32.emax m e = true ->
  -149 <= e /\ Zpos m < 2 ^ 24 /\ (-149 < e -> 2 ^ 23 <= Zpos m).
Proof.
  unfold bounded, canonical_mantissa, fexp, emin, F32.prec, F32.emax.
  intros H. apply andb_true_iff in H. destruct H as [H _].
  apply Z.eqb_eq in H.
  pose proof (digits2_pos_bounds m) as [Hlo Hhi].
  set (d := Zpos (digits2_pos m)) in *.
  assert (Hd : 0 < d) by (subst d; lia).
  assert (Hd24 : d <= 24) by lia.
  split; [lia|]. split.
  - eapply Z.lt_le_trans; [exact Hhi|].
    apply Z.pow_le_mono_r; lia.
  - intros He. assert (d = 24) by lia.
    replace 23 with (d - 1) by lia. exact Hlo.
Qed.

Lemma scaled_lt m1 e1 m2 e2 :
  bounded F32.prec F32.emax m1 e1 = true ->
  bounded F32.prec F32.emax m2 e2 = true ->
  e1 < e2 ->
  Zpos m1 * 2 ^ (e1 + 149) < Zpos m2 * 2 ^ (e2 + 149).
Proof.
  intros H1 H2 He.
  destruct (bounded_facts _ _ H1) as (L1 & U1 & _).
  destruct (bounded_facts _ _ H2) as (L2 & _ & N2).
  specialize (N2 ltac:(lia)).
  replace (e2 + 149) with ((e1 + 149) + (e2 - e1)) by lia.
  rewrite (Z.pow_add_r 2 (e1 + 149) (e2 - e1)) by lia.
  assert (P1 : 0 < 2 ^ (e1 + 149)) by (apply Z.pow_pos_nonneg; lia).
  assert (P2 : 2 ^ 1 <= 2 ^ (e2 - e1)) by (apply Z.pow_le_mono_r; lia).
  change (2 ^ 1) with 2 in P2. change (2 ^ 24) with 16777216 in U1.
  change (2 ^ 23) with 8388608 in N2.
  set (P := 2 ^ (e1 + 149)) in *. set (Q := 2 ^ (e2 - e1)) in *.
  assert (A : Zpos m1 * P < 16777216 * P)
    by (apply Z.mul_lt_mono_pos_r; assumption).
  assert (B : P * 2 <= P * Q) by (apply Z.mul_le_mono_nonneg_l; lia).
  assert (C : 8388608 * (P * Q) <= Zpos m2 * (P * Q))
    by (apply Z.mul_le_mono_nonneg_r; lia).
  lia.
Qed.

Lemma scaled_compare m1 e1 m2 e2 :
  bounded F32.prec F32.emax m1 e1 = true ->
  bounded F32.prec F32.emax m2 e2 = true ->
  match Z.compare e1 e2 with
  | Lt => Lt
  | Gt => Gt
  | Eq => Pos.compare_cont Eq m1 m2
  end = Z.compare (Zpos m1 * 2 ^ (e1 + 149)) (Zpos m2 * 2 ^ (e2 + 149)).
Proof.
  intros H1 H2. destruct (Z.compare_spec e1 e2) as [He|He|He].
  - subst e2. destruct (bounded_facts _ _ H1) as (L1 & _ & _).
    assert (P : 0 < 2 ^ (e1 + 149)) by (apply Z.pow_pos_nonneg; lia).
    change (Pos.compare_cont Eq m1 m2) with (Z.compare (Zpos m1) (Zpos m2)).
    destruct (Z.compare_spec (Zpos m1) (Zpos m2)) as [Hm|Hm|Hm]; symmetry.
    + apply Z.compare_eq_iff. congruence.
    + apply Z.compare_lt_iff. apply Z.mul_lt_mono_pos_r; assumption.
    + apply Z.compare_gt_iff. apply Z.mul_lt_mono_pos_r; assumption.
  - symmetry. apply Z.compare_lt_iff. apply scaled_lt; assumption.
  - symmetry. apply Z.compare_gt_iff. apply scaled_lt; assumption.
Qed.

Lemma some_eq {A : Type} (x y : A) : Some x = Some y -> x = y.
Proof. congruence. Qed.

(** On valid floats the comparison of the IEEE standard is the comparison
    of what they are worth. *)
Theorem compare_value x y a b :
  F32.valid x = true -> F32.valid y = true ->
  F32.value x = Some a -> F32.value y = Some b ->
  SFcompare x y = Some (F32.number_compare a b).
Proof.
  intros Vx Vy Hx Hy.
  destruct x as [sx|sx| |sx mx ex]; try discriminate;
  destruct y as [sy|sy| |sy my ey]; try discriminate;
  cbn [F32.value] in Hx, Hy;
  apply some_eq in Hx; apply some_eq in Hy; subst a b;
  try (destruct sx; destruct sy; reflexivity).
  - (* zero, finite *)
    unfold SFcompare, F32.number_compare, cond_Zopp. f_equal.
    assert (P : 0 < Zpos my * 2 ^ (ey + 149)).
    { destruct (bounded_facts _ _ Vy) as (L & _ & _).
      apply Z.mul_pos_pos; [lia | apply Z.pow_pos_nonneg; lia]. }
    destruct sy; symmetry;
      [apply Z.compare_gt_iff | apply Z.compare_lt_iff]; lia.
  - (* finite, zero *)
    unfold SFcompare, F32.number_compare, cond_Zopp. f_equal.
    assert (P : 0 < Zpos mx * 2 ^ (ex + 149)).
    { destruct (bounded_facts _ _ Vx) as (L & _ & _).
      apply Z.mul_pos_pos; [lia | apply Z.pow_pos_nonneg; lia]. }
    destruct sx; symmetry;
      [apply Z.compare_lt_iff | apply Z.compare_gt_iff]; lia.
  - (* finite, finite *)
    simpl in Vx, Vy.
    assert (Px : 0 < Zpos mx * 2 ^ (ex + 149)).
    { destruct (bounded_facts _ _ Vx) as (L & _ & _).
      apply Z.mul_pos_pos; [lia | apply Z.pow_pos_nonneg; lia]. }
    assert (Py : 0 < Zpos my * 2 ^ (ey + 149)).
    { destruct (bounded_facts _ _ Vy) as (L & _ & _).
      apply Z.mul_pos_pos; [lia | apply Z.pow_pos_nonneg; lia]. }
    unfold SFcompare. f_equal.
    destruct sx, sy; unfold F32.number_compare, cond_Zopp.
    + rewrite Z.compare_opp.
      rewrite <- (scaled_compare _ _ _ _ Vy Vx).
      rewrite (Z.compare_antisym ex ey).
      destruct (ex ?= ey); simpl; try reflexivity.
      apply (eq_sym (Pos.compare_antisym mx my)).
    + symmetry. apply Z.compare_lt_iff. lia.
    + symmetry. apply Z.compare_gt_iff. lia.
    + apply scaled_compare; assumption.
Qed.

Lemma number_compare_antisym a b :
  F32.number_compare b a = CompOpp (F32.number_compare a b).
Proof.
  destruct a, b; simpl; try reflexivity. apply Z.compare_antisym.
Qed.

Lemma lt_spec x y b :
  F32.valid x = true -> F32.valid y = true -> F32.value y = Some b ->
  (F32.lt x y = true <->
   exists a, F32.value x = Some a /\ F32.number_compare a b = Lt).
Proof.
  intros Vx Vy Hy. unfold F32.lt, SFltb.
  destruct (F32.value x) as [a|] eqn:Hx.
  - rewrite (compare_value x y a b Vx Vy Hx Hy). split.
    + intros H. exists a. split; [reflexivity|].
      destruct (F32.number_compare a b); congruence.
    + intros (a' & Ha & Hc). apply some_eq in Ha. subst a'. rewrite Hc. reflexivity.
  - destruct x; try discriminate. simpl. split; [discriminate|].
    intros (a & Ha & _). discriminate.
Qed.

Lemma gt_spec x y b :
  F32.valid x = true -> F32.valid y = true -> F32.value y = Some b ->
  (F32.gt x y = true <->
   exists a, F32.value x = Some a /\ F32.number_compare a b = Gt).
Proof.
  intros Vx Vy Hy. unfold F32.gt, SFltb.
  destruct (F32.value x) as [a|] eqn:Hx.
  - rewrite (compare_value y x b a Vy Vx Hy Hx), number_compare_antisym. split.
    + intros H. exists a. split; [reflexivity|].
      destruct (F32.number_compare a b); simpl in H; congruence.
    + intros (a' & Ha & Hc). apply some_eq in Ha. subst a'. rewrite Hc. reflexivity.
  - destruct x; try discriminate. destruct y; simpl; (split; [discriminate|]);
      intros (a & Ha & _); discriminate.
Qed.

(** [req.speed < 0.0 || req.speed > 420.0] holds of the numbers below 0 and
    of those above 420, and of nothing else. *)
Lemma speed_out_of_limits_spec s :
  F32.valid s = true ->
  (speed_out_of_limits s = true <-> F32.below s 0 \/ F32.above s 420).
Proof.
  intros Vs. unfold speed_out_of_limits. rewrite orb_true_iff.
  rewrite (lt_spec s F32.zero (F32.whole 0) Vs eq_refl eq_refl).
  rewrite (gt_spec s F32.c420 (F32.whole 420) Vs eq_refl eq_refl).
  reflexivity.
Qed.


Section Refinement.

Variable E : env.

Lemma steps_trans w1 w2 w3 : steps E w1 w2 -> steps E w2 w3 -> steps E w1 w3.
Proof.
  intros H12 H23. induction H23 as [|w3 w4 _ IH Hp]; [assumption|].
  eapply steps_snoc; eassumption.
Qed.

Lemma steps_then w w1 w2 : prim E w1 w2 -> steps E w w1 -> steps E w w2.
Proof. intros Hp Hs. eapply steps_snoc; eassumption. Qed.

Lemma bind_steps {A B} (c : outcome A) (k : A -> world -> outcome B) w :
  steps E w (world_of c) ->
  (forall a w1, c = Ret a w1 -> steps E w1 (world_of (k a w1))) ->
  steps E w (world_of (bind c k)).
Proof.
  intros Hc Hk. destruct c as [a w1|w1|w1]; simpl in *; try assumption.
  eapply steps_trans; [exact Hc | apply Hk; reflexivity].
Qed.


Lemma run_callbacks_steps dispatch (Hd : sound E dispatch) cbs :
  forall w,
    steps E w (world_of (run_callbacks dispatch cbs w)) /\
    (in_motion w = true ->
     in_motion (world_of (run_callbacks dispatch cbs w)) = true).
Proof.
  induction cbs as [|r cbs IH]; intros w; simpl.
  - split; [apply steps_refl | auto].
  - destruct (Hd r w) as [Hs Hb].
    destruct (dispatch r w) as [p w1|w1|w1]; simpl in *; try (split; assumption).
    destruct (IH (log (EvReply r p) w1)) as [Hs' Hb'].
    split.
    + eapply steps_trans; [|exact Hs'].
      eapply steps_then; [apply prim_reply | exact Hs].
    + intros Hw. apply Hb'. simpl. auto.
Qed.

Lemma spinOnce_steps dispatch (Hd : sound E dispatch) w :
  steps E w (world_of (spinOnce E dispatch w)) /\
  (in_motion w = true -> in_motion (world_of (spinOnce E dispatch w)) = true).
Proof.
  unfold spinOnce.
  destruct (run_callbacks_steps dispatch Hd (spin_at E (n_spin w)) (next_spin w))
    as [Hs Hb].
  split; [|exact Hb].
  eapply steps_trans; [|exact Hs].
  eapply steps_then; [apply prim_spin | apply steps_refl].
Qed.

Lemma recv_ack_eq id w :
  recv_ack E id w =
  (fst (fst (ack_at E (n_ack w))), snd (fst (ack_at E (n_ack w))),
   snd (recv_ack E id w)).
Proof. unfold recv_ack. destruct (ack_at E (n_ack w)) as [[rc st] d]. reflexivity. Qed.

Lemma recv_ack_in_motion id w : in_motion (snd (recv_ack E id w)) = in_motion w.
Proof. unfold recv_ack. destruct (ack_at E (n_ack w)) as [[rc st] d]. reflexivity. Qed.


Lemma await_steps dispatch (Hd : sound E dispatch) spins id begin fuel :
  forall w, in_motion w = true ->
    steps E w (world_of (await E dispatch spins fuel id begin w)) /\
    still_busy (await E dispatch spins fuel id begin w).
Proof.
  induction fuel as [|fuel IH]; intros w Hbusy; simpl.
  - split; [apply steps_refl | exact Hbusy].
  - rewrite recv_ack_eq.
    set (rc := fst (fst (ack_at E (n_ack w)))).
    set (st := snd (fst (ack_at E (n_ack w)))).
    set (w1 := snd (recv_ack E id w)).
    assert (H1 : steps E w w1)
      by (eapply steps_then; [apply prim_recv | apply steps_refl]).
    assert (B1 : in_motion w1 = true)
      by (subst w1; rewrite recv_ack_in_motion; exact Hbusy).
    set (w2 := if (rc =? 1) && (st =? E_CMD_PENDING) then _ else w1).
    assert (H2 : steps E w w2 /\ in_motion w2 = true).
    { subst w2. destruct ((rc =? 1) && (st =? E_CMD_PENDING)); [|auto].
      split; [|exact B1]. eapply steps_then; [apply prim_log | assumption]. }
    destruct H2 as [H2 B2].
    set (c := if spins then spinOnce E dispatch w2 else Ret tt w2).
    assert (Hc : steps E w (world_of c) /\ in_motion (world_of c) = true).
    { subst c. destruct spins; [|auto].
      destruct (spinOnce_steps dispatch Hd w2) as [Hs Hb].
      split; [eapply steps_trans; eassumption | auto]. }
    destruct Hc as [Hc Bc].
    destruct c as [[] w3|w3|w3]; simpl in *; try (split; assumption).
    destruct (spins && stop_called w3).
    { simpl. split; [|exact I].
      eapply steps_then; [apply prim_aborted; exact Bc | exact Hc]. }
    destruct (now w3 - begin >? timeout_commands).
    { simpl. split; [|exact Bc].
      eapply steps_then; [apply prim_quit | exact Hc]. }
    destruct (goes_on rc st).
    + destruct (IH w3 Bc) as [Hs Hb]. split; [|exact Hb].
      eapply steps_trans; eassumption.
    + simpl. split; assumption.
Qed.

Lemma conclude_steps g r w :
  still_busy (Ret r w) -> steps E w (world_of (conclude g r w)).
Proof.
  destruct r as [m st|]; simpl; intros Hbusy; [|apply steps_refl].
  assert (H1 : steps E w (set_in_motion false (sleep settle_delay w)))
    by (eapply steps_then; [apply prim_settled; exact Hbusy | apply steps_refl]).
  destruct (error_of m st =? 0); simpl.
  - eapply steps_then; [apply prim_log|].
    destruct g; [|assumption].
    eapply steps_then; [apply prim_graspped | assumption].
  - eapply steps_then; [apply prim_log | assumption].
Qed.


Lemma issue_steps dispatch (Hd : sound E dispatch) fuel c id g w :
  in_motion w = false -> steps E w (world_of (issue E dispatch fuel c id g w)).
Proof.
  intros Hidle. unfold issue, submit.
  set (rc := send_at E (n_send w)).
  set (w2 := log (EvSend c rc)
               (tick (Z.of_N (send_time_at E (n_send w)))
                  (next_send w))).
  assert (H2 : steps E w w2)
    by (eapply steps_then; [apply (prim_submit E c w Hidle) | apply steps_refl]).
  destruct (rc =? 0); [|exact H2].
  set (w3 := set_last_cmd_id id (set_in_motion true w2)).
  destruct (await_steps dispatch Hd true id (now w3) fuel w3 eq_refl) as [Hs Hb].
  apply bind_steps.
  - eapply steps_trans; [|exact Hs].
    eapply steps_then; [apply prim_issued; exact Hidle | exact H2].
  - intros r w4 Heq. rewrite Heq in Hb. apply conclude_steps, Hb.
Qed.

Lemma checked_steps dispatch (Hd : sound E dispatch) fuel c id g q w :
  let o :=
    if in_motion w then Ret busy_reply (log (EvLog Warn MsgBusy) w)
    else if width_out_of_range (mr_width q) w then
      Ret {| ok := false; error := Some E_RANGE_ERROR |}
          (log (EvLog Error MsgRange) w)
    else
      let w1 := if speed_out_of_limits (mr_speed q)
                then log (EvLog Warn MsgSpeedLimits) w else w in
      issue E dispatch fuel c id g w1 in
  steps E w (world_of o) /\ (in_motion w = true -> in_motion (world_of o) = true).
Proof.
  destruct (in_motion w) eqn:Hidle; cbv zeta.
  { simpl. split; [|auto]. eapply steps_then; [apply prim_log | apply steps_refl]. }
  split; [|discriminate].
  destruct (width_out_of_range (mr_width q) w).
  { simpl. eapply steps_then; [apply prim_log | apply steps_refl]. }
  destruct (speed_out_of_limits (mr_speed q)).
  - eapply steps_trans; [|apply issue_steps; [assumption | exact Hidle]].
    eapply steps_then; [apply prim_log | apply steps_refl].
  - apply issue_steps; assumption.
Qed.

Lemma moveSrv_steps dispatch (Hd : sound E dispatch) fuel q w :
  steps E w (world_of (moveSrv E dispatch fuel q w)) /\
  (in_motion w = true -> in_motion (world_of (moveSrv E dispatch fuel q w)) = true).
Proof. apply (checked_steps dispatch Hd). Qed.

Lemma graspSrv_steps dispatch (Hd : sound E dispatch) fuel q w :
  steps E w (world_of (graspSrv E dispatch fuel q w)) /\
  (in_motion w = true -> in_motion (world_of (graspSrv E dispatch fuel q w)) = true).
Proof. apply (checked_steps dispatch Hd). Qed.

Lemma releaseSrv_steps dispatch (Hd : sound E dispatch) fuel q w :
  steps E w (world_of (releaseSrv E dispatch fuel q w)) /\
  (in_motion w = true -> in_motion (world_of (releaseSrv E dispatch fuel q w)) = true).
Proof. apply (checked_steps dispatch Hd). Qed.

Lemma increment_target_steps q w :
  in_motion w = false ->
  steps E w (snd (increment_target E q w)) /\
  in_motion (snd (increment_target E q w)) = false.
Proof.
  intros Hidle. unfold increment_target.
  destruct (String.eqb (ir_direction q) "open"); simpl.
  { split; [|exact Hidle].
    eapply steps_then; [apply (prim_opening E w Hidle) | apply steps_refl]. }
  destruct (String.eqb (ir_direction q) "close"); simpl.
  { split; [|exact Hidle].
    eapply steps_then; [apply (prim_opening E w Hidle) | apply steps_refl]. }
  split; [apply steps_refl | exact Hidle].
Qed.

Lemma incrementSrv_steps dispatch (Hd : sound E dispatch) fuel q w :
  steps E w (world_of (incrementSrv E dispatch fuel q w)) /\
  (in_motion w = true ->
   in_motion (world_of (incrementSrv E dispatch fuel q w)) = true).
Proof.
  unfold incrementSrv. destruct (in_motion w) eqn:Hidle.
  { simpl. split; [|auto]. eapply steps_then; [apply prim_log | apply steps_refl]. }
  split; [|discriminate].
  destruct (increment_target_steps q w Hidle) as [Hs Hi].
  destruct (increment_target E q w) as [[[nextWidth speed]|] w1]; simpl in *.
  - eapply steps_trans; [exact Hs|].
    apply (issue_steps dispatch Hd fuel (CmdMove nextWidth speed true)); exact Hi.
  - exact Hs.
Qed.

Lemma homingSrv_steps dispatch (Hd : sound E dispatch) fuel w :
  steps E w (world_of (homingSrv E dispatch fuel w)) /\
  (in_motion w = true -> in_motion (world_of (homingSrv E dispatch fuel w)) = true).
Proof.
  unfold homingSrv. destruct (in_motion w) eqn:Hidle.
  { simpl. split; [|auto]. eapply steps_then; [apply prim_log | apply steps_refl]. }
  split; [|discriminate].
  unfold homing_async, submit.
  set (rc := send_at E (n_send w)).
  set (w1 := log (EvSend CmdHoming rc)
               (tick (Z.of_N (send_time_at E (n_send w)))
                  (next_send w))).
  assert (H1 : steps E w w1)
    by (eapply steps_then; [apply (prim_submit E CmdHoming w Hidle) | apply steps_refl]).
  destruct (rc =? 0); [|exact H1].
  set (w2 := set_last_cmd_id 32 (set_in_motion true w1)).
  destruct (await_steps dispatch Hd false 32 (now w2) fuel w2 eq_refl) as [Hs Hb].
  apply bind_steps.
  - eapply steps_trans; [|exact Hs].
    eapply steps_then; [apply prim_issued; exact Hidle | exact H1].
  - intros r w3 Heq. rewrite Heq in Hb.
    destruct r as [m st|]; simpl in *; [|apply steps_refl].
    assert (H4 : steps E w3 (set_in_motion false (sleep settle_delay w3)))
      by (eapply steps_then; [apply prim_settled; exact Hb | apply steps_refl]).
    destruct (m =? -1); [exact H4|].
    destruct ((m =? 1) && (st =? E_SUCCESS)); simpl;
      (eapply steps_then; [apply prim_log | exact H4]).
Qed.

Lemma drain_steps id n :
  forall w, steps E w (world_of (drain E n id w)) /\
            in_motion (world_of (drain E n id w)) = in_motion w.
Proof.
  induction n as [|n IH]; intros w; simpl; [split; [apply steps_refl | reflexivity]|].
  rewrite recv_ack_eq.
  assert (H1 : steps E w (snd (recv_ack E id w)))
    by (eapply steps_then; [apply prim_recv | apply steps_refl]).
  pose proof (recv_ack_in_motion id w) as B1.
  destruct (fst (fst (ack_at E (n_ack w))) =? 0).
  - destruct (IH (snd (recv_ack E id w))) as [Hs Hb]. split.
    + eapply steps_trans; [exact H1 | exact Hs].
    + rewrite Hb. exact B1.
  - simpl. split; assumption.
Qed.

Lemma stopSrv_steps fuel w :
  steps E w (world_of (stopSrv E fuel w)) /\
  in_motion (world_of (stopSrv E fuel w)) = in_motion w.
Proof.
  unfold stopSrv. simpl in_motion.
  assert (H1 : steps E w (log (EvLog Warn MsgStop) w))
    by (eapply steps_then; [apply prim_log | apply steps_refl]).
  destruct (in_motion w) eqn:Hw.
  - set (w3 := log (EvLog Warn MsgWaiting) _).
    assert (H3 : steps E w w3).
    { eapply steps_then; [apply prim_log|].
      eapply steps_then; [apply prim_stop | exact H1]. }
    change (last_cmd_id w3) with (last_cmd_id w).
    destruct (drain_steps (last_cmd_id w) fuel w3) as [Hs Hb].
    destruct (drain E fuel (last_cmd_id w) w3) as [[] w4|w4|w4]; simpl in *.
    + split; [|congruence].
      eapply steps_then; [apply prim_log|].
      eapply steps_then; [apply prim_stop_called|].
      eapply steps_trans; eassumption.
    + split; [eapply steps_trans; eassumption | congruence].
    + split; [eapply steps_trans; eassumption | congruence].
  - simpl. split; [|exact Hw].
    eapply steps_then; [apply prim_log|].
    eapply steps_then; [apply prim_stop | exact H1].
Qed.

Lemma serve_steps fuel : sound E (serve E fuel).
Proof.
  induction fuel as [|fuel IH]; intros r w; simpl;
    [split; [apply steps_refl | auto]|].
  destruct r.
  - apply moveSrv_steps; assumption.
  - apply graspSrv_steps; assumption.
  - apply releaseSrv_steps; assumption.
  - apply incrementSrv_steps; assumption.
  - apply homingSrv_steps; assumption.
  - destruct (stopSrv_steps fuel w) as [Hs Hb]. split; [exact Hs|].
    intros Hw. rewrite Hb. exact Hw.
Qed.

Lemma spin_steps fuel reqs w : steps E w (world_of (spin E fuel reqs w)).
Proof. apply run_callbacks_steps, serve_steps. Qed.

End Refinement.

Section Invariants.

Variable E : env.


Lemma prim_coherent w w' : prim E w w' -> coherent w -> coherent w'.
Proof.
  intros Hp (Hg & Hs & Ht).
  destruct Hp; unfold coherent, recv_ack, stop, submit, getOpening, sleep;
    try destruct (ack_at E (n_ack w)) as [[rc st] d];
    simpl; rewrite ?Hg, ?Hs, ?Ht;
    repeat match goal with H : in_motion _ = _ |- _ => rewrite H end;
    simpl; rewrite ?orb_true_r; auto.
Qed.

Lemma steps_coherent w w' : steps E w w' -> coherent w -> coherent w'.
Proof.
  induction 1 as [|w1 w2 _ IH Hp]; intros Hw; [assumption|].
  eapply prim_coherent; [exact Hp | apply IH, Hw].
Qed.

Lemma prim_g_size w w' : prim E w w' -> g_size w' = g_size w.
Proof.
  intros Hp. destruct Hp; unfold recv_ack, stop, submit, getOpening, sleep;
    try destruct (ack_at E (n_ack w)) as [[rc st] d]; reflexivity.
Qed.

Lemma steps_g_size w w' : steps E w w' -> g_size w' = g_size w.
Proof.
  induction 1 as [|w1 w2 _ IH Hp]; [reflexivity|].
  rewrite (prim_g_size _ _ Hp). exact IH.
Qed.

Lemma startup_coherent size : coherent (startup size).
Proof.
  unfold startup, select_size.
  destruct (negb (size =? 210) && negb (size =? 110)); repeat split.
Qed.

End Invariants.

(** What the motion services and stop keep implies one service at a time. *)
Lemma single_flight_one_at_a_time (tr : list event) :
  single_flight tr = true -> one_at_a_time tr = true.
Proof.
  induction tr as [|e tr IH]; [reflexivity|].
  cbn [single_flight one_at_a_time]. intros H.
  apply andb_prop in H. destruct H as [H1 H2]. rewrite (IH H1). cbn [andb].
  destruct e as [c rc| | | | | | |]; try exact H2.
  destruct c; simpl in *; auto.
Qed.

(** * Traces only grow *)

Lemma prim_trace E w w' : prim E w w' -> exists evs, trace w' = evs ++ trace w.
Proof.
  intros Hp. destruct Hp; unfold recv_ack, stop, submit, getOpening, sleep;
    try destruct (ack_at E (n_ack w)) as [[rc st] d]; simpl;
    first [ exists []; reflexivity
          | eexists [_]; reflexivity
          | eexists [_; _]; reflexivity ].
Qed.

Lemma steps_trace E w w' : steps E w w' -> exists evs, trace w' = evs ++ trace w.
Proof.
  induction 1 as [|w1 w2 _ [evs IH] Hp]; [exists []; reflexivity|].
  destruct (prim_trace E _ _ Hp) as [evs' Hevs].
  exists (evs' ++ evs). rewrite Hevs, IH. apply app_assoc.
Qed.

(** * Startup *)

(** C10: whatever size is configured, [main] goes on; a size other than 110
    and 210 is replaced by 210 after a warning, and the size the range check
    of the services reads is 110 or 210 for ever after. *)
Theorem effective_size_is_supported (size : Z) :
  g_size (startup size) = (if (size =? 110) || (size =? 210) then size else 210) /\
  trace (startup size) =
    (if (size =? 110) || (size =? 210) then [] else [EvLog Warn MsgSizeInvalid]) /\
  forall E fuel reqs,
    let w := world_of (spin E fuel reqs (startup size)) in
    g_size w = 110 \/ g_size w = 210.
Proof.
  assert (H : g_size (startup size) =
              (if (size =? 110) || (size =? 210) then size else 210)).
  { unfold startup, select_size.
    destruct (size =? 110) eqn:H1, (size =? 210) eqn:H2; reflexivity. }
  split; [exact H|]. split.
  - unfold startup, select_size.
    destruct (size =? 110) eqn:H1, (size =? 210) eqn:H2; reflexivity.
  - intros E fuel reqs w. subst w.
    rewrite (steps_g_size E _ _ (spin_steps E fuel reqs (startup size))), H.
    destruct (size =? 110) eqn:H1; [apply Z.eqb_eq in H1; auto|].
    destruct (size =? 210) eqn:H2; [apply Z.eqb_eq in H2; auto|].
    simpl. auto.
Qed.

(** * Incremental moves *)




(** What [incrementSrv] asks for.  Opening: the sum, or the device size at
    the slow speed once the sum reaches it; nothing holds the sum at 0.
    Closing: the difference, or 0 at the slow speed once the difference
    reaches it; nothing holds the difference at the device size. *)
Lemma increment_target_open E (q : IncrRequest) (w : world) :
  ir_direction q = "open"%string ->
  g_size w = 110 \/ g_size w = 210 ->
  let next := F32.add (opening_at E (n_open w)) (ir_increment q) in
  fst (increment_target E q w) =
    Some (if F32.ge next (F32.of_int (g_size w))
          then (F32.of_int (g_size w), F32.c1)
          else (next, F32.c20)).
Proof.
  intros Hdir Hsize next. unfold increment_target. rewrite Hdir.
  change (String.eqb "open" "open") with true. cbn [getOpening fst].
  fold next. destruct (F32.ge next (F32.of_int (g_size w))) eqn:Hge.
  - destruct Hsize as [-> | ->]; reflexivity.
  - rewrite Hge. reflexivity.
Qed.

Lemma increment_target_close E (q : IncrRequest) (w : world) :
  ir_direction q = "close"%string ->
  let next := F32.sub (opening_at E (n_open w)) (ir_increment q) in
  fst (increment_target E q w) =
    Some (if F32.le next GRIPPER_MIN_OPEN
          then (GRIPPER_MIN_OPEN, F32.c1)
          else (next, F32.c20)).
Proof.
  intros Hdir next. unfold increment_target. rewrite Hdir.
  change (String.eqb "close" "open") with false.
  change (String.eqb "close" "close") with true. cbn [getOpening fst].
  fold next. destruct (F32.le next GRIPPER_MIN_OPEN) eqn:Hle.
  - reflexivity.
  - rewrite Hle. reflexivity.
Qed.

(** The example of the specification: at 208 mm of 210, opening by 5 goes to
    210 at the slow speed. *)
Example increment_near_limit :
  fst (increment_target (env_of [] [] [] [F32.of_int 208]) (step_by "open" 5)
         (startup 210))
  = Some (F32.of_int 210, F32.c1).
Proof. reflexivity. Qed.

(** C7, where the code departs from it: opening by -50 from 10 mm sends the
    target -40, a number below 0, at the normal speed; only the limit in the
    direction named is applied. *)
Theorem negative_increment_escapes_clamp :
  sent (trace (world_of
    (serve opened_10_then_208 3 (ReqIncrement (step_by "open" (-50))) (startup 210))))
  = [CmdMove (F32.of_int (-40)) F32.c20 true; CmdGetOpening] /\
  F32.below (F32.of_int (-40)) 0.
Proof.
  split; [reflexivity|].
  eexists. split; reflexivity.
Qed.

(** * Range and speed checks *)

Lemma serve_motion E fuel r q w :
  r = ReqMove q \/ r = ReqGrasp q \/ r = ReqRelease q ->
  exists c id g,
    motion_command r = Some c /\
    serve E (S fuel) r w =
      if in_motion w then Ret busy_reply (log (EvLog Warn MsgBusy) w)
      else if width_out_of_range (mr_width q) w then
        Ret {| ok := false; error := Some E_RANGE_ERROR |}
            (log (EvLog Error MsgRange) w)
      else
        let w1 := if speed_out_of_limits (mr_speed q)
                  then log (EvLog Warn MsgSpeedLimits) w else w in
        issue E (serve E fuel) fuel c id g w1.
Proof.
  intros [-> | [-> | ->]]; do 3 eexists; (split; [reflexivity|]); reflexivity.
Qed.




(** * What a service does once its checks are passed *)

Lemma issue_trace E dispatch (Hd : sound E dispatch) fuel c id g w :
  exists evs,
    trace (world_of (issue E dispatch fuel c id g w))
    = evs ++ EvSend c (send_at E (n_send w)) :: trace w.
Proof.
  unfold issue, submit.
  set (rc := send_at E (n_send w)).
  set (w2 := log (EvSend c rc)
               (tick (Z.of_N (send_time_at E (n_send w)))
                  (next_send w))).
  destruct (rc =? 0); [|exists []; reflexivity].
  set (w3 := set_last_cmd_id id (set_in_motion true w2)).
  destruct (await_steps E dispatch Hd true id (now w3) fuel w3 eq_refl) as [Hs Hb].
  assert (H : steps E w3
                (world_of (bind (await E dispatch true fuel id (now w3) w3)
                                (conclude g)))).
  { apply bind_steps; [exact Hs|].
    intros r w4 Heq. rewrite Heq in Hb. apply conclude_steps, Hb. }
  destruct (steps_trace E _ _ H) as [evs Hevs].
  exists (evs ++ [EvInMotion true]). rewrite Hevs, <- app_assoc. reflexivity.
Qed.

Lemma conclude_ok g r w p w' : conclude g r w = Ret p w' -> ok p = true.
Proof.
  destruct r as [m st|]; simpl.
  - destruct (error_of m st =? 0); intros H; injection H as <- _; reflexivity.
  - intros H; injection H as <- _; reflexivity.
Qed.

Lemma issue_ok E dispatch fuel c id g w p w' :
  issue E dispatch fuel c id g w = Ret p w' -> ok p = true.
Proof.
  unfold issue, submit. destruct (send_at E (n_send w) =? 0).
  - destruct (await E dispatch true fuel id _ _) as [r w4|w4|w4]; simpl;
      try discriminate.
    apply conclude_ok.
  - intros H; injection H as <- _; reflexivity.
Qed.

(** C5, as stated, fails when the target is out of range: the request is
    refused for its width, no warning about the speed is logged and nothing
    is written. *)
Lemma speed_check_yields_to_range_check :
  F32.above (mr_speed (move_to 250 500)) 420 /\
  exists w',
    serve silent 1 (ReqMove (move_to 250 500)) (startup 210)
    = Ret {| ok := false; error := Some E_RANGE_ERROR |} w' /\
    ~ In (EvLog Warn MsgSpeedLimits) (trace w') /\
    sent (trace w') = [].
Proof.
  split.
  - eexists. split; reflexivity.
  - eexists. split; [reflexivity|]. split; [|reflexivity].
    simpl. intros [H|[]]. discriminate.
Qed.

(** C5, amended: on an idle node, for a move, grasp or release whose target
    passes the range check, a speed that is a number below 0 or above 420 is
    met with a warning and nothing more: right after the warning the command
    is written with the width and the speed of the request, and whatever the
    service then returns, it returns true. *)
Theorem speed_warning_is_advisory E fuel (r : request) (q : MoveRequest) (w : world) :
  r = ReqMove q \/ r = ReqGrasp q \/ r = ReqRelease q ->
  in_motion w = false ->
  width_out_of_range (mr_width q) w = false ->
  F32.valid (mr_speed q) = true ->
  F32.below (mr_speed q) 0 \/ F32.above (mr_speed q) 420 ->
  exists c,
    motion_command r = Some c /\
    (exists evs,
       trace (world_of (serve E (S fuel) r w))
       = evs ++ EvSend c (send_at E (n_send w))
             :: EvLog Warn MsgSpeedLimits :: trace w) /\
    forall p w', serve E (S fuel) r w = Ret p w' -> ok p = true.
Proof.
  intros Hr Hidle Hwidth Hvalid Hspeed.
  apply (speed_out_of_limits_spec _ Hvalid) in Hspeed.
  destruct (serve_motion E fuel r q w Hr) as (c & id & g & Hc & ->).
  rewrite Hidle, Hwidth, Hspeed. cbv zeta.
  exists c. split; [exact Hc|]. split.
  - apply (issue_trace E (serve E fuel) (serve_steps E fuel)).
  - intros p w'. apply issue_ok.
Qed.

Lemma speed_warning_is_advisory_witness :
  exists c,
    motion_command (ReqMove (move_to 50 500)) = Some c /\
    (exists evs,
       trace (world_of (serve prompt 2 (ReqMove (move_to 50 500)) (startup 210)))
       = evs ++ EvSend c (send_at prompt (n_send (startup 210)))
             :: EvLog Warn MsgSpeedLimits :: trace (startup 210)) /\
    forall p w',
      serve prompt 2 (ReqMove (move_to 50 500)) (startup 210) = Ret p w' ->
      ok p = true.
Proof.
  apply (speed_warning_is_advisory prompt 1 (ReqMove (move_to 50 500))
           (move_to 50 500) (startup 210)).
  - left. reflexivity.
  - reflexivity.
  - reflexivity.
  - reflexivity.
  - right. eexists. split; reflexivity.
Defined.

(** The example of the specification, run to its end: target 50 at speed 500
    is warned about, written with speed 500 and completes. *)
Example speed_500_is_sent :
  serve prompt 2 (ReqMove (move_to 50 500)) (startup 210)
  = Ret {| ok := true; error := Some 0 |}
        (world_of (serve prompt 2 (ReqMove (move_to 50 500)) (startup 210))) /\
  sent (trace (world_of (serve prompt 2 (ReqMove (move_to 50 500)) (startup 210))))
  = [CmdMove (F32.of_int 50) (F32.of_int 500) false].
Proof. split; vm_compute; reflexivity. Qed.

(** A speed between 0 and 0.1 (here 1/16) is outside the limits the warning
    names, and goes unremarked. *)
Example slow_speed_is_not_flagged :
  let q := {| mr_width := F32.of_int 50; mr_speed := S754_finite false 8388608 (-27) |} in
  F32.valid (mr_speed q) = true /\
  F32.value (mr_speed q) = Some (F32.Units (2 ^ 145)) /\
  trace (world_of (serve prompt 2 (ReqMove q) (startup 210)))
  = [EvLog Info MsgDone; EvInMotion false; EvSleep settle_delay;
     EvRecvAck 0x21 1 E_SUCCESS; EvInMotion true;
     EvSend (CmdMove (mr_width q) (mr_speed q) false) 0].
Proof. split; [|split]; vm_compute; reflexivity. Qed.

(** * The streaming reader *)

(** X1: a pushed opening that decodes (length 6, status success) replaces
    the position and is published once. *)
Lemma opening_push_is_published res (m : Reader.msg_t) (r : Reader.state) :
  0 <= res -> Reader.id m = 0x43 -> Reader.len m = 6 ->
  Reader.cmd_get_response_status (Reader.data m) = E_SUCCESS ->
  let r' := Reader.iteration res m r in
  Reader.position r' = Reader.convert (skipn 2 (Reader.data m)) /\
  Reader.outputs r' =
    Reader.PubState (Reader.convert (skipn 2 (Reader.data m)))
                    (Reader.speed r) (Reader.f_motor r) :: Reader.outputs r.
Proof.
  intros Hres Hid Hlen Hst. unfold Reader.iteration, Reader.handle.
  rewrite Hid, Hlen, Hst.
  destruct (res <? 0) eqn:Hneg; [apply Z.ltb_lt in Hneg; lia|].
  simpl. destruct (Reader.cnt r) as [[c0 c1] c2]. simpl. auto.
Qed.

Lemma opening_push_is_published_witness :
  let r := Reader.start (F32.of_int 7) F32.zero F32.zero in
  let r' := Reader.iteration 6 opening_50 r in
  Reader.position r' = Reader.convert (skipn 2 (Reader.data opening_50)) /\
  Reader.outputs r' =
    Reader.PubState (Reader.convert (skipn 2 (Reader.data opening_50)))
                    (Reader.speed r) (Reader.f_motor r) :: Reader.outputs r.
Proof.
  apply (opening_push_is_published 6 opening_50
           (Reader.start (F32.of_int 7) F32.zero F32.zero)).
  - lia.
  - reflexivity.
  - reflexivity.
  - reflexivity.
Defined.

(** X2: a frame that is too short, and a six-byte opening, speed or force
    frame with an error status, change nothing and publish nothing. *)
Lemma undecodable_is_dropped res (m : Reader.msg_t) (r : Reader.state) :
  (res < 0 \/ Reader.len m < 2) \/
  (0x43 <= Reader.id m <= 0x45 /\ Reader.len m = 6 /\
   Reader.cmd_get_response_status (Reader.data m) <> E_SUCCESS) ->
  let r' := Reader.iteration res m r in
  Reader.position r' = Reader.position r /\
  Reader.publications (Reader.outputs r') = Reader.publications (Reader.outputs r).
Proof.
  intros H. unfold Reader.iteration.
  destruct ((res <? 0) || (Reader.len m <? 2)) eqn:Hshort; [split; reflexivity|].
  destruct H as [H | (Hid & Hlen & Hst)].
  - apply orb_false_iff in Hshort. destruct Hshort as [H1 H2].
    apply Z.ltb_ge in H1. apply Z.ltb_ge in H2. lia.
  - replace ((67 <=? Reader.id m) && (Reader.id m <=? 69) && (Reader.len m =? 6))
      with true.
    + apply Z.eqb_neq in Hst. rewrite Hst. split; reflexivity.
    + symmetry. rewrite !andb_true_iff, !Z.leb_le, Z.eqb_eq. lia.
Qed.

Lemma undecodable_is_dropped_witness :
  let r := Reader.start (F32.of_int 7) F32.zero F32.zero in
  let r' := Reader.iteration 6 failed_opening_6 r in
  Reader.position r' = Reader.position r /\
  Reader.publications (Reader.outputs r') = Reader.publications (Reader.outputs r).
Proof.
  apply (undecodable_is_dropped 6 failed_opening_6
           (Reader.start (F32.of_int 7) F32.zero F32.zero)).
  right. split; [split; vm_compute; discriminate|].
  split; [reflexivity | discriminate].
Defined.

(** A frame with the opening id whose length is not 6 is never tested for
    its status: whatever it carries, the position becomes 0.0 and the state
    is published. *)
Lemma short_opening_frame_resets_position res (m : Reader.msg_t) (r : Reader.state) :
  0 <= res -> Reader.id m = 0x43 -> 2 <= Reader.len m -> Reader.len m <> 6 ->
  let r' := Reader.iteration res m r in
  Reader.position r' = F32.zero /\
  Reader.outputs r' =
    Reader.PubState F32.zero (Reader.speed r) (Reader.f_motor r)
    :: Reader.outputs r.
Proof.
  intros Hres Hid Hlen Hsix. unfold Reader.iteration, Reader.handle.
  rewrite Hid.
  replace (res <? 0) with false by (symmetry; apply Z.ltb_ge; lia).
  replace (Reader.len m <? 2) with false by (symmetry; apply Z.ltb_ge; lia).
  replace (Reader.len m =? 6) with false by (symmetry; apply Z.eqb_neq; lia).
  simpl. destruct (Reader.cnt r) as [[c0 c1] c2]. simpl. auto.
Qed.

(** C8, where the code departs from it: an error reply to the opening
    request carries the two status bytes only; it passes the length test,
    misses the status test (made for six-byte frames only), and so sets the
    position to 0.0 and is published. *)
Theorem error_reply_is_published :
  let r := Reader.start (F32.of_int 50) (F32.of_int 7) (F32.of_int 3) in
  let r' := Reader.iteration 2 failed_opening r in
  Reader.cmd_get_response_status (Reader.data failed_opening) = E_CMD_FAILED /\
  Reader.position r' = F32.zero /\
  Reader.outputs r' = [Reader.PubState F32.zero (F32.of_int 7) (F32.of_int 3)].
Proof.
  intros r r'. split; [reflexivity|].
  apply (short_opening_frame_resets_position 2 failed_opening r).
  - lia.
  - reflexivity.
  - simpl. lia.
  - simpl. lia.
Qed.

(** * Cancellation *)

(** C1, where the code departs from it: [stopSrv] leaves its loop at the
    first frame of any status.  When the stop comes before the move has read
    its interim frame, that frame is the one read; the move returns aborted
    and the guard is cleared with the frame that ends the move still on the
    link, and the next move takes it for its own answer. *)
Theorem stop_consumes_interim_frame :
  let w1 := world_of (spin stop_races_ack 5 [ReqMove (move_to 50 100)] (startup 210)) in
  let w2 := world_of (spin stop_races_ack 5 [ReqMove (move_to 20 100)] w1) in
  sent (trace w1) = [CmdStop false; CmdMove (F32.of_int 50) (F32.of_int 100) false] /\
  replies (trace w1) = [{| ok := true; error := Some E_CMD_ABORTED |};
                        {| ok := true; error := None |}] /\
  polls (trace w1) = [(0x21, 1, E_CMD_PENDING); (0x21, 0, 0)] /\
  in_motion w1 = false /\
  polls (trace w2) = (0x21, 1, E_CMD_ABORTED) :: polls (trace w1) /\
  replies (trace w2) = {| ok := true; error := Some E_CMD_ABORTED |}
                       :: replies (trace w1).
Proof.
  intros w1 w2.
  split; [|split; [|split; [|split; [|split]]]]; vm_compute; reflexivity.
Qed.

(** * The settle delay *)

(** C4, where the code departs from it: the branch taken on [stop_called]
    clears the guard at once.  The exit of the same loop on a frame sleeps
    0.1 s before it clears the guard; here the service returns aborted with
    the guard cleared right after [stop_called = false], and the run holds
    no sleep at all. *)
Lemma cancellation_skips_settle :
  let w := world_of (spin stop_races_ack 5 [ReqMove (move_to 50 100)] (startup 210)) in
  firstn 3 (trace w) =
    [EvReply (ReqMove (move_to 50 100)) {| ok := true; error := Some E_CMD_ABORTED |};
     EvInMotion false; EvStopCalled false] /\
  ~ In (EvSleep settle_delay) (trace w) /\
  settles_always (trace w) = false.
Proof.
  intros w.
  split; [vm_compute; reflexivity|]. split; [|vm_compute; reflexivity].
  vm_compute. intuition discriminate.
Qed.

(** X27: in every run of the motion services and stop, each clearing of
    the guard comes right after the settle sleep of 0.1 s, except in the
    cancellation branch, which clears it right after [stop_called = false];
    the guard is set whenever it is cleared, so it is held through the
    sleep; and the conclusion of a command whose wait loop ran to its end
    moves the clock by 0.1 s before it clears the guard. *)
Theorem settle_precedes_release E fuel (reqs : list request) (size : Z) :
  let w := world_of (spin E fuel reqs (startup size)) in
  settles_unless_cancelled (trace w) = true /\
  one_at_a_time (trace w) = true /\
  forall g m st w0,
    let w' := world_of (conclude g (Finished m st) w0) in
    now w' = now w0 + settle_delay /\ in_motion w' = false /\
    exists e, trace w' = e :: EvInMotion false :: EvSleep settle_delay :: trace w0.
Proof.
  intros w.
  destruct (steps_coherent E (startup size) w) as (_ & Hs & Ht);
    [apply spin_steps | apply startup_coherent |].
  split; [exact Ht|]. split; [apply single_flight_one_at_a_time, Hs|].
  - intros g m st w0. simpl.
    destruct (error_of m st =? 0); simpl.
    + destruct g; simpl; eauto.
    + eauto.
Qed.

(** * A busy node *)

Section Busy.

Variable E : env.

Lemma busy_reject fuel r w :
  in_motion w = true -> r <> ReqStop ->
  exists p, serve E (S fuel) r w = Ret p (log (EvLog Warn MsgBusy) w).
Proof.
  intros Hbusy Hr. destruct r; simpl;
    unfold moveSrv, graspSrv, releaseSrv, incrementSrv, homingSrv;
    try rewrite Hbusy; try (eexists; reflexivity).
  contradiction.
Qed.

Lemma run_callbacks_busy fuel cbs :
  forall w, in_motion w = true -> ~ In ReqStop cbs ->
  exists w', run_callbacks (serve E (S fuel)) cbs w = Ret tt w' /\ unmoved w w'.
Proof.
  induction cbs as [|r cbs IH]; intros w Hbusy Hno; cbn [run_callbacks].
  - exists w. repeat split.
  - destruct (busy_reject fuel r w Hbusy) as [p Hp].
    { intros ->. apply Hno. left. reflexivity. }
    rewrite Hp. cbn [bind].
    destruct (IH (log (EvReply r p) (log (EvLog Warn MsgBusy) w))) as (w' & Hw' & Hu).
    + exact Hbusy.
    + intros Hin. apply Hno. right. exact Hin.
    + exists w'. split; [exact Hw'|]. exact Hu.
Qed.

Lemma spinOnce_busy fuel w :
  in_motion w = true -> ~ In ReqStop (spin_at E (n_spin w)) ->
  exists w',
    spinOnce E (serve E (S fuel)) w = Ret tt w' /\
    in_motion w' = true /\ stop_called w' = stop_called w /\
    now w' = now w /\ n_ack w' = n_ack w /\ n_spin w' = S (n_spin w) /\
    last_cmd_id w' = last_cmd_id w /\ sent (trace w') = sent (trace w).
Proof.
  intros Hbusy Hno. unfold spinOnce.
  destruct (run_callbacks_busy fuel _ (next_spin w) Hbusy Hno)
    as (w' & Hw' & Hm & Hs & Hn & Ha & Hp & Hl & Ht).
  exists w'. simpl in Hm, Hs, Hn, Ha, Hp, Hl, Ht.
  rewrite Hm, Hs, Hn, Ha, Hp, Hl, Ht.
  repeat split; assumption.
Qed.

(** * The deadline of the wait loop *)

Lemma elapsed_nonneg k n : 0 <= elapsed E k n.
Proof.
  revert k. induction n as [|n IH]; intros k; simpl; [lia|].
  specialize (IH (S k)). lia.
Qed.

Lemma elapsed_last k n :
  elapsed E k (S n) = elapsed E k n + Z.of_N (snd (ack_at E (k + n))).
Proof.
  revert k. induction n as [|n IH]; intros k.
  - simpl. rewrite Nat.add_0_r. lia.
  - change (elapsed E k (S (S n)))
      with (Z.of_N (snd (ack_at E k)) + elapsed E (S k) (S n)).
    rewrite IH. simpl. rewrite Nat.add_succ_r. lia.
Qed.

Lemma recv_ack_fields id w :
  let w1 := snd (recv_ack E id w) in
  in_motion w1 = in_motion w /\ stop_called w1 = stop_called w /\
  now w1 = now w + Z.of_N (snd (ack_at E (n_ack w))) /\
  n_ack w1 = S (n_ack w) /\ n_spin w1 = n_spin w.
Proof.
  unfold recv_ack. destruct (ack_at E (n_ack w)) as [[rc st] d]. simpl. auto.
Qed.

(** A poll writes nothing on the link. *)
Lemma recv_ack_frame id w :
  let w1 := snd (recv_ack E id w) in
  n_send w1 = n_send w /\ last_cmd_id w1 = last_cmd_id w /\
  sent (trace w1) = sent (trace w).
Proof.
  unfold recv_ack. destruct (ack_at E (n_ack w)) as [[rc st] d]. simpl. auto.
Qed.

(** One turn of the wait loop while no stop is served. *)
Lemma await_round f (spins : bool) id begin fuel w :
  in_motion w = true -> stop_called w = false ->
  ~ In ReqStop (spin_at E (n_spin w)) ->
  exists w3,
    in_motion w3 = true /\ stop_called w3 = false /\
    now w3 = now w + Z.of_N (snd (ack_at E (n_ack w))) /\
    n_ack w3 = S (n_ack w) /\
    n_spin w3 = (if spins then S (n_spin w) else n_spin w) /\
    await E (serve E (S f)) spins (S fuel) id begin w =
      (if now w3 - begin >? timeout_commands then @Quit waited (log EvQuit w3)
       else if interim E (n_ack w)
            then await E (serve E (S f)) spins fuel id begin w3
            else Ret (Finished (fst (fst (ack_at E (n_ack w))))
                               (snd (fst (ack_at E (n_ack w))))) w3) /\
    last_cmd_id w3 = last_cmd_id w /\ sent (trace w3) = sent (trace w).
Proof.
  intros Hbusy Hstop Hspin. cbn [await]. rewrite recv_ack_eq.
  destruct (recv_ack_fields id w) as (B1 & S1 & T1 & A1 & P1).
  destruct (recv_ack_frame id w) as (_ & L1 & R1).
  unfold interim.
  set (rc := fst (fst (ack_at E (n_ack w)))) in *.
  set (st := snd (fst (ack_at E (n_ack w)))) in *.
  set (w1 := snd (recv_ack E id w)) in *.
  set (w2 := if (rc =? 1) && (st =? E_CMD_PENDING)
             then log (EvLog Info MsgProgress) w1 else w1).
  assert (F2 : in_motion w2 = true /\ stop_called w2 = false /\
               now w2 = now w + Z.of_N (snd (ack_at E (n_ack w))) /\
               n_ack w2 = S (n_ack w) /\ n_spin w2 = n_spin w /\
               last_cmd_id w2 = last_cmd_id w /\
               sent (trace w2) = sent (trace w)).
  { subst w2. destruct ((rc =? 1) && (st =? E_CMD_PENDING)); simpl;
      rewrite B1, S1, T1, A1, P1, L1, R1; repeat split; auto. }
  destruct F2 as (B2 & S2 & T2 & A2 & P2 & L2 & R2).
  destruct spins.
  - destruct (spinOnce_busy f w2 B2)
      as (w3 & H3 & B3 & S3 & T3 & A3 & P3 & L3 & R3).
    { rewrite P2. exact Hspin. }
    exists w3. rewrite H3. cbn [bind].
    rewrite S3, S2, T3, T2, A3, A2, P3, P2, L3, L2, R3, R2. simpl andb.
    repeat split; try assumption.
  - exists w2. cbn [bind]. simpl andb.
    repeat split; assumption.
Qed.

Lemma await_deadline f spins id begin n :
  forall fuel w,
    (n < fuel)%nat ->
    in_motion w = true -> stop_called w = false ->
    (forall i, (i <= n)%nat -> ~ In ReqStop (spin_at E (n_spin w + i))) ->
    (forall i, (i < n)%nat -> interim E (n_ack w + i) = true) ->
    now w - begin + elapsed E (n_ack w) n <= timeout_commands ->
    timeout_commands < now w - begin + elapsed E (n_ack w) (S n) ->
    exists w',
      await E (serve E (S f)) spins fuel id begin w = Quit w' /\
      now w' = now w + elapsed E (n_ack w) (S n).
Proof.
  induction n as [|n IH]; intros fuel w Hfuel Hbusy Hstop Hspin Hint Hin Hout;
    (destruct fuel as [|fuel]; [lia|]);
    destruct (await_round f spins id begin fuel w Hbusy Hstop)
      as (w3 & B3 & S3 & T3 & A3 & P3 & -> & _);
    try (specialize (Hspin O ltac:(lia)); rewrite Nat.add_0_r in Hspin; exact Hspin).
  - (* the poll that passes the deadline *)
    simpl elapsed in Hout.
    replace (now w3 - begin >? timeout_commands) with true
      by (symmetry; apply Z.gtb_lt; lia).
    eexists. split; [reflexivity|]. simpl. lia.
  - (* a poll before the deadline *)
    change (elapsed E (n_ack w) (S n))
      with (Z.of_N (snd (ack_at E (n_ack w))) + elapsed E (S (n_ack w)) n) in Hin.
    change (elapsed E (n_ack w) (S (S n)))
      with (Z.of_N (snd (ack_at E (n_ack w))) + elapsed E (S (n_ack w)) (S n)) in *.
    pose proof (elapsed_nonneg (S (n_ack w)) n) as Hpos.
    replace (now w3 - begin >? timeout_commands) with false
      by (symmetry; rewrite Z.gtb_ltb; apply Z.ltb_ge; lia).
    assert (Hgo : interim E (n_ack w) = true).
    { specialize (Hint O ltac:(lia)). rewrite Nat.add_0_r in Hint. exact Hint. }
    rewrite Hgo.
    destruct (IH fuel w3) as (w' & Hw' & Hnow); try assumption.
    + lia.
    + intros i Hi. rewrite P3.
      destruct spins.
      * rewrite Nat.add_succ_comm. apply Hspin. lia.
      * apply Hspin. lia.
    + intros i Hi. rewrite A3, Nat.add_succ_comm. apply Hint. lia.
    + rewrite A3, T3. lia.
    + rewrite A3, T3. lia.
    + exists w'. split; [exact Hw'|]. rewrite Hnow, A3, T3. lia.
Qed.

End Busy.

Section Deadline.

Variable E : env.

Lemma issue_deadline f fuel c id g w n :
  send_at E (n_send w) = 0 -> stop_called w = false ->
  (n < fuel)%nat ->
  (forall i, (i <= n)%nat -> ~ In ReqStop (spin_at E (n_spin w + i))) ->
  (forall i, (i < n)%nat -> interim E (n_ack w + i) = true) ->
  elapsed E (n_ack w) n <= timeout_commands ->
  timeout_commands < elapsed E (n_ack w) (S n) ->
  exists w',
    issue E (serve E (S f)) fuel c id g w = Quit w' /\
    now w' = now w + Z.of_N (send_time_at E (n_send w))
             + elapsed E (n_ack w) (S n).
Proof.
  intros Hsend Hstop Hfuel Hspin Hint Hin Hout.
  unfold issue, submit. rewrite Hsend. cbn [Z.eqb].
  set (w3 := set_last_cmd_id id
               (set_in_motion true
                  (log (EvSend c 0)
                     (tick (Z.of_N (send_time_at E (n_send w)))
                        (next_send w))))).
  destruct (await_deadline E f true id (now w3) n fuel w3) as (w' & Hw' & Hnow);
    try assumption; try reflexivity.
  - change (n_ack w3) with (n_ack w). lia.
  - change (n_ack w3) with (n_ack w). lia.
  - exists w'. rewrite Hw'. split; [reflexivity | exact Hnow].
Qed.

Lemma homing_deadline f fuel w n :
  in_motion w = false ->
  send_at E (n_send w) = 0 -> stop_called w = false ->
  (n < fuel)%nat ->
  (forall i, (i <= n)%nat -> ~ In ReqStop (spin_at E (n_spin w + i))) ->
  (forall i, (i < n)%nat -> interim E (n_ack w + i) = true) ->
  elapsed E (n_ack w) n <= timeout_commands ->
  timeout_commands < elapsed E (n_ack w) (S n) ->
  exists w',
    homingSrv E (serve E (S f)) fuel w = Quit w' /\
    now w' = now w + Z.of_N (send_time_at E (n_send w))
             + elapsed E (n_ack w) (S n).
Proof.
  intros Hidle Hsend Hstop Hfuel Hspin Hint Hin Hout.
  unfold homingSrv, homing_async, submit. rewrite Hidle, Hsend. cbn [Z.eqb].
  set (w2 := set_last_cmd_id 32
               (set_in_motion true
                  (log (EvSend CmdHoming 0)
                     (tick (Z.of_N (send_time_at E (n_send w)))
                        (next_send w))))).
  destruct (await_deadline E f false 32 (now w2) n fuel w2) as (w' & Hw' & Hnow);
    try assumption; try reflexivity.
  - change (n_ack w2) with (n_ack w). lia.
  - change (n_ack w2) with (n_ack w). lia.
  - exists w'. rewrite Hw'. split; [reflexivity | exact Hnow].
Qed.

(** C3, amended: a motion command that has been accepted is waited for
    against a deadline counted from the moment the service reads the clock,
    once its command has been written.  As long as the polls bring no frame
    or the interim status and no stop is served, the service goes on
    waiting, however many interim frames arrive; the first poll to end more
    than 30 s after that moment ends the process through [quit], and no
    reply reaches the caller.  That happens after the deadline and at most
    one poll later. *)
Theorem deadline_is_fatal (r : request) (w : world) (n fuel : nat) :
  accepted E r w = true ->
  stop_called w = false ->
  (n + 1 < fuel)%nat ->
  (forall i, (i <= n)%nat -> ~ In ReqStop (spin_at E (n_spin w + i))) ->
  (forall i, (i < n)%nat -> interim E (n_ack w + i) = true) ->
  elapsed E (n_ack w) n <= timeout_commands ->
  timeout_commands < elapsed E (n_ack w) (S n) ->
  exists w',
    serve E fuel r w = Quit w' /\
    timeout_commands < now w' - begin_of E r w /\
    now w' - begin_of E r w
    <= timeout_commands + Z.of_N (snd (ack_at E (n_ack w + n))).
Proof.
  intros Hacc Hstop Hfuel Hspin Hint Hin Hout.
  destruct fuel as [|[|f]]; try lia.
  assert (Hn : (n < S f)%nat) by lia.
  unfold accepted in Hacc.
  apply andb_true_iff in Hacc. destruct Hacc as [Hacc Hr].
  apply andb_true_iff in Hacc. destruct Hacc as [Hidle Hsend].
  apply negb_true_iff in Hidle. apply Z.eqb_eq in Hsend.
  assert (Hlast := elapsed_last E (n_ack w) n).
  assert (Hgoal : exists w',
             serve E (S (S f)) r w = Quit w' /\
             now w' = begin_of E r w + elapsed E (n_ack w) (S n)).
  { assert (Hm : forall q c id g,
               width_out_of_range (mr_width q) w = false ->
               exists w',
                 (let w1 := if speed_out_of_limits (mr_speed q)
                            then log (EvLog Warn MsgSpeedLimits) w else w in
                  issue E (serve E (S f)) (S f) c id g w1) = Quit w' /\
                 now w' = now w + 0 + Z.of_N (send_time_at E (n_send w))
                          + elapsed E (n_ack w) (S n)).
    { intros q c id g Hw. cbv zeta.
      destruct (speed_out_of_limits (mr_speed q));
        [destruct (issue_deadline f (S f) c id g
                     (log (EvLog Warn MsgSpeedLimits) w) n)
           as (w' & Hw' & Hnow)
        |destruct (issue_deadline f (S f) c id g w n)
           as (w' & Hw' & Hnow)]; try assumption;
        exists w'; (split; [exact Hw'|]); rewrite Hnow; simpl; lia. }
    destruct r as [q|q|q|q| |].
    - apply negb_true_iff in Hr.
      destruct (serve_motion E (S f) (ReqMove q) q w) as (c & id & g & _ & ->);
        [auto|].
      rewrite Hidle, Hr. apply Hm. exact Hr.
    - apply negb_true_iff in Hr.
      destruct (serve_motion E (S f) (ReqGrasp q) q w) as (c & id & g & _ & ->);
        [auto|].
      rewrite Hidle, Hr. apply Hm. exact Hr.
    - apply negb_true_iff in Hr.
      destruct (serve_motion E (S f) (ReqRelease q) q w) as (c & id & g & _ & ->);
        [auto|].
      rewrite Hidle, Hr. apply Hm. exact Hr.
    - cbn [serve]. unfold incrementSrv, increment_target. rewrite Hidle.
      destruct (String.eqb (ir_direction q) "open") eqn:Ho;
        [|destruct (String.eqb (ir_direction q) "close") eqn:Hc;
          [|discriminate]];
        cbn [getOpening fst snd];
        match goal with
        | |- context [move_async E ?x ?s true ?w1] =>
            destruct (issue_deadline f (S f) (CmdMove x s true) 33 None w1 n)
              as (w' & Hw' & Hnow); try assumption;
            exists w'; (split; [exact Hw'|]); rewrite Hnow;
            unfold begin_of; simpl; lia
        end.
    - cbn [serve].
      destruct (homing_deadline f (S f) w n)
        as (w' & Hw' & Hnow); try assumption.
      exists w'. split; [exact Hw'|]. rewrite Hnow. unfold begin_of. lia.
    - discriminate. }
  destruct Hgoal as (w' & Hw' & Hnow).
  exists w'. split; [exact Hw'|]. lia.
Qed.

End Deadline.

(** On a link where the command takes two seconds to write and every poll
    ten, a move that only ever sees the interim status ends the process at
    the fourth poll, 40 s after [begin] was read. *)
Lemma deadline_is_fatal_witness :
  begin_of slow_link (ReqMove (move_to 50 100)) (startup 210) = 2000000000 /\
  exists w',
    serve slow_link 5 (ReqMove (move_to 50 100)) (startup 210) = Quit w' /\
    timeout_commands
    < now w' - begin_of slow_link (ReqMove (move_to 50 100)) (startup 210) /\
    now w' - begin_of slow_link (ReqMove (move_to 50 100)) (startup 210)
    <= timeout_commands
       + Z.of_N (snd (ack_at slow_link (n_ack (startup 210) + 3))).
Proof.
  split; [reflexivity|].
  apply (deadline_is_fatal slow_link (ReqMove (move_to 50 100)) (startup 210) 3 5).
  - reflexivity.
  - reflexivity.
  - lia.
  - intros i _ H. simpl in H. destruct i; exact H.
  - intros i Hi. destruct i as [|[|[|i]]]; try reflexivity. lia.
  - vm_compute. discriminate.
  - vm_compute. reflexivity.
Defined.

(** C3, as stated, fails: the wait for a command can end with no frame that
    closes the command and without the process ending.  When [recv_ack]
    reports an error, the service returns the error 255 to its caller; when
    a stop is served, it returns [E_CMD_ABORTED].  In both runs the link
    brings nothing further. *)
Lemma wait_ends_without_quit :
  let a := serve link_fails 5 (ReqMove (move_to 50 100)) (startup 210) in
  let b := serve stop_then_silence 5 (ReqMove (move_to 50 100)) (startup 210) in
  a = Ret {| ok := true; error := Some 255 |} (world_of a) /\
  polls (trace (world_of a)) = [(0x21, -1, 0)] /\
  b = Ret {| ok := true; error := Some E_CMD_ABORTED |} (world_of b) /\
  polls (trace (world_of b)) = [(0x21, 1, E_CMD_PENDING); (0x21, 0, 0)] /\
  ~ In EvQuit (trace (world_of a)) /\ ~ In EvQuit (trace (world_of b)).
Proof.
  intros a b.
  split; [vm_compute; reflexivity|]. split; [vm_compute; reflexivity|].
  split; [vm_compute; reflexivity|]. split; [vm_compute; reflexivity|].
  split; vm_compute; intuition discriminate.
Qed.

(** Where the deadline is not watched at all: once a stop is served, the
    loop of [stopSrv] polls until a frame or an error comes.  On a link that
    stays silent the node is still in that loop after 39 polls of a second
    each, well past the 30 s of the move it was to stop. *)
Example stop_on_silent_link_hangs :
  let o := serve silent_seconds 40 (ReqMove (move_to 50 100)) (startup 210) in
  o = OutOfFuel (world_of o) /\
  hd_error (sent (trace (world_of o))) = Some (CmdStop false) /\
  List.length (polls (trace (world_of o))) = 39%nat /\
  now (world_of o) = 39000000000 /\
  timeout_commands < now (world_of o).
Proof.
  intros o.
  split; [vm_compute; reflexivity|]. split; [vm_compute; reflexivity|].
  split; [vm_compute; reflexivity|]. split; vm_compute; reflexivity.
Qed.

(** * Stop *)

Section Stop.

Variable E : env.



(** It reads polls up to and including the first that does not return 0,
    whatever the status that one carries, and no further. *)
Lemma drain_takes_first_answer id k :
  forall fuel w,
    (k < fuel)%nat ->
    (forall i, (i < k)%nat -> fst (fst (ack_at E (n_ack w + i))) = 0) ->
    fst (fst (ack_at E (n_ack w + k))) <> 0 ->
    exists w',
      drain E fuel id w = Ret tt w' /\ n_ack w' = (n_ack w + S k)%nat.
Proof.
  induction k as [|k IH]; intros fuel w Hk Hzero Hrc;
    (destruct fuel as [|fuel]; [lia|]); cbn [drain]; rewrite recv_ack_eq;
    destruct (recv_ack_fields E id w) as (_ & _ & _ & A1 & _).
  - rewrite Nat.add_0_r in Hrc. apply Z.eqb_neq in Hrc. rewrite Hrc.
    eexists. split; [reflexivity|]. rewrite A1. lia.
  - pose proof (Hzero O ltac:(lia)) as H0. rewrite Nat.add_0_r in H0.
    rewrite H0. cbn [Z.eqb].
    destruct (IH fuel (snd (recv_ack E id w))) as (w' & Hw' & Hn).
    + lia.
    + intros i Hi. rewrite A1, Nat.add_succ_comm. apply Hzero. lia.
    + rewrite A1, Nat.add_succ_comm. exact Hrc.
    + exists w'. split; [exact Hw'|]. rewrite Hn, A1. lia.
Qed.

(** X3: with no frame and no error ever, the loop of [stopSrv] does not
    end, whatever the budget: it has no deadline. *)
Lemma drain_starves id :
  forall fuel w,
    (forall i, fst (fst (ack_at E (n_ack w + i))) = 0) ->
    exists w', drain E fuel id w = OutOfFuel w'.
Proof.
  induction fuel as [|fuel IH]; intros w Hzero; cbn [drain].
  - eexists. reflexivity.
  - rewrite recv_ack_eq.
    destruct (recv_ack_fields E id w) as (_ & _ & _ & A1 & _).
    pose proof (Hzero O) as H0. rewrite Nat.add_0_r in H0. rewrite H0.
    cbn [Z.eqb]. apply IH. intros i. rewrite A1, Nat.add_succ_comm. apply Hzero.
Qed.


End Stop.

Lemma drain_starves_witness :
  exists w', drain silent 7 0x21 pending = OutOfFuel w'.
Proof.
  apply (drain_starves silent 0x21 7 pending).
  intros i. simpl. destruct i; reflexivity.
Defined.

(** * Single flight *)





(** * A stop served during a wait *)

Section Cancel.

Variable E : env.

Lemma drain_frame id n :
  forall w,
    let w' := world_of (drain E n id w) in
    n_send w' = n_send w /\ sent (trace w') = sent (trace w).
Proof.
  induction n as [|n IH]; intros w; cbn [drain]; [simpl; auto|].
  rewrite recv_ack_eq.
  destruct (recv_ack_frame E id w) as (N1 & _ & T1).
  destruct (fst (fst (ack_at E (n_ack w))) =? 0).
  - destruct (IH (snd (recv_ack E id w))) as (N2 & T2).
    cbv zeta. rewrite N2, T2. auto.
  - simpl. auto.
Qed.

(** [stopSrv] on a busy node: a Stop is written, polls are read up to the
    first that does not return 0, [stop_called] is set, the guard stays. *)
Lemma stop_served fuel w k :
  in_motion w = true ->
  (k < fuel)%nat ->
  (forall i, (i < k)%nat -> fst (fst (ack_at E (n_ack w + i))) = 0) ->
  fst (fst (ack_at E (n_ack w + k))) <> 0 ->
  exists w',
    serve E (S fuel) ReqStop w = Ret {| ok := true; error := None |} w' /\
    in_motion w' = true /\ stop_called w' = true /\
    n_ack w' = (n_ack w + S k)%nat /\ n_spin w' = n_spin w /\
    sent (trace w') = CmdStop (last_cmd_id w =? 0x20) :: sent (trace w).
Proof.
  intros Hbusy Hk Hzero Hrc. cbn [serve]. unfold stopSrv. simpl in_motion.
  rewrite Hbusy.
  set (w3 := log (EvLog Warn MsgWaiting) _).
  change (last_cmd_id w3) with (last_cmd_id w).
  destruct (drain_takes_first_answer E (last_cmd_id w) k fuel w3 Hk Hzero Hrc)
    as (w4 & Hd & A4).
  destruct (drain_steps E (last_cmd_id w) fuel w3) as [_ B4].
  destruct (drain_frame (last_cmd_id w) fuel w3) as (_ & T4).
  assert (P4 : n_spin (world_of (drain E fuel (last_cmd_id w) w3)) = n_spin w3).
  { clear. generalize w3. induction fuel as [|n IH]; intros w0; cbn [drain];
      [reflexivity|].
    rewrite recv_ack_eq.
    destruct (recv_ack_fields E (last_cmd_id w) w0) as (_ & _ & _ & _ & P1).
    destruct (fst (fst (ack_at E (n_ack w0))) =? 0); [|exact P1].
    rewrite IH. exact P1. }
  rewrite Hd in B4, T4, P4 |- *. cbn [world_of bind] in *.
  eexists. split; [reflexivity|].
  simpl. rewrite B4, A4, T4, P4. repeat split; try assumption.
Qed.

(** The turn of the wait loop in which a stop, and nothing else, is served:
    the loop leaves through the cancellation branch, with the guard and
    [stop_called] cleared. *)
Lemma await_cancel_round f id begin fuel w k :
  in_motion w = true ->
  spin_at E (n_spin w) = [ReqStop] ->
  (k < f)%nat ->
  (forall i, (i < k)%nat -> fst (fst (ack_at E (S (n_ack w) + i))) = 0) ->
  fst (fst (ack_at E (S (n_ack w) + k))) <> 0 ->
  exists w',
    await E (serve E (S f)) true (S fuel) id begin w = Ret Cancelled w' /\
    in_motion w' = false /\ stop_called w' = false /\
    n_ack w' = (S (n_ack w) + S k)%nat /\
    n_spin w' = S (n_spin w) /\
    sent (trace w') = CmdStop (last_cmd_id w =? 0x20) :: sent (trace w).
Proof.
  intros Hbusy Hspin Hk Hzero Hrc. cbn [await]. rewrite recv_ack_eq.
  destruct (recv_ack_fields E id w) as (B1 & _ & _ & A1 & P1).
  destruct (recv_ack_frame E id w) as (_ & L1 & T1).
  set (rc := fst (fst (ack_at E (n_ack w)))) in *.
  set (st := snd (fst (ack_at E (n_ack w)))) in *.
  set (w1 := snd (recv_ack E id w)) in *.
  set (w2 := if (rc =? 1) && (st =? E_CMD_PENDING)
             then log (EvLog Info MsgProgress) w1 else w1).
  assert (F2 : in_motion w2 = true /\ n_ack w2 = S (n_ack w) /\
               n_spin w2 = n_spin w /\ last_cmd_id w2 = last_cmd_id w /\
               sent (trace w2) = sent (trace w)).
  { subst w2. destruct ((rc =? 1) && (st =? E_CMD_PENDING)); simpl;
      rewrite B1, A1, P1, L1, T1; auto. }
  destruct F2 as (B2 & A2 & P2 & L2 & T2).
  unfold spinOnce. rewrite P2, Hspin. cbn [run_callbacks].
  destruct (stop_served f (next_spin w2) k) as (w4 & -> & B4 & S4 & A4 & P4 & T4);
    try assumption.
  - intros i Hi. change (n_ack (next_spin w2)) with (n_ack w2). rewrite A2.
    apply Hzero, Hi.
  - change (n_ack (next_spin w2)) with (n_ack w2). rewrite A2. exact Hrc.
  - cbn [bind]. simpl stop_called. rewrite S4. cbn [andb].
    eexists. split; [reflexivity|]. simpl.
    rewrite A4, P4, T4. simpl. rewrite A2, P2, L2, T2. auto.
Qed.

(** A stop served after [j] turns that brought nothing but interim answers:
    the wait ends cancelled, and [stopSrv] has read exactly the polls up to
    the first that did not return 0. *)
Lemma await_cancelled f id begin j :
  forall fuel w k,
    (j < fuel)%nat ->
    in_motion w = true -> stop_called w = false ->
    (forall i, (i < j)%nat -> ~ In ReqStop (spin_at E (n_spin w + i))) ->
    spin_at E (n_spin w + j) = [ReqStop] ->
    (forall i, (i < j)%nat -> interim E (n_ack w + i) = true) ->
    now w - begin + elapsed E (n_ack w) j <= timeout_commands ->
    (k < f)%nat ->
    (forall i, (i < k)%nat -> fst (fst (ack_at E (n_ack w + S j + i))) = 0) ->
    fst (fst (ack_at E (n_ack w + S j + k))) <> 0 ->
    exists w',
      await E (serve E (S f)) true fuel id begin w = Ret Cancelled w' /\
      in_motion w' = false /\ stop_called w' = false /\
      n_ack w' = (n_ack w + S j + S k)%nat /\
      sent (trace w') = CmdStop (last_cmd_id w =? 0x20) :: sent (trace w).
Proof.
  induction j as [|j IH];
    intros fuel w k Hfuel Hbusy Hstop Hspin Hserved Hint Hin Hk Hzero Hrc;
    (destruct fuel as [|fuel]; [lia|]).
  - rewrite Nat.add_0_r in Hserved.
    destruct (await_cancel_round f id begin fuel w k Hbusy Hserved Hk)
      as (w' & Hw' & B & S' & A & _ & T).
    + intros i Hi. replace (S (n_ack w) + i)%nat with (n_ack w + 1 + i)%nat by lia.
      apply Hzero, Hi.
    + replace (S (n_ack w) + k)%nat with (n_ack w + 1 + k)%nat by lia. exact Hrc.
    + exists w'. split; [exact Hw'|]. rewrite A. repeat split; try assumption. lia.
  - destruct (await_round E f true id begin fuel w Hbusy Hstop)
      as (w3 & B3 & S3 & T3 & A3 & P3 & -> & L3 & R3).
    { specialize (Hspin O ltac:(lia)). rewrite Nat.add_0_r in Hspin. exact Hspin. }
    change (elapsed E (n_ack w) (S j))
      with (Z.of_N (snd (ack_at E (n_ack w))) + elapsed E (S (n_ack w)) j) in Hin.
    pose proof (elapsed_nonneg E (S (n_ack w)) j) as Hpos.
    replace (now w3 - begin >? timeout_commands) with false
      by (symmetry; rewrite Z.gtb_ltb; apply Z.ltb_ge; lia).
    assert (Hgo : interim E (n_ack w) = true).
    { specialize (Hint O ltac:(lia)). rewrite Nat.add_0_r in Hint. exact Hint. }
    rewrite Hgo.
    destruct (IH fuel w3 k) as (w' & Hw' & B & S' & A & T); try assumption.
    + lia.
    + intros i Hi. rewrite P3, Nat.add_succ_comm. apply Hspin. lia.
    + rewrite P3, Nat.add_succ_comm. exact Hserved.
    + intros i Hi. rewrite A3, Nat.add_succ_comm. apply Hint. lia.
    + rewrite A3, T3. lia.
    + intros i Hi. rewrite A3.
      replace (S (n_ack w) + S j + i)%nat with (n_ack w + S (S j) + i)%nat by lia.
      apply Hzero, Hi.
    + rewrite A3.
      replace (S (n_ack w) + S j + k)%nat with (n_ack w + S (S j) + k)%nat by lia.
      exact Hrc.
    + exists w'. split; [exact Hw'|]. rewrite A, A3. repeat split; try assumption.
      * lia.
      * rewrite T, L3, R3. reflexivity.
Qed.

Lemma issue_cancelled f fuel c id g w j k :
  send_at E (n_send w) = 0 -> stop_called w = false ->
  (j < fuel)%nat ->
  (forall i, (i < j)%nat -> ~ In ReqStop (spin_at E (n_spin w + i))) ->
  spin_at E (n_spin w + j) = [ReqStop] ->
  (forall i, (i < j)%nat -> interim E (n_ack w + i) = true) ->
  elapsed E (n_ack w) j <= timeout_commands ->
  (k < f)%nat ->
  (forall i, (i < k)%nat -> fst (fst (ack_at E (n_ack w + S j + i))) = 0) ->
  fst (fst (ack_at E (n_ack w + S j + k))) <> 0 ->
  exists w',
    issue E (serve E (S f)) fuel c id g w
    = Ret {| ok := true; error := Some E_CMD_ABORTED |} w' /\
    in_motion w' = false /\ stop_called w' = false /\
    n_ack w' = (n_ack w + S j + S k)%nat /\
    sent (trace w') = CmdStop (id =? 0x20) :: c :: sent (trace w).
Proof.
  intros Hsend Hstop Hfuel Hspin Hserved Hint Hin Hk Hzero Hrc.
  unfold issue, submit. rewrite Hsend. cbn [Z.eqb].
  set (w3 := set_last_cmd_id id
               (set_in_motion true
                  (log (EvSend c 0)
                     (tick (Z.of_N (send_time_at E (n_send w)))
                        (next_send w))))).
  destruct (await_cancelled f id (now w3) j fuel w3 k)
    as (w' & -> & B & S' & A & T); try assumption; try reflexivity.
  - change (n_ack w3) with (n_ack w). lia.
  - exists w'. cbn [bind conclude]. split; [reflexivity|].
    repeat split; assumption.
Qed.

(** X4, what holds of cancellation: when a stop, and nothing else, is served in a
    turn of the wait of a move, grasp, release or increment, after turns that
    brought nothing but interim answers, a Stop is written, [stopSrv] reads
    polls up to the first that does not return 0, and the service returns
    [E_CMD_ABORTED] with the guard and [stop_called] cleared. *)
Lemma stop_aborts_pending fuel (r : request) (w : world) (j k : nat) :
  r <> ReqHoming ->
  accepted E r w = true -> stop_called w = false ->
  (j + 1 < fuel)%nat -> (k + 2 < fuel)%nat ->
  (forall i, (i < j)%nat -> ~ In ReqStop (spin_at E (n_spin w + i))) ->
  spin_at E (n_spin w + j) = [ReqStop] ->
  (forall i, (i < j)%nat -> interim E (n_ack w + i) = true) ->
  elapsed E (n_ack w) j <= timeout_commands ->
  (forall i, (i < k)%nat -> fst (fst (ack_at E (n_ack w + S j + i))) = 0) ->
  fst (fst (ack_at E (n_ack w + S j + k))) <> 0 ->
  exists w',
    serve E fuel r w = Ret {| ok := true; error := Some E_CMD_ABORTED |} w' /\
    in_motion w' = false /\ stop_called w' = false /\
    n_ack w' = (n_ack w + S j + S k)%nat /\
    hd_error (sent (trace w')) = Some (CmdStop false).
Proof.
  intros Hhome Hacc Hstop Hj Hk Hspin Hserved Hint Hin Hzero Hrc.
  destruct fuel as [|[|f]]; try lia.
  assert (Hj' : (j < S f)%nat) by lia. assert (Hk' : (k < f)%nat) by lia.
  unfold accepted in Hacc.
  apply andb_true_iff in Hacc. destruct Hacc as [Hacc Hr].
  apply andb_true_iff in Hacc. destruct Hacc as [Hidle Hsend].
  apply negb_true_iff in Hidle. apply Z.eqb_eq in Hsend.
  assert (Hgoal : exists w' c id,
             serve E (S (S f)) r w
             = Ret {| ok := true; error := Some E_CMD_ABORTED |} w' /\
             in_motion w' = false /\ stop_called w' = false /\
             n_ack w' = (n_ack w + S j + S k)%nat /\
             (id =? 0x20) = false /\
             sent (trace w') = CmdStop (id =? 0x20) :: c).
  { destruct r as [q|q|q|q| |]; try contradiction; try discriminate.
    - apply negb_true_iff in Hr. cbn [serve]. unfold moveSrv, move_async.
      rewrite Hidle, Hr.
      destruct (speed_out_of_limits (mr_speed q));
        match goal with
        | |- context [submit E ?c ?w1] =>
            destruct (issue_cancelled f (S f) c 0x21 None w1 j k)
              as (w' & Hw' & B & S' & A & T); try assumption;
            exists w', (c :: sent (trace w1)), 0x21
        end;
        (split; [exact Hw'|]);
        repeat split; try assumption; reflexivity.
    - apply negb_true_iff in Hr. cbn [serve]. unfold graspSrv, grasp_async.
      rewrite Hidle, Hr.
      destruct (speed_out_of_limits (mr_speed q));
        match goal with
        | |- context [submit E ?c ?w1] =>
            destruct (issue_cancelled f (S f) c 0x25 (Some true) w1 j k)
              as (w' & Hw' & B & S' & A & T); try assumption;
            exists w', (c :: sent (trace w1)), 0x25
        end;
        (split; [exact Hw'|]);
        repeat split; try assumption; reflexivity.
    - apply negb_true_iff in Hr. cbn [serve]. unfold releaseSrv, release_async.
      rewrite Hidle, Hr.
      destruct (speed_out_of_limits (mr_speed q));
        match goal with
        | |- context [submit E ?c ?w1] =>
            destruct (issue_cancelled f (S f) c 0x26 (Some false) w1 j k)
              as (w' & Hw' & B & S' & A & T); try assumption;
            exists w', (c :: sent (trace w1)), 0x26
        end;
        (split; [exact Hw'|]);
        repeat split; try assumption; reflexivity.
    - cbn [serve]. unfold incrementSrv, increment_target, move_async.
      rewrite Hidle.
      destruct (String.eqb (ir_direction q) "open") eqn:Ho;
        [|destruct (String.eqb (ir_direction q) "close") eqn:Hc;
          [|discriminate]];
        cbn [getOpening fst snd];
        match goal with
        | |- context [submit E ?c ?w1] =>
            destruct (issue_cancelled f (S f) c 0x21 None w1 j k)
              as (w' & Hw' & B & S' & A & T); try assumption;
            exists w', (c :: sent (trace w1)), 0x21
        end;
        (split; [exact Hw'|]);
        repeat split; try assumption; reflexivity. }
  destruct Hgoal as (w' & c & id & Hw' & B & S' & A & Hid & T).
  exists w'. split; [exact Hw'|]. repeat split; try assumption.
  rewrite T, Hid. reflexivity.
Qed.

End Cancel.

Lemma stop_aborts_pending_witness :
  exists w',
    serve stop_races_ack 5 (ReqMove (move_to 50 100)) (startup 210)
    = Ret {| ok := true; error := Some E_CMD_ABORTED |} w' /\
    in_motion w' = false /\ stop_called w' = false /\
    n_ack w' = (n_ack (startup 210) + 1 + 1)%nat /\
    hd_error (sent (trace w')) = Some (CmdStop false).
Proof.
  apply (stop_aborts_pending stop_races_ack 5 (ReqMove (move_to 50 100))
           (startup 210) 0 0).
  - discriminate.
  - reflexivity.
  - reflexivity.
  - lia.
  - lia.
  - intros i Hi. lia.
  - reflexivity.
  - intros i Hi. lia.
  - vm_compute. discriminate.
  - intros i Hi. lia.
  - simpl. discriminate.
Defined.

(** * What a service leaves behind when it returns *)

Section Idle.

Variable E : env.

(** The wait loop never hands back a raised [stop_called]: it leaves either
    through the cancellation branch, which clears it together with the
    guard, or with the flag found clear in its last turn. *)
Lemma await_calm dispatch spins id begin fuel :
  forall w r w',
    await E dispatch spins fuel id begin w = Ret r w' ->
    spins = true \/ stop_called w = false ->
    stop_called w' = false /\ (r = Cancelled -> in_motion w' = false).
Proof.
  induction fuel as [|fuel IH]; intros w r w'; cbn [await]; [discriminate|].
  rewrite recv_ack_eq.
  destruct (recv_ack_fields E id w) as (_ & S1 & _).
  set (rc := fst (fst (ack_at E (n_ack w)))) in *.
  set (st := snd (fst (ack_at E (n_ack w)))) in *.
  set (w1 := snd (recv_ack E id w)) in *.
  set (w2 := if (rc =? 1) && (st =? E_CMD_PENDING)
             then log (EvLog Info MsgProgress) w1 else w1).
  assert (S2 : stop_called w2 = stop_called w)
    by (subst w2; destruct ((rc =? 1) && (st =? E_CMD_PENDING)); exact S1).
  destruct spins.
  - destruct (spinOnce E dispatch w2) as [[] w3|w3|w3]; cbn [bind];
      try discriminate.
    cbn [andb]. destruct (stop_called w3) eqn:S3.
    + intros H _. injection H as <- <-. split; reflexivity.
    + unfold quit. destruct (now w3 - begin >? timeout_commands); [discriminate|].
      destruct (goes_on rc st).
      * intros H _. apply (IH _ _ _ H). left; reflexivity.
      * intros H _. injection H as <- <-. split; [exact S3 | discriminate].
  - cbn [bind andb]. unfold quit.
    destruct (now w2 - begin >? timeout_commands); [discriminate|].
    destruct (goes_on rc st).
    + intros H [Hs|Hs]; [discriminate|].
      apply (IH _ _ _ H). right. rewrite S2. exact Hs.
    + intros H [Hs|Hs]; [discriminate|].
      injection H as <- <-. split; [rewrite S2; exact Hs | discriminate].
Qed.

Lemma conclude_calm g r w p w' :
  conclude g r w = Ret p w' ->
  stop_called w = false -> (r = Cancelled -> in_motion w = false) ->
  in_motion w' = false /\ stop_called w' = false.
Proof.
  destruct r as [m st|]; cbn [conclude]; intros H Hs Hc.
  - destruct (error_of m st =? 0); injection H as _ <-;
      destruct g; simpl; auto.
  - injection H as _ <-. auto.
Qed.

Lemma issue_calm dispatch fuel c id g w p w' :
  in_motion w = false -> stop_called w = false ->
  issue E dispatch fuel c id g w = Ret p w' ->
  in_motion w' = false /\ stop_called w' = false.
Proof.
  intros Hi Hs. unfold issue, submit.
  destruct (send_at E (n_send w) =? 0).
  - set (w3 := set_last_cmd_id id _).
    destruct (await E dispatch true fuel id (now w3) w3) as [r w4|w4|w4] eqn:Ha;
      cbn [bind]; try discriminate.
    destruct (await_calm _ _ _ _ _ _ _ _ Ha (or_introl eq_refl)) as [S4 C4].
    intros H. exact (conclude_calm _ _ _ _ _ H S4 C4).
  - intros H. injection H as _ <-. simpl. auto.
Qed.

Lemma serve_calm fuel r w p w' :
  in_motion w = false -> stop_called w = false ->
  serve E fuel r w = Ret p w' ->
  in_motion w' = false /\ stop_called w' = false.
Proof.
  intros Hi Hs. destruct fuel as [|fuel]; [discriminate|].
  destruct r as [q|q|q|q| |].
  - destruct (serve_motion E fuel (ReqMove q) q w) as (c & id & g & _ & ->); auto.
    rewrite Hi. destruct (width_out_of_range (mr_width q) w).
    { intros H. injection H as _ <-. simpl. auto. }
    cbv zeta. apply issue_calm;
      destruct (speed_out_of_limits (mr_speed q)); assumption.
  - destruct (serve_motion E fuel (ReqGrasp q) q w) as (c & id & g & _ & ->); auto.
    rewrite Hi. destruct (width_out_of_range (mr_width q) w).
    { intros H. injection H as _ <-. simpl. auto. }
    cbv zeta. apply issue_calm;
      destruct (speed_out_of_limits (mr_speed q)); assumption.
  - destruct (serve_motion E fuel (ReqRelease q) q w) as (c & id & g & _ & ->); auto.
    rewrite Hi. destruct (width_out_of_range (mr_width q) w).
    { intros H. injection H as _ <-. simpl. auto. }
    cbv zeta. apply issue_calm;
      destruct (speed_out_of_limits (mr_speed q)); assumption.
  - cbn [serve]. unfold incrementSrv. rewrite Hi.
    assert (Ht : in_motion (snd (increment_target E q w)) = false /\
                 stop_called (snd (increment_target E q w)) = false).
    { unfold increment_target.
      destruct (String.eqb (ir_direction q) "open"); [simpl; auto|].
      destruct (String.eqb (ir_direction q) "close"); simpl; auto. }
    destruct (increment_target E q w) as [[[nextWidth speed]|] w1];
      cbn [snd] in Ht; destruct Ht as [Hi1 Hs1].
    + apply (issue_calm (serve E fuel) fuel (CmdMove nextWidth speed true) 0x21 None);
        assumption.
    + intros H. injection H as _ <-. auto.
  - cbn [serve]. unfold homingSrv, homing_async, submit. rewrite Hi.
    destruct (send_at E (n_send w) =? 0).
    + set (w2 := set_last_cmd_id 32 _).
      destruct (await E (serve E fuel) false fuel 32 (now w2) w2)
        as [r w3|w3|w3] eqn:Ha; cbn [bind]; try discriminate.
      destruct (await_calm _ _ _ _ _ _ _ _ Ha (or_intror Hs)) as [S3 C3].
      destruct r as [m st|].
      * destruct (m =? -1); [intros H; injection H as _ <-; simpl; auto|].
        destruct ((m =? 1) && (st =? E_SUCCESS));
          intros H; injection H as _ <-; simpl; auto.
      * intros H; injection H as _ <-. auto.
    + intros H. injection H as _ <-. simpl. auto.
  - cbn [serve]. unfold stopSrv. simpl in_motion. rewrite Hi. cbn [bind].
    intros H. injection H as _ <-. simpl. auto.
Qed.

Lemma run_callbacks_calm fuel cbs :
  forall w w',
    in_motion w = false -> stop_called w = false ->
    run_callbacks (serve E fuel) cbs w = Ret tt w' ->
    in_motion w' = false /\ stop_called w' = false.
Proof.
  induction cbs as [|r cbs IH]; intros w w' Hi Hs; cbn [run_callbacks].
  - intros H. injection H as <-. auto.
  - destruct (serve E fuel r w) as [p w1|w1|w1] eqn:Hr; cbn [bind];
      try discriminate.
    destruct (serve_calm _ _ _ _ _ Hi Hs Hr) as [Hi1 Hs1].
    apply IH; assumption.
Qed.

End Idle.

(** X5: whenever the callbacks handed to the dispatcher have all returned,
    the guard [in_motion] is clear and no cancellation is left pending,
    whatever the requests and whatever the gripper answered. *)
Theorem returned_services_leave_node_idle E fuel (reqs : list request)
    (w w' : world) :
  in_motion w = false -> stop_called w = false ->
  spin E fuel reqs w = Ret tt w' ->
  in_motion w' = false /\ stop_called w' = false.
Proof.
  unfold spin. revert w.
  induction reqs as [|r reqs IH]; intros w Hi Hs; cbn [run_callbacks].
  - intros H. injection H as <-. auto.
  - destruct (serve E fuel r w) as [p w1|w1|w1] eqn:Hr; cbn [bind];
      try discriminate.
    destruct (serve_calm E _ _ _ _ _ Hi Hs Hr) as [Hi1 Hs1].
    apply IH; assumption.
Qed.

Lemma returned_services_leave_node_idle_witness :
  let reqs := [ReqMove (move_to 50 100); ReqStop; ReqHoming] in
  let w' := world_of (spin stop_races_ack 5 reqs (startup 210)) in
  spin stop_races_ack 5 reqs (startup 210) = Ret tt w' /\
  in_motion w' = false /\ stop_called w' = false.
Proof.
  intros reqs w'.
  assert (H : spin stop_races_ack 5 reqs (startup 210) = Ret tt w')
    by (vm_compute; reflexivity).
  split; [exact H|].
  apply (returned_services_leave_node_idle stop_races_ack 5 reqs (startup 210) w');
    [reflexivity | reflexivity | exact H].
Defined.

(** * The homing case of [stopSrv] *)

Section StopOfHoming.

Variable E : env.

Lemma request_is_stop (r : request) : r = ReqStop \/ r <> ReqStop.
Proof. destruct r; (left; reflexivity) || (right; discriminate). Qed.

Lemma drain_last_cmd_id id n :
  forall w, last_cmd_id (world_of (drain E n id w)) = last_cmd_id w.
Proof.
  induction n as [|n IH]; intros w; cbn [drain]; [reflexivity|].
  rewrite recv_ack_eq.
  destruct (recv_ack_frame E id w) as (_ & L1 & _).
  destruct (fst (fst (ack_at E (n_ack w))) =? 0); [rewrite IH|]; exact L1.
Qed.

(** A callback served on a busy node whose command is not a homing: the
    guard and [last_cmd_id] stay, and a Stop it writes awaits its answer. *)
Lemma serve_busy_clean fuel r w :
  in_motion w = true -> last_cmd_id w <> 0x20 -> no_blind_stop w ->
  let w' := world_of (serve E fuel r w) in
  in_motion w' = true /\ last_cmd_id w' = last_cmd_id w /\ no_blind_stop w'.
Proof.
  intros Hb Hl Hc. destruct fuel as [|fuel]; [simpl; auto|].
  destruct (request_is_stop r) as [->|Hr].
  - cbn [serve]. unfold stopSrv. simpl in_motion. rewrite Hb.
    set (w3 := log (EvLog Warn MsgWaiting) _).
    change (last_cmd_id w3) with (last_cmd_id w).
    destruct (drain_steps E (last_cmd_id w) fuel w3) as [_ B4].
    destruct (drain_frame E (last_cmd_id w) fuel w3) as (_ & T4).
    pose proof (drain_last_cmd_id (last_cmd_id w) fuel w3) as L4.
    assert (T3 : sent (trace w3) = CmdStop false :: sent (trace w)).
    { subst w3. simpl. apply Z.eqb_neq in Hl. rewrite Hl. reflexivity. }
    assert (C4 : no_blind_stop (world_of (drain E fuel (last_cmd_id w) w3))).
    { unfold no_blind_stop. cbv zeta in T4. rewrite T4, T3.
      intros [H|H]; [discriminate | exact (Hc H)]. }
    destruct (drain E fuel (last_cmd_id w) w3) as [[] w4|w4|w4];
      cbn [bind world_of] in *; cbv zeta; simpl; rewrite B4, L4;
      repeat split; assumption.
  - destruct (busy_reject E fuel r w Hb Hr) as [p ->]. simpl. auto.
Qed.

Lemma run_callbacks_busy_clean fuel cbs :
  forall w,
    in_motion w = true -> last_cmd_id w <> 0x20 -> no_blind_stop w ->
    let w' := world_of (run_callbacks (serve E fuel) cbs w) in
    in_motion w' = true /\ last_cmd_id w' = last_cmd_id w /\ no_blind_stop w'.
Proof.
  induction cbs as [|r cbs IH]; intros w Hb Hl Hc; cbn [run_callbacks];
    [simpl; auto|].
  destruct (serve_busy_clean fuel r w Hb Hl Hc) as (B1 & L1 & C1).
  destruct (serve E fuel r w) as [p w1|w1|w1]; cbn [bind world_of] in *; auto.
  destruct (IH (log (EvReply r p) w1)) as (B2 & L2 & C2);
    [exact B1 | simpl; congruence | exact C1 |].
  cbv zeta in *. rewrite L2. simpl. auto.
Qed.

Lemma await_clean f spins id begin fuel :
  forall w,
    in_motion w = true -> (spins = true -> last_cmd_id w <> 0x20) -> no_blind_stop w ->
    no_blind_stop (world_of (await E (serve E f) spins fuel id begin w)).
Proof.
  induction fuel as [|fuel IH]; intros w Hb Hl Hc; cbn [await]; [exact Hc|].
  rewrite recv_ack_eq.
  destruct (recv_ack_fields E id w) as (B1 & _).
  destruct (recv_ack_frame E id w) as (_ & L1 & T1).
  set (rc := fst (fst (ack_at E (n_ack w)))) in *.
  set (st := snd (fst (ack_at E (n_ack w)))) in *.
  set (w1 := snd (recv_ack E id w)) in *.
  set (w2 := if (rc =? 1) && (st =? E_CMD_PENDING)
             then log (EvLog Info MsgProgress) w1 else w1).
  assert (F2 : in_motion w2 = true /\ last_cmd_id w2 = last_cmd_id w /\ no_blind_stop w2).
  { subst w2. unfold no_blind_stop.
    destruct ((rc =? 1) && (st =? E_CMD_PENDING)); simpl; rewrite T1;
      repeat split; congruence. }
  destruct F2 as (B2 & L2 & C2).
  destruct spins.
  - unfold spinOnce.
    destruct (run_callbacks_busy_clean f (spin_at E (n_spin w2)) (next_spin w2))
      as (B3 & L3 & C3);
      [exact B2 | simpl; rewrite L2; apply Hl; reflexivity | exact C2 |].
    destruct (run_callbacks (serve E f) (spin_at E (n_spin w2)) (next_spin w2))
      as [[] w3|w3|w3]; cbn [bind world_of] in *; try assumption.
    cbn [andb]. destruct (stop_called w3); [exact C3|].
    unfold quit. destruct (now w3 - begin >? timeout_commands); [exact C3|].
    destruct (goes_on rc st); [|exact C3].
    apply IH; [exact B3 | intros _; rewrite L3; simpl; rewrite L2; auto | exact C3].
  - cbn [bind andb]. unfold quit.
    destruct (now w2 - begin >? timeout_commands); [exact C2|].
    destruct (goes_on rc st); [|exact C2].
    apply IH; [exact B2 | discriminate | exact C2].
Qed.

Lemma conclude_sent g r w :
  sent (trace (world_of (conclude g r w))) = sent (trace w).
Proof.
  destruct r as [m st|]; cbn [conclude]; [|reflexivity].
  destruct (error_of m st =? 0); destruct g; reflexivity.
Qed.

Lemma issue_clean f fuel c id g w :
  c <> CmdStop true -> id <> 0x20 -> no_blind_stop w ->
  no_blind_stop (world_of (issue E (serve E f) fuel c id g w)).
Proof.
  intros Hc Hid Hw. unfold issue, submit.
  set (w2 := log (EvSend c _)
               (tick (Z.of_N (send_time_at E (n_send w)))
                  (next_send w))).
  assert (C2 : no_blind_stop w2).
  { unfold no_blind_stop. simpl. intros [H|H]; [exact (Hc H) | exact (Hw H)]. }
  destruct (send_at E (n_send w) =? 0); [|exact C2].
  set (w3 := set_last_cmd_id id _).
  pose proof (await_clean f true id (now w3) fuel w3 eq_refl (fun _ => Hid) C2)
    as C4.
  destruct (await E (serve E f) true fuel id (now w3) w3) as [r w4|w4|w4];
    cbn [bind world_of] in *; try assumption.
  unfold no_blind_stop. rewrite conclude_sent. exact C4.
Qed.

Lemma serve_idle_clean fuel r w :
  in_motion w = false -> no_blind_stop w -> no_blind_stop (world_of (serve E fuel r w)).
Proof.
  intros Hi Hc. destruct fuel as [|fuel]; [exact Hc|].
  assert (Hm : forall q c id g,
             c <> CmdStop true -> id <> 0x20 ->
             no_blind_stop (world_of
               (if width_out_of_range (mr_width q) w then
                  Ret {| ok := false; error := Some E_RANGE_ERROR |}
                      (log (EvLog Error MsgRange) w)
                else
                  let w1 := if speed_out_of_limits (mr_speed q)
                            then log (EvLog Warn MsgSpeedLimits) w else w in
                  issue E (serve E fuel) fuel c id g w1))).
  { intros q c id g Hcmd Hid.
    destruct (width_out_of_range (mr_width q) w); [exact Hc|].
    cbv zeta. apply issue_clean; try assumption.
    destruct (speed_out_of_limits (mr_speed q)); exact Hc. }
  destruct r as [q|q|q|q| |]; cbn [serve].
  - unfold moveSrv. rewrite Hi.
    apply (Hm q (CmdMove (mr_width q) (mr_speed q) false) 0x21 None);
      discriminate.
  - unfold graspSrv. rewrite Hi.
    apply (Hm q (CmdGrasp (mr_width q) (mr_speed q)) 0x25 (Some true));
      discriminate.
  - unfold releaseSrv. rewrite Hi.
    apply (Hm q (CmdRelease (mr_width q) (mr_speed q)) 0x26 (Some false));
      discriminate.
  - unfold incrementSrv. rewrite Hi.
    assert (Ht : no_blind_stop (snd (increment_target E q w))).
    { unfold increment_target, no_blind_stop.
      destruct (String.eqb (ir_direction q) "open");
        [simpl; intros [H|H]; [discriminate | exact (Hc H)]|].
      destruct (String.eqb (ir_direction q) "close");
        [simpl; intros [H|H]; [discriminate | exact (Hc H)]|].
      exact Hc. }
    destruct (increment_target E q w) as [[[nextWidth speed]|] w1];
      cbn [snd] in Ht; [|exact Ht].
    apply (issue_clean fuel fuel (CmdMove nextWidth speed true) 0x21 None);
      [discriminate | discriminate | exact Ht].
  - unfold homingSrv, homing_async, submit. rewrite Hi.
    set (w1 := log (EvSend CmdHoming _)
                 (tick (Z.of_N (send_time_at E (n_send w)))
                    (next_send w))).
    assert (C1 : no_blind_stop w1).
    { unfold no_blind_stop. simpl. intros [H|H]; [discriminate | exact (Hc H)]. }
    destruct (send_at E (n_send w) =? 0); [|exact C1].
    set (w2 := set_last_cmd_id 32 _).
    pose proof (await_clean fuel false 32 (now w2) fuel w2 eq_refl
                  ltac:(discriminate) C1) as C3.
    destruct (await E (serve E fuel) false fuel 32 (now w2) w2)
      as [r w3|w3|w3]; cbn [bind world_of] in *; try assumption.
    destruct r as [m st|]; [|exact C3].
    destruct (m =? -1); [exact C3|].
    destruct ((m =? 1) && (st =? E_SUCCESS)); exact C3.
  - unfold stopSrv. simpl in_motion. rewrite Hi. cbn [bind world_of].
    unfold no_blind_stop. simpl. intros [H|H]; [discriminate | exact (Hc H)].
Qed.

Lemma spin_clean fuel reqs :
  forall w,
    in_motion w = false -> stop_called w = false -> no_blind_stop w ->
    no_blind_stop (world_of (run_callbacks (serve E fuel) reqs w)).
Proof.
  induction reqs as [|r reqs IH]; intros w Hi Hs Hc; cbn [run_callbacks];
    [exact Hc|].
  pose proof (serve_idle_clean fuel r w Hi Hc) as C1.
  destruct (serve E fuel r w) as [p w1|w1|w1] eqn:Hr; cbn [bind world_of] in *;
    try assumption.
  destruct (serve_calm E _ _ _ _ _ Hi Hs Hr) as [Hi1 Hs1].
  apply IH; assumption.
Qed.

End StopOfHoming.

(** X6: in every run of the services from startup, [stopSrv] never calls
    [stop(true)]: when it finds the guard set, [last_cmd_id] is not 0x20,
    because the wait loop of [homingSrv] does not call [ros::spinOnce()]. *)
Theorem stop_never_ignores_response E fuel (reqs : list request) (size : Z) :
  ~ In (CmdStop true) (sent (trace (world_of (spin E fuel reqs (startup size))))).
Proof.
  unfold spin. change (no_blind_stop
    (world_of (run_callbacks (serve E fuel) reqs (startup size)))).
  apply spin_clean; unfold startup, select_size, no_blind_stop;
    destruct (negb (size =? 210) && negb (size =? 110)); simpl; auto.
Qed.

(** * A command that cannot be written *)

(** X7: when the library call that writes the command fails (returns
    non-zero), the service does not wait: it sets no guard, polls nothing and
    returns true, with error 255 for move, grasp, release and increment, and
    with nothing to tell the failure from a success for homing. *)
Theorem unsent_command_is_reported E fuel (r : request) (w : world) :
  passes_checks r w = true ->
  send_at E (n_send w) <> 0 ->
  exists w',
    serve E (S fuel) r w
    = Ret {| ok := true;
             error := match r with ReqHoming => None | _ => Some 255 end |} w' /\
    in_motion w' = false /\ last_cmd_id w' = last_cmd_id w /\
    n_ack w' = n_ack w /\ polls (trace w') = polls (trace w) /\
    n_send w' = S (n_send w).
Proof.
  unfold passes_checks. intros Hc Hs.
  apply andb_prop in Hc. destruct Hc as [Hi Hc].
  apply negb_true_iff in Hi. apply Z.eqb_neq in Hs.
  destruct r as [q|q|q|q| |]; try discriminate Hc; cbn [serve];
    try (apply negb_true_iff in Hc);
    unfold moveSrv, graspSrv, releaseSrv, incrementSrv, homingSrv,
      move_async, grasp_async, release_async, homing_async, submit;
    rewrite Hi, ?Hc.
  - destruct (speed_out_of_limits (mr_speed q)); simpl; rewrite Hs;
      eexists; (split; [reflexivity|]); simpl; auto.
  - destruct (speed_out_of_limits (mr_speed q)); simpl; rewrite Hs;
      eexists; (split; [reflexivity|]); simpl; auto.
  - destruct (speed_out_of_limits (mr_speed q)); simpl; rewrite Hs;
      eexists; (split; [reflexivity|]); simpl; auto.
  - unfold increment_target, getOpening.
    destruct (String.eqb (ir_direction q) "open"); simpl.
    { rewrite Hs. eexists. split; [reflexivity|]. simpl. auto. }
    simpl in Hc. rewrite Hc. simpl. rewrite Hs.
    eexists. split; [reflexivity|]. simpl. auto.
  - rewrite Hs. eexists. split; [reflexivity|]. simpl. auto.
Qed.

Lemma unsent_command_is_reported_witness :
  let E := env_of [] [-1] [] [] in
  passes_checks ReqHoming (startup 210) = true /\
  send_at E (n_send (startup 210)) <> 0 /\
  exists w',
    serve E 1 ReqHoming (startup 210) = Ret {| ok := true; error := None |} w' /\
    in_motion w' = false /\ last_cmd_id w' = last_cmd_id (startup 210) /\
    n_ack w' = n_ack (startup 210) /\
    polls (trace w') = polls (trace (startup 210)) /\
    n_send w' = S (n_send (startup 210)).
Proof.
  intros E.
  assert (Hc : passes_checks ReqHoming (startup 210) = true) by reflexivity.
  assert (Hs : send_at E (n_send (startup 210)) <> 0) by (vm_compute; discriminate).
  split; [exact Hc|]. split; [exact Hs|].
  exact (unsent_command_is_reported E 0 ReqHoming (startup 210) Hc Hs).
Defined.

(** * A width that is not a number *)

(** X8: a NaN width is not caught by the range check of move, grasp and
    release (both comparisons are false): on an idle node the command is
    written with the NaN in it and the service does not return false.  A
    NaN speed draws no warning either. *)
Theorem nan_width_is_not_rejected E fuel (r : request) (q : MoveRequest)
    (w : world) :
  r = ReqMove q \/ r = ReqGrasp q \/ r = ReqRelease q ->
  in_motion w = false ->
  mr_width q = S754_nan ->
  (exists c evs,
     motion_command r = Some c /\
     trace (world_of (serve E (S fuel) r w))
     = evs ++ EvSend c (send_at E (n_send w))
           :: (if speed_out_of_limits (mr_speed q)
               then [EvLog Warn MsgSpeedLimits] else []) ++ trace w) /\
  (forall p w', serve E (S fuel) r w = Ret p w' -> ok p = true) /\
  speed_out_of_limits S754_nan = false.
Proof.
  intros Hr Hi Hn.
  destruct (serve_motion E fuel r q w Hr) as (c & id & g & Hc & Hserve).
  assert (Hw : width_out_of_range (mr_width q) w = false).
  { rewrite Hn. unfold width_out_of_range, F32.lt, F32.gt, SFltb.
    destruct (F32.of_int (g_size w)); reflexivity. }
  rewrite Hserve, Hi, Hw. cbv zeta.
  split; [|split; [|reflexivity]].
  - exists c.
    destruct (issue_trace E (serve E fuel) (serve_steps E fuel) fuel c id g
                (if speed_out_of_limits (mr_speed q)
                 then log (EvLog Warn MsgSpeedLimits) w else w)) as [evs Hevs].
    exists evs. split; [exact Hc|]. rewrite Hevs.
    destruct (speed_out_of_limits (mr_speed q)); reflexivity.
  - intros p w'. apply issue_ok.
Qed.

Lemma nan_width_is_not_rejected_witness :
  let q := {| mr_width := S754_nan; mr_speed := S754_nan |} in
  (exists c evs,
     motion_command (ReqGrasp q) = Some c /\
     trace (world_of (serve prompt 2 (ReqGrasp q) (startup 210)))
     = evs ++ EvSend c (send_at prompt (n_send (startup 210)))
           :: (if speed_out_of_limits (mr_speed q)
               then [EvLog Warn MsgSpeedLimits] else []) ++ trace (startup 210)) /\
  (forall p w', serve prompt 2 (ReqGrasp q) (startup 210) = Ret p w' -> ok p = true) /\
  speed_out_of_limits S754_nan = false.
Proof.
  intros q.
  apply (nan_width_is_not_rejected prompt 1 (ReqGrasp q) q (startup 210));
    [right; left; reflexivity | reflexivity | reflexivity].
Defined.

(** * What the reply of a service reports *)

Section Answer.

Variable E : env.

Lemma recv_ack_polls id w :
  polls (trace (snd (recv_ack E id w)))
  = (id, fst (fst (ack_at E (n_ack w))), snd (fst (ack_at E (n_ack w))))
    :: polls (trace w).
Proof.
  unfold recv_ack. destruct (ack_at E (n_ack w)) as [[rc st] d]. reflexivity.
Qed.

(** A stop that is served on a busy node and returns. *)
Lemma stop_on_busy f w p w1 :
  in_motion w = true -> serve E f ReqStop w = Ret p w1 ->
  in_motion w1 = true /\ stop_called w1 = true /\
  last_cmd_id w1 = last_cmd_id w /\
  sent (trace w1) = CmdStop (last_cmd_id w =? 0x20) :: sent (trace w).
Proof.
  intros Hb. destruct f as [|f]; [discriminate|].
  cbn [serve]. unfold stopSrv. simpl in_motion. rewrite Hb.
  set (w3 := log (EvLog Warn MsgWaiting) _).
  change (last_cmd_id w3) with (last_cmd_id w).
  destruct (drain_steps E (last_cmd_id w) f w3) as [_ B4].
  destruct (drain_frame E (last_cmd_id w) f w3) as (_ & T4).
  pose proof (drain_last_cmd_id E (last_cmd_id w) f w3) as L4.
  destruct (drain E f (last_cmd_id w) w3) as [[] w4|w4|w4];
    cbn [bind world_of] in *; try discriminate.
  intros H. injection H as _ <-. cbv zeta in T4. simpl.
  rewrite B4, L4, T4. repeat split; assumption.
Qed.

(** The callbacks of one [ros::spinOnce()] on a busy node: either no stop
    was among them, and nothing the wait loop looks at has changed, or a
    Stop has been written and [stop_called] is raised. *)
Lemma busy_turn f cbs :
  forall w w',
    in_motion w = true ->
    run_callbacks (serve E f) cbs w = Ret tt w' ->
    in_motion w' = true /\ last_cmd_id w' = last_cmd_id w /\
    ((stop_called w' = stop_called w /\ sent (trace w') = sent (trace w) /\
      polls (trace w') = polls (trace w)) \/
     (stop_called w' = true /\
      exists stops,
        sent (trace w') = stops ++ sent (trace w) /\
        In (CmdStop (last_cmd_id w =? 0x20)) stops)).
Proof.
  induction cbs as [|r cbs IH]; intros w w' Hb; cbn [run_callbacks].
  { intros H. injection H as <-.
    split; [exact Hb|]. split; [reflexivity|]. left. auto. }
  destruct (serve E f r w) as [p w1|w1|w1] eqn:Hr; cbn [bind];
    try discriminate.
  intros Hrest.
  destruct (request_is_stop r) as [->|Hns].
  - destruct (stop_on_busy _ _ _ _ Hb Hr) as (B1 & S1 & L1 & T1).
    destruct (IH (log (EvReply ReqStop p) w1) w' B1 Hrest)
      as (B2 & L2 & [(S2 & T2 & _) | (S2 & stops & T2 & I2)]);
      simpl in L2, S2, T2; rewrite L2, L1;
      (split; [exact B2|]); (split; [reflexivity|]); right.
    + rewrite S2. split; [exact S1|].
      exists [CmdStop (last_cmd_id w =? 0x20)]. rewrite T2, T1.
      split; [reflexivity | left; reflexivity].
    + split; [exact S2|].
      exists (stops ++ [CmdStop (last_cmd_id w =? 0x20)]).
      rewrite T2, T1, <- app_assoc. split; [reflexivity|].
      apply in_or_app. right. left. reflexivity.
  - destruct f as [|f]; [discriminate|].
    destruct (busy_reject E f r w Hb Hns) as [p' Hp]. rewrite Hp in Hr.
    injection Hr as -> <-.
    destruct (IH (log (EvReply r p) (log (EvLog Warn MsgBusy) w)) w' Hb Hrest)
      as (B2 & L2 & H2).
    simpl in L2, H2. auto.
Qed.

(** How the wait loop of move, grasp, release and increment ends. *)
Lemma await_answer f id begin fuel :
  forall w r w',
    in_motion w = true -> stop_called w = false ->
    await E (serve E f) true fuel id begin w = Ret r w' ->
    match r with
    | Cancelled =>
        exists stops,
          sent (trace w') = stops ++ sent (trace w) /\
          In (CmdStop (last_cmd_id w =? 0x20)) stops
    | Finished m st =>
        hd_error (polls (trace w')) = Some (id, m, st) /\
        goes_on m st = false /\ sent (trace w') = sent (trace w)
    end.
Proof.
  induction fuel as [|fuel IH]; intros w r w' Hb Hs; cbn [await];
    [discriminate|].
  rewrite recv_ack_eq.
  destruct (recv_ack_fields E id w) as (B1 & S1 & _).
  destruct (recv_ack_frame E id w) as (_ & L1 & T1).
  pose proof (recv_ack_polls id w) as P1.
  set (rc := fst (fst (ack_at E (n_ack w)))) in *.
  set (st := snd (fst (ack_at E (n_ack w)))) in *.
  set (w1 := snd (recv_ack E id w)) in *.
  set (w2 := if (rc =? 1) && (st =? E_CMD_PENDING)
             then log (EvLog Info MsgProgress) w1 else w1).
  assert (F2 : in_motion w2 = true /\ stop_called w2 = false /\
               last_cmd_id w2 = last_cmd_id w /\
               sent (trace w2) = sent (trace w) /\
               polls (trace w2) = (id, rc, st) :: polls (trace w)).
  { subst w2. destruct ((rc =? 1) && (st =? E_CMD_PENDING)); simpl;
      rewrite ?B1, ?S1, ?L1, ?T1, ?P1; repeat split; assumption. }
  destruct F2 as (B2 & S2 & L2 & T2 & P2).
  unfold spinOnce.
  destruct (run_callbacks (serve E f) (spin_at E (n_spin w2)) (next_spin w2))
    as [[] w3|w3|w3] eqn:Hspin; cbn [bind]; try discriminate.
  destruct (busy_turn f _ (next_spin w2) w3 B2 Hspin) as (B3 & L3 & H3).
  simpl in L3, H3. cbn [andb].
  destruct (stop_called w3) eqn:S3.
  - intros H. injection H as <- <-. simpl.
    destruct H3 as [(S3' & _) | (_ & stops & T3 & I3)]; [congruence|].
    exists stops. rewrite T3, T2, <- L2. auto.
  - destruct H3 as [(_ & T3 & P3) | (S3' & _)]; [|congruence].
    unfold quit. destruct (now w3 - begin >? timeout_commands); [discriminate|].
    destruct (goes_on rc st) eqn:Hgo.
    + intros H. pose proof (IH _ _ _ B3 S3 H) as Hr.
      destruct r as [m st'|].
      * destruct Hr as (Hp & Hg & Ht). rewrite Ht, T3, T2. auto.
      * destruct Hr as (stops & Ht & Hi). exists stops.
        rewrite Ht, T3, T2, <- L2, <- L3. auto.
    + intros H. injection H as <- <-.
      rewrite P3, P2, T3, T2. auto.
Qed.

(** The loop of [homingSrv], which serves no callback, only ever runs to
    its end. *)
Lemma await_alone_answer dispatch id begin fuel :
  forall w r w',
    await E dispatch false fuel id begin w = Ret r w' ->
    exists m st,
      r = Finished m st /\ hd_error (polls (trace w')) = Some (id, m, st) /\
      goes_on m st = false.
Proof.
  induction fuel as [|fuel IH]; intros w r w'; cbn [await]; [discriminate|].
  rewrite recv_ack_eq.
  pose proof (recv_ack_polls id w) as P1.
  set (rc := fst (fst (ack_at E (n_ack w)))) in *.
  set (st := snd (fst (ack_at E (n_ack w)))) in *.
  set (w1 := snd (recv_ack E id w)) in *.
  set (w2 := if (rc =? 1) && (st =? E_CMD_PENDING)
             then log (EvLog Info MsgProgress) w1 else w1).
  assert (P2 : polls (trace w2) = (id, rc, st) :: polls (trace w)).
  { subst w2. destruct ((rc =? 1) && (st =? E_CMD_PENDING)); exact P1. }
  cbn [bind andb]. unfold quit.
  destruct (now w2 - begin >? timeout_commands); [discriminate|].
  destruct (goes_on rc st) eqn:Hgo.
  - apply IH.
  - intros H. injection H as <- <-. exists rc, st. rewrite P2. auto.
Qed.

Lemma issue_answer f fuel c id g w p w' :
  send_at E (n_send w) = 0 -> stop_called w = false -> id <> 0x20 ->
  is_stop c = false ->
  issue E (serve E f) fuel c id g w = Ret p w' ->
  ok p = true /\
  exists during,
    sent (trace w') = during ++ sent (trace w) /\
    ((error p = Some E_CMD_ABORTED /\ In (CmdStop false) during) \/
     (exists rc st,
        hd_error (polls (trace w')) = Some (id, rc, st) /\
        goes_on rc st = false /\ error p = Some (error_of rc st) /\
        existsb is_stop during = false)).
Proof.
  intros Hsend Hs Hid Hc Hret.
  split; [exact (issue_ok _ _ _ _ _ _ _ _ _ Hret)|].
  revert Hret. unfold issue, submit. rewrite Hsend. cbn [Z.eqb].
  set (w3 := set_last_cmd_id id _).
  destruct (await E (serve E f) true fuel id (now w3) w3) as [r w4|w4|w4] eqn:Ha;
    cbn [bind]; try discriminate.
  pose proof (await_answer f id (now w3) fuel w3 r w4 eq_refl Hs Ha) as Hr.
  destruct r as [m st|]; cbn [conclude].
  - destruct Hr as (Hp & Hg & Ht). intros H. exists [c]. split.
    { destruct (error_of m st =? 0); injection H as _ <-;
        destruct g; simpl; rewrite Ht; reflexivity. }
    right. exists m, st.
    destruct (error_of m st =? 0) eqn:He; injection H as <- <-;
      destruct g; simpl; rewrite Hp, Hc; simpl; repeat split;
      try assumption; try reflexivity;
      apply Z.eqb_eq in He; rewrite He; reflexivity.
  - destruct Hr as (stops & Ht & Hi). intros H. injection H as <- <-.
    exists (stops ++ [c]). split.
    { rewrite Ht, <- app_assoc. reflexivity. }
    left. split; [reflexivity|]. apply in_or_app. left.
    simpl in Hi. apply Z.eqb_neq in Hid. rewrite Hid in Hi. exact Hi.
Qed.

End Answer.

(** X9: a move, grasp, release or increment that was accepted and returns
    reports either [E_CMD_ABORTED], and then a Stop has been written since
    the service was called, or the outcome of the last poll: that poll was
    for the id of the service's own command, it ended the wait (it was
    neither empty nor the interim status), the error is its status in eight
    bits, or 255 when [recv_ack] failed, and no Stop has been written since
    the service was called. *)
Theorem reply_reports_last_poll E fuel (r : request) (w : world)
    (p : reply) (w' : world) :
  accepted E r w = true -> r <> ReqHoming -> stop_called w = false ->
  serve E fuel r w = Ret p w' ->
  ok p = true /\
  exists during,
    sent (trace w') = during ++ sent (trace w) /\
    ((error p = Some E_CMD_ABORTED /\ In (CmdStop false) during) \/
     (exists rc st,
        hd_error (polls (trace w')) = Some (command_id r, rc, st) /\
        goes_on rc st = false /\ error p = Some (error_of rc st) /\
        existsb is_stop during = false)).
Proof.
  unfold accepted. intros Ha Hnh Hs.
  apply andb_prop in Ha. destruct Ha as [Ha Hc].
  apply andb_prop in Ha. destruct Ha as [Hi Hsend].
  apply negb_true_iff in Hi. apply Z.eqb_eq in Hsend.
  destruct fuel as [|fuel]; [discriminate|].
  assert (Hm : forall q c id g,
             width_out_of_range (mr_width q) w = false -> id <> 0x20 ->
             is_stop c = false ->
             (let w1 := if speed_out_of_limits (mr_speed q)
                        then log (EvLog Warn MsgSpeedLimits) w else w in
              issue E (serve E fuel) fuel c id g w1) = Ret p w' ->
             ok p = true /\
             exists during,
               sent (trace w') = during ++ sent (trace w) /\
               ((error p = Some E_CMD_ABORTED /\ In (CmdStop false) during) \/
                (exists rc st,
                   hd_error (polls (trace w')) = Some (id, rc, st) /\
                   goes_on rc st = false /\ error p = Some (error_of rc st) /\
                   existsb is_stop during = false))).
  { intros q c id g Hw Hid Hc' Hret. cbv zeta in Hret.
    set (w1 := if speed_out_of_limits (mr_speed q)
               then log (EvLog Warn MsgSpeedLimits) w else w) in Hret.
    assert (N1 : send_at E (n_send w1) = 0)
      by (subst w1; destruct (speed_out_of_limits (mr_speed q)); exact Hsend).
    assert (S1 : stop_called w1 = false)
      by (subst w1; destruct (speed_out_of_limits (mr_speed q)); exact Hs).
    assert (T1 : sent (trace w1) = sent (trace w))
      by (subst w1; destruct (speed_out_of_limits (mr_speed q)); reflexivity).
    destruct (issue_answer E fuel fuel c id g w1 p w' N1 S1 Hid Hc' Hret)
      as (Hok & during & Hd & H).
    split; [exact Hok|]. exists during. rewrite <- T1. auto. }
  destruct r as [q|q|q|q| |]; try discriminate Hc; try contradiction;
    cbn [serve command_id].
  - apply negb_true_iff in Hc. unfold moveSrv, move_async. rewrite Hi, Hc.
    apply (Hm q _ 0x21 None Hc); [discriminate | reflexivity].
  - apply negb_true_iff in Hc. unfold graspSrv, grasp_async. rewrite Hi, Hc.
    apply (Hm q _ 0x25 (Some true) Hc); [discriminate | reflexivity].
  - apply negb_true_iff in Hc. unfold releaseSrv, release_async. rewrite Hi, Hc.
    apply (Hm q _ 0x26 (Some false) Hc); [discriminate | reflexivity].
  - unfold incrementSrv. rewrite Hi.
    assert (Ht : exists nextWidth speed w1,
               increment_target E q w = (Some (nextWidth, speed), w1) /\
               n_send w1 = n_send w /\ stop_called w1 = false /\
               sent (trace w1) = CmdGetOpening :: sent (trace w)).
    { unfold increment_target, getOpening.
      destruct (String.eqb (ir_direction q) "open").
      { do 3 eexists. split; [reflexivity|]. simpl. auto. }
      simpl in Hc. rewrite Hc.
      do 3 eexists. split; [reflexivity|]. simpl. auto. }
    destruct Ht as (nextWidth & speed & w1 & -> & N1 & S1 & T1).
    intros Hret.
    rewrite <- N1 in Hsend.
    destruct (issue_answer E fuel fuel (CmdMove nextWidth speed true) 0x21 None
                w1 p w' Hsend S1 ltac:(discriminate) eq_refl Hret)
      as (Hok & during & Hd & H).
    split; [exact Hok|]. exists (during ++ [CmdGetOpening]).
    rewrite Hd, T1, <- app_assoc. split; [reflexivity|].
    destruct H as [[He Hin]|(rc & st & H1 & H2 & H3 & H4)].
    + left. split; [exact He|]. apply in_or_app. left. exact Hin.
    + right. exists rc, st. repeat split; try assumption.
      rewrite existsb_app, H4. reflexivity.
Qed.

(** A grasp that ends on a blocked axis, while a homing request was refused
    in its first turn; and a move that is stopped. *)
Lemma reply_reports_last_poll_witness :
  let r := ReqGrasp (move_to 30 50) in
  let E := env_of [(0, 0, 1000%N); (1, E_CMD_PENDING, 1000%N);
                   (1, E_AXIS_BLOCKED, 1000%N)] [] [[ReqHoming]] [] in
  let o := serve E 5 r (startup 110) in
  exists p w',
    o = Ret p w' /\
    ok p = true /\
    exists during,
      sent (trace w') = during ++ sent (trace (startup 110)) /\
      ((error p = Some E_CMD_ABORTED /\ In (CmdStop false) during) \/
       (exists rc st,
          hd_error (polls (trace w')) = Some (command_id r, rc, st) /\
          goes_on rc st = false /\ error p = Some (error_of rc st) /\
          existsb is_stop during = false)).
Proof.
  intros r E o.
  assert (H : o = Ret {| ok := true; error := Some E_AXIS_BLOCKED |} (world_of o))
    by (vm_compute; reflexivity).
  exists {| ok := true; error := Some E_AXIS_BLOCKED |}, (world_of o).
  split; [exact H|].
  apply (reply_reports_last_poll E 5 r (startup 110));
    [vm_compute; reflexivity | discriminate | reflexivity | exact H].
Defined.

(** X10: [homingSrv], called on an idle node, returns true in exactly two
    cases: the wait ended with a message of status [E_SUCCESS], or the
    homing command could not be written at all (nothing was waited for).
    Its reply carries no error code. *)
Theorem homing_reply E fuel (w : world) (p : reply) (w' : world) :
  in_motion w = false ->
  serve E (S fuel) ReqHoming w = Ret p w' ->
  error p = None /\
  (ok p = true <->
   send_at E (n_send w) <> 0 \/
   (send_at E (n_send w) = 0 /\
    hd_error (polls (trace w')) = Some (0x20, 1, E_SUCCESS))).
Proof.
  intros Hi. cbn [serve]. unfold homingSrv, homing_async, submit. rewrite Hi.
  destruct (send_at E (n_send w) =? 0) eqn:Hsend.
  - apply Z.eqb_eq in Hsend.
    set (w2 := set_last_cmd_id 32 _).
    destruct (await E (serve E fuel) false fuel 32 (now w2) w2)
      as [r w3|w3|w3] eqn:Ha; cbn [bind]; try discriminate.
    destruct (await_alone_answer E _ _ _ _ _ _ _ Ha) as (m & st & -> & Hp & Hg).
    assert (Hpolls : forall l b (w4 : world),
               w4 = set_in_motion false (sleep settle_delay w3) \/
               w4 = log (EvLog l b) (set_in_motion false (sleep settle_delay w3)) ->
               hd_error (polls (trace w4)) = Some (32, m, st)).
    { intros l b w4 [->| ->]; exact Hp. }
    destruct (m =? -1) eqn:Hm1.
    { intros H. injection H as <- <-. split; [reflexivity|]. simpl.
      split; [discriminate|]. intros [H|[_ H]]; [contradiction|].
      rewrite Hp in H. apply Z.eqb_eq in Hm1. congruence. }
    destruct ((m =? 1) && (st =? E_SUCCESS)) eqn:Hok;
      intros H; injection H as <- <-; (split; [reflexivity|]); simpl.
    + apply andb_prop in Hok. destruct Hok as [H1 H2].
      apply Z.eqb_eq in H1, H2. subst m st.
      split; [|reflexivity]. intros _. right. split; [exact Hsend | exact Hp].
    + split; [discriminate|]. intros [H|[_ H]]; [contradiction|].
      rewrite Hp in H. injection H as -> ->. discriminate.
  - apply Z.eqb_neq in Hsend.
    intros H. injection H as <- <-. split; [reflexivity|]. simpl.
    split; [auto | reflexivity].
Qed.

Lemma homing_reply_witness :
  let E := env_of [(1, E_CMD_PENDING, 1000%N); (1, E_AXIS_BLOCKED, 1000%N)]
                  [] [] [] in
  let o := serve E 4 ReqHoming (startup 210) in
  o = Ret {| ok := false; error := None |} (world_of o) /\
  (ok {| ok := false; error := None |} = true <->
   send_at E (n_send (startup 210)) <> 0 \/
   (send_at E (n_send (startup 210)) = 0 /\
    hd_error (polls (trace (world_of o))) = Some (0x20, 1, E_SUCCESS))).
Proof.
  intros E o.
  assert (H : o = Ret {| ok := false; error := None |} (world_of o))
    by (vm_compute; reflexivity).
  split; [exact H|].
  exact (proj2 (homing_reply E 3 (startup 210) _ _ eq_refl H)).
Defined.

(** * The streaming reader over a whole run *)

Ltac reader_leaf r :=
  unfold Reader.publish; cbn; destruct (Reader.pub_state r) eqn:Hps; cbn;
  rewrite ?Hps; (split; [reflexivity|]); (split; [reflexivity|]);
  intros Hf; [discriminate Hf | split; [assumption || reflexivity | reflexivity]].

(** The [switch] and the publications that follow it, for a frame that is
    not a reply to a move: the [moving] topic is left alone; the state is
    published exactly for the opening id. *)
Lemma handle_other (m : Reader.msg_t) status val (r : Reader.state) :
  (Reader.id m =? 0x21) = false ->
  let r' := let '(r1, motion) := Reader.handle m status val r in
            Reader.publish motion r1 in
  moving_published (Reader.outputs r') = moving_published (Reader.outputs r) /\
  Reader.g_ismoving r' = Reader.g_ismoving r /\
  (Reader.pub_state r = false ->
   Reader.pub_state r' = false /\
   Reader.publications (Reader.outputs r')
   = ((if (Reader.id m =? 0x43)%Z then 1 else 0)
      + Reader.publications (Reader.outputs r))%nat).
Proof.
  intros Hid. unfold Reader.handle.
  destruct (Reader.cnt r) as [[c0 c1] c2].
  destruct (Reader.id m =? 0x43).
  { unfold Reader.publish. cbn. auto. }
  destruct (Reader.id m =? 0x44).
  { reader_leaf r. }
  destruct (Reader.id m =? 0x45).
  { reader_leaf r. }
  rewrite Hid.
  destruct (Reader.id m =? 0x22); reader_leaf r.
Qed.

(** The same for a reply to a move. *)
Lemma handle_move (m : Reader.msg_t) status val (r : Reader.state) :
  (Reader.id m =? 0x21) = true ->
  let r' := let '(r1, motion) := Reader.handle m status val r in
            Reader.publish motion r1 in
  moving_published (Reader.outputs r')
  = (if status =? E_ALREADY_RUNNING then moving_published (Reader.outputs r)
     else (status =? E_CMD_PENDING) :: moving_published (Reader.outputs r)) /\
  Reader.g_ismoving r'
  = (if status =? E_ALREADY_RUNNING then Reader.g_ismoving r
     else (status =? E_CMD_PENDING)) /\
  (Reader.pub_state r = false ->
   Reader.pub_state r' = false /\
   Reader.publications (Reader.outputs r')
   = Reader.publications (Reader.outputs r)).
Proof.
  intros Hid. unfold Reader.handle.
  destruct (Reader.cnt r) as [[c0 c1] c2].
  apply Z.eqb_eq in Hid. rewrite Hid. cbn [Z.eqb Pos.eqb].
  unfold E_SUCCESS, E_AXIS_BLOCKED, E_CMD_PENDING, E_ALREADY_RUNNING,
    E_CMD_ABORTED.
  destruct (Z.eqb_spec status 0) as [->|H0].
  { reader_leaf r. }
  destruct (Z.eqb_spec status 29) as [->|H29].
  { reader_leaf r. }
  destruct (Z.eqb_spec status 26) as [->|H26].
  { reader_leaf r. }
  destruct (Z.eqb_spec status 4) as [->|H4].
  { reader_leaf r. }
  destruct (Z.eqb_spec status 19) as [->|H19]; reader_leaf r.
Qed.

(** One turn of the loop: what it publishes, and what it leaves. *)
Lemma iteration_turn res (m : Reader.msg_t) (r : Reader.state) :
  let r' := Reader.iteration res m r in
  moving_published (Reader.outputs r')
  = match motion_reply (res, m) with
    | Some b => b :: moving_published (Reader.outputs r)
    | None => moving_published (Reader.outputs r)
    end /\
  Reader.g_ismoving r'
  = match motion_reply (res, m) with
    | Some b => b
    | None => Reader.g_ismoving r
    end /\
  (Reader.pub_state r = false ->
   Reader.pub_state r' = false /\
   Reader.publications (Reader.outputs r')
   = ((if opening_frame (res, m) then 1 else 0)
      + Reader.publications (Reader.outputs r))%nat).
Proof.
  unfold Reader.iteration, motion_reply, opening_frame.
  destruct ((res <? 0) || (Reader.len m <? 2)); cbn [negb andb].
  { cbn. auto. }
  set (status := Reader.cmd_get_response_status (Reader.data m)).
  destruct (Reader.id m =? 0x21) eqn:Hid.
  - assert (H43 : (Reader.id m =? 0x43) = false)
      by (apply Z.eqb_eq in Hid; rewrite Hid; reflexivity).
    assert (Hr : (0x43 <=? Reader.id m) = false)
      by (apply Z.eqb_eq in Hid; rewrite Hid; reflexivity).
    rewrite Hr, H43. cbn [andb].
    destruct (handle_move m status F32.zero r Hid) as (Hm & Hg & Hp).
    cbv zeta in *. rewrite Hm, Hg.
    destruct (status =? E_ALREADY_RUNNING); auto.
  - destruct ((0x43 <=? Reader.id m) && (Reader.id m <=? 0x45)
              && (Reader.len m =? 6)) eqn:Hrange.
    + apply andb_prop in Hrange. destruct Hrange as [_ Hlen]. rewrite Hlen.
      cbn [negb orb].
      destruct (status =? E_SUCCESS); cbn [negb].
      * destruct (handle_other m status
                    (Reader.convert (skipn 2 (Reader.data m))) r Hid)
          as (Hm & Hg & Hp).
        cbv zeta in *. rewrite Hm, Hg. rewrite andb_true_r. auto.
      * rewrite andb_false_r. cbn. auto.
    + destruct (handle_other m status F32.zero r Hid) as (Hm & Hg & Hp).
      cbv zeta in *. rewrite Hm, Hg. split; [reflexivity|].
      split; [reflexivity|]. intros H0. destruct (Hp H0) as [H1 H2].
      split; [exact H1|]. rewrite H2.
      destruct (Reader.id m =? 0x43) eqn:H43; [|reflexivity].
      assert (Hlen : (Reader.len m =? 6) = false).
      { apply Z.eqb_eq in H43. rewrite H43 in Hrange. exact Hrange. }
      rewrite Hlen. reflexivity.
Qed.

Lemma read_thread_publications rs :
  forall r,
    Reader.pub_state r = false ->
    Reader.pub_state (Reader.read_thread rs r) = false /\
    Reader.publications (Reader.outputs (Reader.read_thread rs r))
    = (List.length (filter opening_frame rs)
       + Reader.publications (Reader.outputs r))%nat.
Proof.
  induction rs as [|[res m] rs IH]; intros r Hp; cbn [Reader.read_thread filter].
  - auto.
  - destruct (iteration_turn res m r) as (_ & _ & Ht).
    destruct (Ht Hp) as [Hp1 Hn1].
    destruct (IH _ Hp1) as [Hp2 Hn2]. split; [exact Hp2|].
    rewrite Hn2, Hn1. destruct (opening_frame (res, m)); simpl; lia.
Qed.

(** X11: over any sequence of received frames, [read_thread] publishes the
    state once for every frame that is not too short, carries the opening id
    0x43 and, if six bytes long, the status of success, and for no other
    frame: speed and force frames are stored without a publication. *)
Theorem state_is_published_per_opening_frame (rs : list (Z * Reader.msg_t))
    (p s f : F32.t) :
  Reader.publications
    (Reader.outputs (Reader.read_thread rs (Reader.start p s f)))
  = List.length (filter opening_frame rs).
Proof.
  destruct (read_thread_publications rs (Reader.start p s f) eq_refl) as [_ H].
  rewrite H. apply Nat.add_0_r.
Qed.

Lemma read_thread_moving rs :
  forall r,
    let said := flat_map (fun x => match motion_reply x with
                                   | Some b => [b] | None => [] end) rs in
    moving_published (Reader.outputs (Reader.read_thread rs r))
    = rev said ++ moving_published (Reader.outputs r) /\
    Reader.g_ismoving (Reader.read_thread rs r)
    = hd (Reader.g_ismoving r) (rev said).
Proof.
  induction rs as [|[res m] rs IH]; intros r; cbn [Reader.read_thread flat_map].
  - simpl. auto.
  - destruct (iteration_turn res m r) as (Hm & Hg & _).
    destruct (IH (Reader.iteration res m r)) as [Hm2 Hg2].
    cbv zeta in *. rewrite Hm2, Hg2, Hm, Hg.
    set (rest := flat_map _ rs).
    destruct (motion_reply (res, m)) as [b|]; simpl.
    + rewrite <- app_assoc. simpl. split; [reflexivity|].
      destruct (rev rest); reflexivity.
    + auto.
Qed.

(** X12: over any sequence of received frames, [read_thread] publishes on
    the [moving] topic one message for every reply to a move (id 0x21) whose
    status is not [E_ALREADY_RUNNING], in the order received and whether or
    not the value changed; the message says true exactly for the status
    [E_CMD_PENDING]; and [g_ismoving] ends as the last value published. *)
Theorem moving_is_published_per_move_reply (rs : list (Z * Reader.msg_t))
    (p s f : F32.t) :
  let r := Reader.read_thread rs (Reader.start p s f) in
  moving_published (Reader.outputs r)
  = rev (flat_map (fun x => match motion_reply x with
                            | Some b => [b] | None => [] end) rs) /\
  Reader.g_ismoving r = hd false (moving_published (Reader.outputs r)).
Proof.
  destruct (read_thread_moving rs (Reader.start p s f)) as [Hm Hg].
  cbv zeta in *. rewrite Hm, Hg. simpl. rewrite app_nil_r. auto.
Qed.

(** * The goal topics and the timer *)

Section Goals.

Import Callbacks.

Variable L : library.

Lemma isnan_NAN (x : F32.t) : isnan x = true -> x = NAN.
Proof. destruct x; simpl; intros H; try discriminate H; reflexivity. Qed.

(** One turn of the timer when it takes the script branch: the command it
    sends, and the goals it leaves. *)
Lemma script_branch (n : node) :
  g_mode_script n = true ->
  g_mode_polling n && negb (in_motion (base n)) = false ->
  let n' := timer_cb L n in
  calls (done n')
  = (if negb (isnan (g_goal_position n))
     then ScriptMeasureMove 1 (g_goal_position n) (g_speed n)
     else if negb (isnan (g_goal_speed n))
          then ScriptMeasureMove 2 F32.zero (g_goal_speed n)
          else ScriptMeasureMove 0 F32.zero F32.zero) :: calls (done n) /\
  isnan (g_goal_position n') = true /\ isnan (g_goal_speed n') = true /\
  g_speed n' = g_speed n /\
  g_mode_script n' = true /\ g_mode_polling n' = g_mode_polling n /\
  g_mode_periodic n' = g_mode_periodic n.
Proof.
  intros Hs Hp. unfold timer_cb. rewrite Hs, Hp.
  set (info := {| state_text := _ |}).
  unfold script_measure_move.
  destruct (isnan (g_goal_position n)) eqn:Hgp;
    destruct (isnan (g_goal_speed n)) eqn:Hgs; cbn [negb];
    match goal with
    | |- context [script_measure_move_at L ?k ?i] =>
        destruct (script_measure_move_at L k i) as [res info1]
    end;
    repeat (progress (cbn -[Z.eqb]; rewrite ?Hgp, ?Hgs)).
  all: destruct (res =? 0).
  all: try destruct (Bool.eqb (g_ismoving n) (ismoving info1)).
  all: repeat (progress (cbn; rewrite ?Hgp, ?Hgs, ?Hs)); auto 10.
Qed.

Lemma script_turn (n : node) :
  g_mode_script n = true -> g_mode_polling n = false ->
  let n' := timer_cb L n in
  calls (done n')
  = (if negb (isnan (g_goal_position n))
     then ScriptMeasureMove 1 (g_goal_position n) (g_speed n)
     else if negb (isnan (g_goal_speed n))
          then ScriptMeasureMove 2 F32.zero (g_goal_speed n)
          else ScriptMeasureMove 0 F32.zero F32.zero) :: calls (done n) /\
  isnan (g_goal_position n') = true /\ isnan (g_goal_speed n') = true /\
  g_speed n' = g_speed n /\
  g_mode_script n' = true /\ g_mode_polling n' = false /\
  g_mode_periodic n' = g_mode_periodic n.
Proof.
  intros Hs Hp.
  destruct (script_branch n Hs) as (H1 & H2 & H3 & H4 & H5 & H6 & H7);
    [rewrite Hp; reflexivity|].
  cbv zeta in *. rewrite H6. auto 10.
Qed.

End Goals.

(** X13: in script mode a goal position received by [position_cb] is sent
    once: [position_cb] itself sends nothing; the next turn of the timer
    sends [script_measure_move(1, pos, speed)] and clears both goals,
    whatever the command returns, so that a goal speed that was pending is
    dropped unsent; the turn after sends the plain measure command
    [script_measure_move(0, 0, 0)]. *)
Theorem position_goal_is_sent_once (L : Callbacks.library) (pos speed : F32.t)
    (n : Callbacks.node) :
  Callbacks.g_mode_script n = true -> Callbacks.g_mode_polling n = false ->
  Callbacks.g_mode_periodic n = false ->
  Callbacks.isnan pos = false ->
  let n1 := Callbacks.position_cb L pos speed n in
  let n2 := Callbacks.timer_cb L n1 in
  let n3 := Callbacks.timer_cb L n2 in
  Callbacks.calls (Callbacks.done n1) = Callbacks.calls (Callbacks.done n) /\
  Callbacks.calls (Callbacks.done n2)
  = Callbacks.ScriptMeasureMove 1 pos speed
    :: Callbacks.calls (Callbacks.done n) /\
  Callbacks.g_goal_position n2 = Callbacks.NAN /\
  Callbacks.g_goal_speed n2 = Callbacks.NAN /\
  Callbacks.calls (Callbacks.done n3)
  = Callbacks.ScriptMeasureMove 0 F32.zero F32.zero
    :: Callbacks.calls (Callbacks.done n2).
Proof.
  intros Hs Hp Hper Hpos n1 n2 n3.
  assert (H1 : Callbacks.g_mode_script n1 = true /\
               Callbacks.g_mode_polling n1 = false /\
               Callbacks.g_goal_position n1 = pos /\
               Callbacks.g_speed n1 = speed /\
               Callbacks.calls (Callbacks.done n1)
               = Callbacks.calls (Callbacks.done n)).
  { subst n1. unfold Callbacks.position_cb. cbn. rewrite Hper. cbn. auto. }
  destruct H1 as (Hs1 & Hp1 & Hg1 & Hv1 & Hc1).
  destruct (script_turn L n1 Hs1 Hp1) as (Hc2 & Hgp2 & Hgs2 & _ & Hs2 & Hp2 & _).
  fold n2 in Hc2, Hgp2, Hgs2, Hs2, Hp2.
  destruct (script_turn L n2 Hs2 Hp2) as (Hc3 & _).
  fold n3 in Hc3.
  rewrite Hg1, Hv1, Hpos, Hc1 in Hc2. cbn [negb] in Hc2.
  rewrite Hgp2, Hgs2 in Hc3. cbn [negb] in Hc3.
  repeat split; try assumption; apply isnan_NAN; assumption.
Qed.

Lemma position_goal_is_sent_once_witness :
  let n := Callbacks.set_g_goal_speed (F32.of_int 3)
             (Callbacks.set_g_mode_script true Callbacks.fresh) in
  let n1 := Callbacks.position_cb Callbacks.quiet (F32.of_int 50) (F32.of_int 20) n in
  let n2 := Callbacks.timer_cb Callbacks.quiet n1 in
  let n3 := Callbacks.timer_cb Callbacks.quiet n2 in
  Callbacks.calls (Callbacks.done n1) = Callbacks.calls (Callbacks.done n) /\
  Callbacks.calls (Callbacks.done n2)
  = Callbacks.ScriptMeasureMove 1 (F32.of_int 50) (F32.of_int 20)
    :: Callbacks.calls (Callbacks.done n) /\
  Callbacks.g_goal_position n2 = Callbacks.NAN /\
  Callbacks.g_goal_speed n2 = Callbacks.NAN /\
  Callbacks.calls (Callbacks.done n3)
  = Callbacks.ScriptMeasureMove 0 F32.zero F32.zero
    :: Callbacks.calls (Callbacks.done n2).
Proof.
  intros n.
  apply (position_goal_is_sent_once Callbacks.quiet (F32.of_int 50)
           (F32.of_int 20) n); reflexivity.
Defined.

(** X14: in script mode a goal speed received by [speed_cb] while no goal
    position is pending is sent once, as [script_measure_move(2, 0, speed)],
    by the next turn of the timer, which clears it whatever the command
    returns; [speed_cb] itself sends nothing, and it also replaces the speed
    later position commands are sent with. *)
Theorem speed_goal_is_sent_once (L : Callbacks.library) (data : F32.t)
    (n : Callbacks.node) :
  Callbacks.g_mode_script n = true -> Callbacks.g_mode_polling n = false ->
  Callbacks.isnan (Callbacks.g_goal_position n) = true ->
  Callbacks.isnan data = false ->
  let n1 := Callbacks.speed_cb data n in
  let n2 := Callbacks.timer_cb L n1 in
  let n3 := Callbacks.timer_cb L n2 in
  Callbacks.calls (Callbacks.done n1) = Callbacks.calls (Callbacks.done n) /\
  Callbacks.calls (Callbacks.done n2)
  = Callbacks.ScriptMeasureMove 2 F32.zero data
    :: Callbacks.calls (Callbacks.done n) /\
  Callbacks.g_goal_speed n2 = Callbacks.NAN /\
  Callbacks.g_speed n2 = data /\
  Callbacks.calls (Callbacks.done n3)
  = Callbacks.ScriptMeasureMove 0 F32.zero F32.zero
    :: Callbacks.calls (Callbacks.done n2).
Proof.
  intros Hs Hp Hgp Hdata n1 n2 n3.
  assert (H1 : Callbacks.g_mode_script n1 = true /\
               Callbacks.g_mode_polling n1 = false /\
               Callbacks.g_goal_position n1 = Callbacks.g_goal_position n /\
               Callbacks.g_goal_speed n1 = data /\
               Callbacks.g_speed n1 = data /\
               Callbacks.calls (Callbacks.done n1)
               = Callbacks.calls (Callbacks.done n)).
  { subst n1. unfold Callbacks.speed_cb. cbn. auto 10. }
  destruct H1 as (Hs1 & Hp1 & Hg1 & Hgs1 & Hv1 & Hc1).
  destruct (script_turn L n1 Hs1 Hp1) as (Hc2 & Hgp2 & Hgs2 & Hv2 & Hs2 & Hp2 & _).
  fold n2 in Hc2, Hgp2, Hgs2, Hv2, Hs2, Hp2.
  destruct (script_turn L n2 Hs2 Hp2) as (Hc3 & _).
  fold n3 in Hc3.
  rewrite Hg1, Hgp, Hgs1, Hdata, Hc1 in Hc2. cbn [negb] in Hc2.
  rewrite Hgp2, Hgs2 in Hc3. cbn [negb] in Hc3.
  rewrite Hv1 in Hv2.
  repeat split; try assumption; apply isnan_NAN; assumption.
Qed.

Lemma speed_goal_is_sent_once_witness :
  let n := Callbacks.set_g_mode_script true Callbacks.fresh in
  let n1 := Callbacks.speed_cb (F32.of_int 30) n in
  let n2 := Callbacks.timer_cb Callbacks.ready n1 in
  let n3 := Callbacks.timer_cb Callbacks.ready n2 in
  Callbacks.calls (Callbacks.done n1) = Callbacks.calls (Callbacks.done n) /\
  Callbacks.calls (Callbacks.done n2)
  = Callbacks.ScriptMeasureMove 2 F32.zero (F32.of_int 30)
    :: Callbacks.calls (Callbacks.done n) /\
  Callbacks.g_goal_speed n2 = Callbacks.NAN /\
  Callbacks.g_speed n2 = F32.of_int 30 /\
  Callbacks.calls (Callbacks.done n3)
  = Callbacks.ScriptMeasureMove 0 F32.zero F32.zero
    :: Callbacks.calls (Callbacks.done n2).
Proof.
  intros n.
  apply (speed_goal_is_sent_once Callbacks.ready (F32.of_int 30) n); reflexivity.
Defined.

(** * Callbacks in sequence *)

Section Runs.

Import Callbacks.

Variable L : library.

Lemma callback_is_timer (cb : callback) : cb = Timer \/ cb <> Timer.
Proof. destruct cb; (left; reflexivity) || (right; discriminate). Qed.

(** The callbacks other than the timer publish nothing and leave the modes
    and [g_ismoving] alone. *)
Lemma deliver_other (cb : callback) (n : node) :
  cb <> Timer ->
  let n' := deliver L cb n in
  movings (done n') = movings (done n) /\
  statuses (done n') = statuses (done n) /\
  g_ismoving n' = g_ismoving n /\
  g_mode_script n' = g_mode_script n /\
  g_mode_polling n' = g_mode_polling n /\
  g_mode_periodic n' = g_mode_periodic n.
Proof.
  intros Hcb. destruct cb as [|pos speed|data|val|val| |w];
    try contradiction; cbn; auto 10.
  unfold position_cb, move. cbn.
  destruct (g_mode_periodic n) eqn:Hper; cbn; [|rewrite ?Hper; auto 10].
  destruct (negb (int_at L (S (n_call n)) =? 0)); cbn; rewrite ?Hper; auto 10.
Qed.

(** A turn of the timer publishes on [moving] only a value that differs from
    [g_ismoving], and then takes it over. *)
Lemma timer_moving (n : node) :
  let n' := timer_cb L n in
  (movings (done n') = movings (done n) /\ g_ismoving n' = g_ismoving n) \/
  (movings (done n') = g_ismoving n' :: movings (done n) /\
   g_ismoving n' = negb (g_ismoving n)).
Proof.
  unfold timer_cb.
  destruct (g_mode_polling n && negb (in_motion (base n))).
  { unfold systemState. destruct (systemState_at L (n_call n)); cbn; auto. }
  destruct (g_mode_script n); [|auto].
  set (info := {| state_text := _ |}).
  unfold script_measure_move.
  destruct (isnan (g_goal_position n)) eqn:Hgp;
    destruct (isnan (g_goal_speed n)) eqn:Hgs; cbn [negb];
    match goal with
    | |- context [script_measure_move_at L ?k ?i] =>
        destruct (script_measure_move_at L k i) as [res info1]
    end;
    repeat (progress (cbn -[Z.eqb]; rewrite ?Hgp, ?Hgs)).
  all: destruct (res =? 0);
    [repeat (progress (cbn; rewrite ?Hgp, ?Hgs)); auto|].
  all: destruct (Bool.eqb (g_ismoving n) (ismoving info1)) eqn:Heq;
    repeat (progress (cbn; rewrite ?Hgp, ?Hgs)); auto.
  all: right; split; [reflexivity|];
    destruct (g_ismoving n), (ismoving info1); try discriminate Heq;
    reflexivity.
Qed.

Lemma deliver_moving (cb : callback) (n : node) :
  g_ismoving n = hd false (movings (done n)) ->
  alternates (movings (done n)) = true ->
  let n' := deliver L cb n in
  alternates (movings (done n')) = true /\
  g_ismoving n' = hd false (movings (done n')).
Proof.
  intros Hg Ha. destruct (callback_is_timer cb) as [->|Hcb].
  - cbn [deliver]. destruct (timer_moving n) as [[Hm Hi]|[Hm Hi]]; cbv zeta in *.
    + rewrite Hm, Hi. auto.
    + rewrite Hm. split; [|reflexivity].
      rewrite Hi, Hg. destruct (movings (done n)) as [|b bs]; [reflexivity|].
      cbn [alternates hd]. cbn [alternates] in Ha. rewrite Ha.
      destruct b; reflexivity.
  - destruct (deliver_other cb n Hcb) as (Hm & _ & Hi & _).
    cbv zeta in *. rewrite Hm, Hi. auto.
Qed.

(** A turn of the timer outside script mode publishes at most one status,
    and that one with speed 0.0. *)
Lemma timer_statuses (n : node) :
  g_mode_script n = false ->
  let n' := timer_cb L n in
  g_mode_script n' = false /\
  (statuses (done n') = statuses (done n) \/
   exists info, speed info = F32.zero /\
                statuses (done n') = info :: statuses (done n)).
Proof.
  intros Hs. unfold timer_cb.
  destruct (g_mode_polling n && negb (in_motion (base n))).
  - unfold systemState. destruct (systemState_at L (n_call n)); cbn; auto.
    split; [exact Hs|]. right. eexists. split; [|reflexivity]. reflexivity.
  - rewrite Hs. auto.
Qed.

(** With every mode flag clear, the goal topics and the timer do nothing
    that shows. *)
Lemma deliver_off (cb : callback) (n : node) :
  topic_or_timer cb = true ->
  g_mode_script n = false -> g_mode_polling n = false ->
  g_mode_periodic n = false ->
  let n' := deliver L cb n in
  done n' = done n /\
  g_mode_script n' = false /\ g_mode_polling n' = false /\
  g_mode_periodic n' = false.
Proof.
  intros Hcb Hs Hp Hper.
  destruct cb as [|pos speed|data|val|val| |w]; try discriminate Hcb; cbn.
  - unfold timer_cb. rewrite Hs, Hp. cbn. auto.
  - unfold position_cb. cbn. rewrite Hper. cbn. auto.
  - auto.
Qed.

End Runs.

(** X15: over any sequence of callbacks, the timer publishes on the
    [moving] topic only changes: no value is published twice in a row, and
    [g_ismoving] is the last value published (false before the first). *)
Theorem moving_topic_never_repeats (L : Callbacks.library)
    (cbs : list Callbacks.callback) (n : Callbacks.node) :
  Callbacks.g_ismoving n = hd false (Callbacks.movings (Callbacks.done n)) ->
  Callbacks.alternates (Callbacks.movings (Callbacks.done n)) = true ->
  let n' := Callbacks.run L cbs n in
  Callbacks.alternates (Callbacks.movings (Callbacks.done n')) = true /\
  Callbacks.g_ismoving n' = hd false (Callbacks.movings (Callbacks.done n')).
Proof.
  revert n. induction cbs as [|cb cbs IH]; intros n Hg Ha; cbn [Callbacks.run];
    [auto|].
  destruct (deliver_moving L cb n Hg Ha) as [Ha1 Hg1]. apply IH; assumption.
Qed.

Lemma moving_topic_never_repeats_witness :
  let n := Callbacks.set_g_mode_script true Callbacks.fresh in
  let cbs := [Callbacks.Timer; Callbacks.Timer;
              Callbacks.Position (F32.of_int 50) (F32.of_int 20);
              Callbacks.Motion pending; Callbacks.Timer; Callbacks.Timer] in
  let n' := Callbacks.run Callbacks.ready cbs n in
  Callbacks.movings (Callbacks.done n') = [false; true; false; true] /\
  Callbacks.alternates (Callbacks.movings (Callbacks.done n')) = true /\
  Callbacks.g_ismoving n' = hd false (Callbacks.movings (Callbacks.done n')).
Proof.
  intros n cbs n'. split; [vm_compute; reflexivity|].
  apply (moving_topic_never_repeats Callbacks.ready cbs n); reflexivity.
Defined.

(** X16: outside script mode the status never reports a speed: over any
    sequence of callbacks, every status message the polling timer publishes
    carries the speed 0.0 ([timer_cb] sets [info.speed = 0.0] and the polling
    branch queries opening, acceleration and force only). *)
Theorem polling_status_reports_no_speed (L : Callbacks.library)
    (cbs : list Callbacks.callback) (n : Callbacks.node) :
  Callbacks.g_mode_script n = false ->
  exists newer,
    Callbacks.statuses (Callbacks.done (Callbacks.run L cbs n))
    = newer ++ Callbacks.statuses (Callbacks.done n) /\
    Forall (fun info => Callbacks.speed info = F32.zero) newer.
Proof.
  revert n. induction cbs as [|cb cbs IH]; intros n Hs; cbn [Callbacks.run].
  { exists []. split; [reflexivity | constructor]. }
  destruct (callback_is_timer cb) as [->|Hcb].
  - cbn [Callbacks.deliver].
    destruct (timer_statuses L n Hs) as [Hs1 [Heq|(i & Hi & Heq)]];
      cbv zeta in *;
      destruct (IH _ Hs1) as (newer & Hn & Hf); rewrite Heq in Hn.
    + exists newer. auto.
    + exists (newer ++ [i]). rewrite <- app_assoc. split; [exact Hn|].
      apply Forall_app. split; [exact Hf|]. constructor; [exact Hi | constructor].
  - destruct (deliver_other L cb n Hcb) as (_ & Hst & _ & Hs1 & _).
    cbv zeta in *. rewrite Hs in Hs1.
    destruct (IH _ Hs1) as (newer & Hn & Hf). rewrite Hst in Hn.
    exists newer. auto.
Qed.

Lemma polling_status_reports_no_speed_witness :
  let n := Callbacks.set_g_mode_polling true Callbacks.fresh in
  let cbs := [Callbacks.Timer; Callbacks.Motion pending; Callbacks.Timer;
              Callbacks.Motion boot; Callbacks.Timer] in
  List.length (Callbacks.statuses
                 (Callbacks.done (Callbacks.run Callbacks.ready cbs n))) = 2%nat /\
  exists newer,
    Callbacks.statuses (Callbacks.done (Callbacks.run Callbacks.ready cbs n))
    = newer ++ Callbacks.statuses (Callbacks.done n) /\
    Forall (fun info => Callbacks.speed info = F32.zero) newer.
Proof.
  intros n cbs. split; [vm_compute; reflexivity|].
  apply (polling_status_reports_no_speed Callbacks.ready cbs n). reflexivity.
Defined.

(** X17: what the guard [in_motion] covers among these callbacks.  While it
    is set, the timer outside script mode does nothing at all, however often
    it fires; the timer in script mode still sends its measure-and-move
    command, and [setAccSrv], [setForceSrv] and [ackSrv] still send theirs
    and return true. *)
Theorem guard_covers_the_polling_timer_only (L : Callbacks.library)
    (n : Callbacks.node) :
  in_motion (Callbacks.base n) = true ->
  (Callbacks.g_mode_script n = false ->
   forall k, Callbacks.run L (repeat Callbacks.Timer k) n = n) /\
  (Callbacks.g_mode_script n = true ->
   exists cmd_type width speed,
     Callbacks.calls (Callbacks.done (Callbacks.timer_cb L n))
     = Callbacks.ScriptMeasureMove cmd_type width speed
       :: Callbacks.calls (Callbacks.done n)) /\
  (forall val,
     fst (Callbacks.setAccSrv val n) = true /\
     Callbacks.calls (Callbacks.done (snd (Callbacks.setAccSrv val n)))
     = Callbacks.SetAcceleration val :: Callbacks.calls (Callbacks.done n)) /\
  (forall val,
     fst (Callbacks.setForceSrv val n) = true /\
     Callbacks.calls (Callbacks.done (snd (Callbacks.setForceSrv val n)))
     = Callbacks.SetGraspingForceLimit val
       :: Callbacks.calls (Callbacks.done n)) /\
  fst (Callbacks.ackSrv n) = true /\
  Callbacks.calls (Callbacks.done (snd (Callbacks.ackSrv n)))
  = Callbacks.AckFault :: Callbacks.calls (Callbacks.done n).
Proof.
  intros Hb.
  assert (Hg : Callbacks.g_mode_polling n && negb (in_motion (Callbacks.base n))
               = false) by (rewrite Hb; apply andb_false_r).
  split; [|split; [|split; [|split; [|split]]]].
  - intros Hs k. induction k as [|k IH]; [reflexivity|].
    cbn [repeat Callbacks.run Callbacks.deliver].
    assert (Ht : Callbacks.timer_cb L n = n)
      by (unfold Callbacks.timer_cb; rewrite Hg, Hs; reflexivity).
    rewrite Ht. exact IH.
  - intros Hs. destruct (script_branch L n Hs Hg) as (Hc & _).
    cbv zeta in Hc. rewrite Hc.
    destruct (negb (Callbacks.isnan (Callbacks.g_goal_position n)));
      [do 3 eexists; reflexivity|].
    destruct (negb (Callbacks.isnan (Callbacks.g_goal_speed n)));
      do 3 eexists; reflexivity.
  - intros val. split; reflexivity.
  - intros val. split; reflexivity.
  - reflexivity.
  - reflexivity.
Qed.

Lemma guard_covers_the_polling_timer_only_witness :
  let n := Callbacks.set_base pending
             (Callbacks.set_g_mode_polling true Callbacks.fresh) in
  (Callbacks.g_mode_script n = false ->
   forall k, Callbacks.run Callbacks.ready (repeat Callbacks.Timer k) n = n) /\
  (Callbacks.g_mode_script n = true ->
   exists cmd_type width speed,
     Callbacks.calls (Callbacks.done (Callbacks.timer_cb Callbacks.ready n))
     = Callbacks.ScriptMeasureMove cmd_type width speed
       :: Callbacks.calls (Callbacks.done n)) /\
  (forall val,
     fst (Callbacks.setAccSrv val n) = true /\
     Callbacks.calls (Callbacks.done (snd (Callbacks.setAccSrv val n)))
     = Callbacks.SetAcceleration val :: Callbacks.calls (Callbacks.done n)) /\
  (forall val,
     fst (Callbacks.setForceSrv val n) = true /\
     Callbacks.calls (Callbacks.done (snd (Callbacks.setForceSrv val n)))
     = Callbacks.SetGraspingForceLimit val
       :: Callbacks.calls (Callbacks.done n)) /\
  fst (Callbacks.ackSrv n) = true /\
  Callbacks.calls (Callbacks.done (snd (Callbacks.ackSrv n)))
  = Callbacks.AckFault :: Callbacks.calls (Callbacks.done n).
Proof.
  intros n.
  apply (guard_covers_the_polling_timer_only Callbacks.ready n).
  vm_compute. reflexivity.
Defined.

(** X18: after [sigint_handler] the goal topics and the timer are inert:
    whatever callbacks of theirs are still delivered, no call into the
    gripper library is made and nothing is published or logged. *)
Theorem nothing_after_sigint (L : Callbacks.library)
    (cbs : list Callbacks.callback) (n : Callbacks.node) :
  forallb Callbacks.topic_or_timer cbs = true ->
  Callbacks.done (Callbacks.run L cbs (Callbacks.sigint_handler n))
  = Callbacks.Shutdown :: Callbacks.Logged Info Callbacks.NoteExiting
    :: Callbacks.done n.
Proof.
  intros Hcbs.
  assert (Hoff : forall m,
            Callbacks.g_mode_script m = false ->
            Callbacks.g_mode_polling m = false ->
            Callbacks.g_mode_periodic m = false ->
            Callbacks.done (Callbacks.run L cbs m) = Callbacks.done m).
  { induction cbs as [|cb cbs IH]; intros m Hs Hp Hper; cbn [Callbacks.run];
      [reflexivity|].
    cbn [forallb] in Hcbs. apply andb_prop in Hcbs. destruct Hcbs as [Hcb Hcbs].
    destruct (deliver_off L cb m Hcb Hs Hp Hper) as (Hd & Hs1 & Hp1 & Hper1).
    cbv zeta in *. rewrite (IH Hcbs); assumption. }
  rewrite Hoff; reflexivity.
Qed.

Lemma nothing_after_sigint_witness :
  let n := Callbacks.set_g_mode_script true Callbacks.fresh in
  let cbs := [Callbacks.Position (F32.of_int 50) (F32.of_int 20);
              Callbacks.Timer; Callbacks.Speed (F32.of_int 5); Callbacks.Timer] in
  Callbacks.calls (Callbacks.done (Callbacks.run Callbacks.ready cbs n))
  = [Callbacks.ScriptMeasureMove 2 F32.zero (F32.of_int 5);
     Callbacks.ScriptMeasureMove 1 (F32.of_int 50) (F32.of_int 20)] /\
  Callbacks.done (Callbacks.run Callbacks.ready cbs (Callbacks.sigint_handler n))
  = Callbacks.Shutdown :: Callbacks.Logged Info Callbacks.NoteExiting
    :: Callbacks.done n.
Proof.
  intros n cbs. split; [vm_compute; reflexivity|].
  apply (nothing_after_sigint Callbacks.ready cbs n). reflexivity.
Defined.

(** * [main] *)

Section Main.

Import Callbacks.

Variable L : library.

Lemma configured_n_call (p : params) : n_call (configured p) = O.
Proof.
  unfold configured, select_mode.
  destruct (String.eqb (com_mode p) "script"); [reflexivity|].
  destruct (String.eqb (com_mode p) "auto_update"); reflexivity.
Qed.

(** [main] up to the connection. *)
Lemma main_connects (p : params) (spin : node -> node) :
  main L p spin
  = let '(res_con, n) := connect L p (configured p) in
    if res_con =? 0 then
      let n := bring_up p n in
      let th := g_mode_periodic n in
      let n := spin (record Spun n) in
      if th then Terminates n else Returns (wind_down n)
    else
      Returns
        (wind_down
           (record (PubComponentStatus 4
                      "Unable to connect, please check the port and address used.")
              (record (Logged Error NoteUnableToConnect) n))).
Proof. reflexivity. Qed.

(** A connection that is made. *)
Lemma connect_made (p : params) :
  known_protocol p = true -> int_at L 0 = 0 ->
  exists a,
    is_link_setup a = true /\
    connect L p (configured p)
    = (0, record (Logged Info NoteConnecting) (called a (configured p))).
Proof.
  unfold known_protocol, connect. intros Hk Hc.
  rewrite configured_n_call, Hc.
  destruct (String.eqb (protocol p) "serial");
    [eexists; split; [|reflexivity]; reflexivity|].
  destruct (String.eqb (protocol p) "udp");
    [eexists; split; [|reflexivity]; reflexivity|].
  destruct (String.eqb (protocol p) "tcp");
    [eexists; split; [|reflexivity]; reflexivity | discriminate Hk].
Qed.

(** A connection that is not made: unknown protocol, or a call that fails. *)
Lemma connect_failed (p : params) :
  known_protocol p = false \/ int_at L 0 <> 0 ->
  exists rc n,
    connect L p (configured p) = (rc, n) /\ (rc =? 0) = false /\
    (n = record (Logged Error NoteUnknownProtocol) (configured p) /\
     known_protocol p = false \/
     exists a, is_link_setup a = true /\ known_protocol p = true /\
               n = record (Logged Info NoteConnecting) (called a (configured p))).
Proof.
  unfold known_protocol, connect. intros Hfail.
  rewrite configured_n_call.
  assert (Hrc : String.eqb (protocol p) "serial"
                || String.eqb (protocol p) "udp"
                || String.eqb (protocol p) "tcp" = true ->
                (int_at L 0 =? 0) = false).
  { intros Hk. destruct Hfail as [H|H]; [congruence|].
    apply Z.eqb_neq. exact H. }
  destruct (String.eqb (protocol p) "serial");
    [do 2 eexists; split; [reflexivity|]; split; [exact (Hrc eq_refl)|];
     right; eexists; split; [|split; reflexivity]; reflexivity|].
  destruct (String.eqb (protocol p) "udp");
    [do 2 eexists; split; [reflexivity|]; split; [exact (Hrc eq_refl)|];
     right; eexists; split; [|split; reflexivity]; reflexivity|].
  destruct (String.eqb (protocol p) "tcp");
    [do 2 eexists; split; [reflexivity|]; split; [exact (Hrc eq_refl)|];
     right; eexists; split; [|split; reflexivity]; reflexivity|].
  do 2 eexists. split; [reflexivity|]. split; [reflexivity|]. left. auto.
Qed.

End Main.

(** X19: when the connection is made, [main] hands to [ros::spin()] a node
    in exactly one mode: script or auto_update when [com_mode] says so,
    polling for any other text.  The services (which read the link for their
    acknowledgements) and the timer exist exactly when the reader thread
    does not: in the modes script and polling the nine services are
    advertised and the timer is created, in auto_update mode no service is
    advertised and the reader thread is started instead.  The globals of the
    services are those of [startup]. *)
Theorem one_mode_and_its_wiring (L : Callbacks.library) (p : Callbacks.params)
    (spin : Callbacks.node -> Callbacks.node) :
  Callbacks.known_protocol p = true -> Callbacks.int_at L 0 = 0 ->
  exists n,
    Callbacks.main L p spin
    = (if Callbacks.g_mode_periodic n then Callbacks.Terminates (spin n)
       else Callbacks.Returns (Callbacks.wind_down (spin n))) /\
    Callbacks.base n = startup (Callbacks.size p) /\
    (Callbacks.g_mode_script n, Callbacks.g_mode_periodic n,
     Callbacks.g_mode_polling n)
    = (if String.eqb (Callbacks.com_mode p) "script" then (true, false, false)
       else if String.eqb (Callbacks.com_mode p) "auto_update"
            then (false, true, false)
            else (false, false, true)) /\
    Callbacks.advertised_services (Callbacks.done n)
    = (if Callbacks.g_mode_periodic n then [] else rev Callbacks.services) /\
    Callbacks.timer_created (Callbacks.done n)
    = negb (Callbacks.g_mode_periodic n) /\
    Callbacks.thread_started (Callbacks.done n) = Callbacks.g_mode_periodic n /\
    Callbacks.subscriptions (Callbacks.done n)
    = (if Callbacks.g_mode_script n then ["goal_speed"%string] else [])
      ++ (if Callbacks.g_mode_polling n then [] else ["goal_position"%string]) /\
    Callbacks.advertised_topics (Callbacks.done n)
    = (if Callbacks.g_mode_polling n then [] else ["moving"%string])
      ++ ["/joint_states"%string; "status"%string; "component/status"%string].
Proof.
  intros Hk Hc. rewrite main_connects.
  destruct (connect_made L p Hk Hc) as (a & _ & ->). cbn [Z.eqb].
  match goal with
  | |- context [Callbacks.bring_up p ?N] =>
      exists (Callbacks.record Callbacks.Spun (Callbacks.bring_up p N))
  end.
  unfold Callbacks.configured, Callbacks.select_mode.
  cbv delta [Callbacks.bring_up]. cbv beta.
  destruct (String.eqb (Callbacks.com_mode p) "script");
    [|destruct (String.eqb (Callbacks.com_mode p) "auto_update")];
    destruct (SFltb (S754_zero false) (Callbacks.grasping_force p));
    cbv -[Callbacks.to_float startup]; repeat split; reflexivity.
Qed.

Lemma one_mode_and_its_wiring_witness :
  let p := Callbacks.defaults in
  let spin := Callbacks.run Callbacks.quiet [Callbacks.Timer] in
  Callbacks.known_protocol p = true /\
  exists n,
    Callbacks.main Callbacks.quiet p spin
    = (if Callbacks.g_mode_periodic n then Callbacks.Terminates (spin n)
       else Callbacks.Returns (Callbacks.wind_down (spin n))) /\
    Callbacks.base n = startup (Callbacks.size p) /\
    (Callbacks.g_mode_script n, Callbacks.g_mode_periodic n,
     Callbacks.g_mode_polling n)
    = (if String.eqb (Callbacks.com_mode p) "script" then (true, false, false)
       else if String.eqb (Callbacks.com_mode p) "auto_update"
            then (false, true, false)
            else (false, false, true)) /\
    Callbacks.advertised_services (Callbacks.done n)
    = (if Callbacks.g_mode_periodic n then [] else rev Callbacks.services) /\
    Callbacks.timer_created (Callbacks.done n)
    = negb (Callbacks.g_mode_periodic n) /\
    Callbacks.thread_started (Callbacks.done n) = Callbacks.g_mode_periodic n /\
    Callbacks.subscriptions (Callbacks.done n)
    = (if Callbacks.g_mode_script n then ["goal_speed"%string] else [])
      ++ (if Callbacks.g_mode_polling n then [] else ["goal_position"%string]) /\
    Callbacks.advertised_topics (Callbacks.done n)
    = (if Callbacks.g_mode_polling n then [] else ["moving"%string])
      ++ ["/joint_states"%string; "status"%string; "component/status"%string].
Proof.
  intros p spin. split; [reflexivity|].
  apply (one_mode_and_its_wiring Callbacks.quiet p spin); reflexivity.
Defined.

(** X20: when the protocol is unknown or the connection fails, [main]
    never reaches [ros::spin()]: it advertises no service, creates no timer
    and no thread and sends no command to the gripper; it publishes the
    component status 4 and then, as after a normal run, the status 1, clears
    the mode flags, calls [cmd_disconnect()] on the link that was never
    opened, and returns.  With an unknown protocol not even a connection is
    attempted. *)
Theorem failed_connection_winds_down (L : Callbacks.library)
    (p : Callbacks.params) (spin : Callbacks.node -> Callbacks.node) :
  Callbacks.known_protocol p = false \/ Callbacks.int_at L 0 <> 0 ->
  exists n,
    Callbacks.main L p spin = Callbacks.Returns n /\
    Callbacks.main L p (fun n0 => n0) = Callbacks.Returns n /\
    ~ In Callbacks.Spun (Callbacks.done n) /\
    Callbacks.component_statuses (Callbacks.done n) = [1; 4] /\
    hd_error (Callbacks.calls (Callbacks.done n)) = Some Callbacks.Disconnect /\
    forallb Callbacks.is_link_setup (Callbacks.calls (Callbacks.done n)) = true /\
    (Callbacks.known_protocol p = false ->
     Callbacks.calls (Callbacks.done n) = [Callbacks.Disconnect]) /\
    Callbacks.advertised_services (Callbacks.done n) = [] /\
    Callbacks.timer_created (Callbacks.done n) = false /\
    Callbacks.thread_started (Callbacks.done n) = false /\
    (Callbacks.g_mode_script n, Callbacks.g_mode_periodic n,
     Callbacks.g_mode_polling n) = (false, false, false).
Proof.
  intros Hfail. rewrite !main_connects.
  destruct (connect_failed L p Hfail) as (rc & n & -> & -> & Hn).
  eexists. split; [reflexivity|]. split; [reflexivity|].
  destruct Hn as [[-> Hk]|(a & Ha & Hk & ->)];
    unfold Callbacks.configured, Callbacks.select_mode;
    (destruct (String.eqb (Callbacks.com_mode p) "script");
     [|destruct (String.eqb (Callbacks.com_mode p) "auto_update")]);
    cbn; rewrite ?Ha; repeat split; try reflexivity; try congruence;
    intros H; repeat (destruct H as [H|H]; try discriminate H); auto.
Qed.

Lemma failed_connection_winds_down_witness :
  let L := Callbacks.ready in
  let p := {| Callbacks.size := 110; Callbacks.ip := "10.0.0.1";
              Callbacks.port := 1000; Callbacks.local_port := 1501;
              Callbacks.serial_port := "/dev/ttyS1";
              Callbacks.serial_baudrate := 115200;
              Callbacks.protocol := "bluetooth";
              Callbacks.com_mode := "script";
              Callbacks.rate := Callbacks.of_int 5;
              Callbacks.grasping_force := Callbacks.of_int 40 |} in
  let spin := Callbacks.run L [Callbacks.Timer] in
  exists n,
    Callbacks.main L p spin = Callbacks.Returns n /\
    Callbacks.main L p (fun n0 => n0) = Callbacks.Returns n /\
    ~ In Callbacks.Spun (Callbacks.done n) /\
    Callbacks.component_statuses (Callbacks.done n) = [1; 4] /\
    hd_error (Callbacks.calls (Callbacks.done n)) = Some Callbacks.Disconnect /\
    forallb Callbacks.is_link_setup (Callbacks.calls (Callbacks.done n)) = true /\
    (Callbacks.known_protocol p = false ->
     Callbacks.calls (Callbacks.done n) = [Callbacks.Disconnect]) /\
    Callbacks.advertised_services (Callbacks.done n) = [] /\
    Callbacks.timer_created (Callbacks.done n) = false /\
    Callbacks.thread_started (Callbacks.done n) = false /\
    (Callbacks.g_mode_script n, Callbacks.g_mode_periodic n,
     Callbacks.g_mode_polling n) = (false, false, false).
Proof.
  intros L p spin.
  apply (failed_connection_winds_down L p spin). left. reflexivity.
Defined.

(** X26: with the connection made, [main] returns, after the component
    status 1 and [cmd_disconnect()], in the modes script and polling; in
    auto_update mode it does not: when [ros::spin()] returns, the block is
    left with the reader's [std::thread] still joinable, and the process
    ends in [std::terminate()] without the status 1 and without
    [cmd_disconnect()]. *)
Theorem auto_update_ends_in_terminate (L : Callbacks.library)
    (p : Callbacks.params) (spin : Callbacks.node -> Callbacks.node) :
  Callbacks.known_protocol p = true -> Callbacks.int_at L 0 = 0 ->
  exists n,
    Callbacks.thread_started (Callbacks.done n)
    = String.eqb (Callbacks.com_mode p) "auto_update" /\
    Callbacks.component_statuses (Callbacks.done n) = [2] /\
    Callbacks.main L p spin
    = (if String.eqb (Callbacks.com_mode p) "auto_update"
       then Callbacks.Terminates (spin n)
       else Callbacks.Returns (Callbacks.wind_down (spin n))) /\
    Callbacks.component_statuses (Callbacks.done (Callbacks.wind_down (spin n)))
    = 1 :: Callbacks.component_statuses (Callbacks.done (spin n)) /\
    Callbacks.calls (Callbacks.done (Callbacks.wind_down (spin n)))
    = Callbacks.Disconnect :: Callbacks.calls (Callbacks.done (spin n)).
Proof.
  intros Hk Hc. rewrite main_connects.
  destruct (connect_made L p Hk Hc) as (a & _ & ->). cbn [Z.eqb].
  match goal with
  | |- context [Callbacks.bring_up p ?N] =>
      exists (Callbacks.record Callbacks.Spun (Callbacks.bring_up p N))
  end.
  unfold Callbacks.configured, Callbacks.select_mode.
  cbv delta [Callbacks.bring_up]. cbv beta.
  destruct (String.eqb (Callbacks.com_mode p) "script") eqn:Hscript.
  - assert (Hau : String.eqb (Callbacks.com_mode p) "auto_update" = false).
    { apply String.eqb_eq in Hscript. rewrite Hscript. reflexivity. }
    rewrite Hau.
    destruct (SFltb (S754_zero false) (Callbacks.grasping_force p));
      cbv -[Callbacks.to_float startup]; repeat split; reflexivity.
  - destruct (String.eqb (Callbacks.com_mode p) "auto_update");
      destruct (SFltb (S754_zero false) (Callbacks.grasping_force p));
      cbv -[Callbacks.to_float startup]; repeat split; reflexivity.
Qed.

Lemma auto_update_ends_in_terminate_witness :
  let L := Callbacks.quiet in
  let p := {| Callbacks.size := 110; Callbacks.ip := "10.0.0.1";
              Callbacks.port := 1000; Callbacks.local_port := 1501;
              Callbacks.serial_port := "/dev/ttyS1";
              Callbacks.serial_baudrate := 115200;
              Callbacks.protocol := "tcp";
              Callbacks.com_mode := "auto_update";
              Callbacks.rate := Callbacks.of_int 5;
              Callbacks.grasping_force := Callbacks.of_int 40 |} in
  let spin := Callbacks.run L [Callbacks.Position (F32.of_int 50) (F32.of_int 20)] in
  exists n,
    Callbacks.thread_started (Callbacks.done n)
    = String.eqb (Callbacks.com_mode p) "auto_update" /\
    Callbacks.component_statuses (Callbacks.done n) = [2] /\
    Callbacks.main L p spin
    = (if String.eqb (Callbacks.com_mode p) "auto_update"
       then Callbacks.Terminates (spin n)
       else Callbacks.Returns (Callbacks.wind_down (spin n))) /\
    Callbacks.component_statuses (Callbacks.done (Callbacks.wind_down (spin n)))
    = 1 :: Callbacks.component_statuses (Callbacks.done (spin n)) /\
    Callbacks.calls (Callbacks.done (Callbacks.wind_down (spin n)))
    = Callbacks.Disconnect :: Callbacks.calls (Callbacks.done (spin n)).
Proof.
  intros L p spin.
  apply (auto_update_ends_in_terminate L p spin); reflexivity.
Defined.

(** * The polling timer and the services *)

Section Polling.

Import Callbacks.

Variable L : library.

(** A turn of the timer in polling mode with the guard clear. *)
Lemma polling_turn (n : node) :
  g_mode_polling n = true -> in_motion (base n) = false ->
  let n' := timer_cb L n in
  match systemState_at L (n_call n) with
  | None =>
      calls (done n') = SystemState :: calls (done n) /\
      statuses (done n') = statuses (done n)
  | Some text =>
      calls (done n')
      = GetForce :: GetAcceleration :: GetOpening :: SystemState
        :: calls (done n) /\
      statuses (done n')
      = {| state_text := text;
           position := float_at L (1 + n_call n);
           speed := F32.zero;
           acceleration := float_at L (2 + n_call n);
           f_motor := float_at L (3 + n_call n);
           f_finger0 := f_finger0 (info_at L (n_call n));
           f_finger1 := f_finger1 (info_at L (n_call n));
           ismoving := ismoving (info_at L (n_call n)) |}
        :: statuses (done n)
  end.
Proof.
  intros Hp Hi. unfold timer_cb, systemState. rewrite Hp, Hi. cbn [andb negb].
  destruct (systemState_at L (n_call n)); cbn; auto.
Qed.

End Polling.

(** X21: once the callbacks of the services have all returned, the polling
    timer is not held back: its next turn calls [systemState()]; when that
    returns a null pointer the turn ends there, with nothing else asked and
    nothing published; otherwise opening, acceleration and force are asked
    for, in that order, and one status is published that carries the three
    answers and the speed 0.0. *)
Theorem timer_polls_once_services_have_returned (E : env) (L : Callbacks.library)
    (fuel : nat) (reqs : list request) (size : Z) (w' : world)
    (n : Callbacks.node) :
  spin E fuel reqs (startup size) = Ret tt w' ->
  Callbacks.g_mode_polling n = true ->
  let n0 := Callbacks.set_base w' n in
  let n' := Callbacks.timer_cb L n0 in
  match Callbacks.systemState_at L (Callbacks.n_call n) with
  | None =>
      Callbacks.calls (Callbacks.done n')
      = Callbacks.SystemState :: Callbacks.calls (Callbacks.done n) /\
      Callbacks.statuses (Callbacks.done n')
      = Callbacks.statuses (Callbacks.done n)
  | Some text =>
      Callbacks.calls (Callbacks.done n')
      = Callbacks.GetForce :: Callbacks.GetAcceleration
        :: Callbacks.GetOpening :: Callbacks.SystemState
        :: Callbacks.calls (Callbacks.done n) /\
      exists info,
        Callbacks.statuses (Callbacks.done n')
        = info :: Callbacks.statuses (Callbacks.done n) /\
        Callbacks.state_text info = text /\
        Callbacks.position info
        = Callbacks.float_at L (1 + Callbacks.n_call n) /\
        Callbacks.speed info = F32.zero /\
        Callbacks.acceleration info
        = Callbacks.float_at L (2 + Callbacks.n_call n) /\
        Callbacks.f_motor info = Callbacks.float_at L (3 + Callbacks.n_call n)
  end.
Proof.
  intros Hspin Hp n0 n'.
  assert (Hidle : in_motion w' = false).
  { unfold spin in Hspin.
    assert (Hs : in_motion (startup size) = false /\
                 stop_called (startup size) = false).
    { unfold startup, select_size.
      destruct (negb (size =? 210) && negb (size =? 110)); auto. }
    destruct Hs as [Hi Hs].
    exact (proj1 (run_callbacks_calm E fuel reqs _ _ Hi Hs Hspin)). }
  pose proof (polling_turn L n0 Hp Hidle) as H. cbv zeta in H.
  change (Callbacks.n_call n0) with (Callbacks.n_call n) in H.
  change (Callbacks.done n0) with (Callbacks.done n) in H.
  fold n' in H.
  destruct (Callbacks.systemState_at L (Callbacks.n_call n)); [|exact H].
  destruct H as [Hc Hst]. split; [exact Hc|].
  eexists. split; [exact Hst|]. cbn. auto.
Qed.

Lemma timer_polls_once_services_have_returned_witness :
  let reqs := [ReqMove (move_to 50 100); ReqStop] in
  let w' := world_of (spin prompt 5 reqs (startup 210)) in
  let n := Callbacks.set_g_mode_polling true Callbacks.fresh in
  let n' := Callbacks.timer_cb Callbacks.ready (Callbacks.set_base w' n) in
  sent (trace w') = [CmdStop false; CmdMove (F32.of_int 50) (F32.of_int 100) false] /\
  match Callbacks.systemState_at Callbacks.ready (Callbacks.n_call n) with
  | None =>
      Callbacks.calls (Callbacks.done n')
      = Callbacks.SystemState :: Callbacks.calls (Callbacks.done n) /\
      Callbacks.statuses (Callbacks.done n')
      = Callbacks.statuses (Callbacks.done n)
  | Some text =>
      Callbacks.calls (Callbacks.done n')
      = Callbacks.GetForce :: Callbacks.GetAcceleration
        :: Callbacks.GetOpening :: Callbacks.SystemState
        :: Callbacks.calls (Callbacks.done n) /\
      exists info,
        Callbacks.statuses (Callbacks.done n')
        = info :: Callbacks.statuses (Callbacks.done n) /\
        Callbacks.state_text info = text /\
        Callbacks.position info
        = Callbacks.float_at Callbacks.ready (1 + Callbacks.n_call n) /\
        Callbacks.speed info = F32.zero /\
        Callbacks.acceleration info
        = Callbacks.float_at Callbacks.ready (2 + Callbacks.n_call n) /\
        Callbacks.f_motor info
        = Callbacks.float_at Callbacks.ready (3 + Callbacks.n_call n)
  end.
Proof.
  intros reqs w' n n'. split; [vm_compute; reflexivity|].
  apply (timer_polls_once_services_have_returned prompt Callbacks.ready 5 reqs
           210 w' n); [vm_compute; reflexivity | reflexivity].
Defined.

(** X22: in auto_update mode [position_cb] forwards every goal at once and
    unconditionally: for each message, in the order received, it calls
    [stop(true)] and then [move(pos, speed, false, true)] with the values of
    the message, whatever the guard says and whatever the calls return. *)
Theorem periodic_goals_are_forwarded (L : Callbacks.library)
    (cbs : list Callbacks.callback) (n : Callbacks.node) :
  Callbacks.g_mode_periodic n = true ->
  forallb (fun cb => match cb with
                     | Callbacks.Position _ _ => true | _ => false end) cbs
  = true ->
  Callbacks.calls (Callbacks.done (Callbacks.run L cbs n))
  = rev (flat_map (fun cb => match cb with
                             | Callbacks.Position pos speed =>
                                 [Callbacks.Stop true;
                                  Callbacks.Move pos speed false true]
                             | _ => []
                             end) cbs)
    ++ Callbacks.calls (Callbacks.done n).
Proof.
  revert n. induction cbs as [|cb cbs IH]; intros n Hper Hcbs;
    cbn [Callbacks.run]; [reflexivity|].
  cbn [forallb] in Hcbs. apply andb_prop in Hcbs. destruct Hcbs as [Hcb Hcbs].
  destruct cb as [|pos speed|data|val|val| |w]; try discriminate Hcb.
  assert (H1 : Callbacks.g_mode_periodic
                 (Callbacks.deliver L (Callbacks.Position pos speed) n) = true /\
               Callbacks.calls
                 (Callbacks.done
                    (Callbacks.deliver L (Callbacks.Position pos speed) n))
               = Callbacks.Move pos speed false true :: Callbacks.Stop true
                 :: Callbacks.calls (Callbacks.done n)).
  { cbn [Callbacks.deliver]. unfold Callbacks.position_cb, Callbacks.move. cbn.
    rewrite Hper. cbn.
    destruct (negb (Callbacks.int_at L (S (Callbacks.n_call n)) =? 0)); cbn; auto. }
  destruct H1 as [Hper1 Hc1].
  rewrite (IH _ Hper1 Hcbs), Hc1. cbn [flat_map].
  rewrite rev_app_distr, <- app_assoc. reflexivity.
Qed.

Lemma periodic_goals_are_forwarded_witness :
  let n := Callbacks.set_base pending
             (Callbacks.set_g_mode_periodic true Callbacks.fresh) in
  let cbs := [Callbacks.Position (F32.of_int 50) (F32.of_int 20);
              Callbacks.Position (F32.of_int 10) (F32.of_int 5)] in
  Callbacks.calls (Callbacks.done (Callbacks.run Callbacks.quiet cbs n))
  = rev (flat_map (fun cb => match cb with
                             | Callbacks.Position pos speed =>
                                 [Callbacks.Stop true;
                                  Callbacks.Move pos speed false true]
                             | _ => []
                             end) cbs)
    ++ Callbacks.calls (Callbacks.done n).
Proof.
  intros n cbs.
  apply (periodic_goals_are_forwarded Callbacks.quiet cbs n); reflexivity.
Defined.

(** * A command that completes *)

Section Completion.

Variable E : env.





End Completion.



(** * How long a service takes *)

Section Timely.

Variable E : env.

(** A wait loop that runs to its end does so with its last deadline test
    passed. *)
Lemma await_timely dispatch spins id begin fuel :
  forall w m st w',
    await E dispatch spins fuel id begin w = Ret (Finished m st) w' ->
    now w' - begin <= timeout_commands.
Proof.
  induction fuel as [|fuel IH]; intros w m st w'; cbn [await]; [discriminate|].
  rewrite recv_ack_eq.
  set (rc := fst (fst (ack_at E (n_ack w)))).
  set (s := snd (fst (ack_at E (n_ack w)))).
  set (w2 := if (rc =? 1) && (s =? E_CMD_PENDING) then _ else _).
  destruct (if spins then spinOnce E dispatch w2 else Ret tt w2)
    as [[] w3|w3|w3]; cbn [bind]; try discriminate.
  destruct (spins && stop_called w3); [discriminate|].
  unfold quit. destruct (now w3 - begin >? timeout_commands) eqn:Hlate;
    [discriminate|].
  destruct (goes_on rc s); [apply IH|].
  intros H. injection H as _ _ <-.
  rewrite Z.gtb_ltb in Hlate. apply Z.ltb_ge in Hlate. exact Hlate.
Qed.

Lemma issue_timely dispatch fuel c id g w p w' :
  issue E dispatch fuel c id g w = Ret p w' ->
  error p = Some E_CMD_ABORTED \/
  now w' - (now w + Z.of_N (send_time_at E (n_send w)))
  <= timeout_commands + settle_delay.
Proof.
  unfold issue, submit. destruct (send_at E (n_send w) =? 0).
  - set (w3 := set_last_cmd_id id _).
    destruct (await E dispatch true fuel id (now w3) w3) as [r w4|w4|w4] eqn:Ha;
      cbn [bind]; try discriminate.
    destruct r as [m st|]; cbn [conclude].
    + pose proof (await_timely _ _ _ _ _ _ _ _ _ Ha) as Ht.
      change (now w3) with (now w + Z.of_N (send_time_at E (n_send w))) in Ht.
      destruct (error_of m st =? 0); intros H; injection H as _ <-; right;
        destruct g; simpl; unfold timeout_commands, settle_delay in *; lia.
    + intros H. injection H as <- _. left. reflexivity.
  - intros H. injection H as _ <-. right. simpl.
    unfold timeout_commands, settle_delay. lia.
Qed.

End Timely.

(** X24: a service called while [in_motion] is clear and that returns has
    either been cancelled (it reports [E_CMD_ABORTED]) or returns no later
    than 30 s plus the settle delay of 0.1 s after the moment it read
    [begin], that is after its library calls before the wait (the query of
    the opening, for an increment, and the writing of the command): its
    last deadline test was passed, and after the wait only the settle sleep
    takes time.  [homingSrv], which cannot be cancelled, is always within
    that bound when it returns.  How long the library calls before [begin]
    take is not bounded by the node. *)
Theorem reply_is_timely_unless_aborted (E : env) (fuel : nat) (r : request)
    (w : world) (p : reply) (w' : world) :
  in_motion w = false ->
  serve E fuel r w = Ret p w' ->
  (error p = Some E_CMD_ABORTED /\ r <> ReqHoming) \/
  now w' - begin_of E r w <= timeout_commands + settle_delay.
Proof.
  intros Hi. destruct fuel as [|fuel]; [discriminate|].
  assert (H0 : 0 <= timeout_commands + settle_delay)
    by (unfold timeout_commands, settle_delay; lia).
  pose proof (N2Z.is_nonneg (send_time_at E (n_send w))) as Hsend.
  pose proof (N2Z.is_nonneg (opening_time_at E (n_open w))) as Hopen.
  assert (Hm : forall q c id g,
             (if width_out_of_range (mr_width q) w then
                Ret {| ok := false; error := Some E_RANGE_ERROR |}
                    (log (EvLog Error MsgRange) w)
              else
                let w1 := if speed_out_of_limits (mr_speed q)
                          then log (EvLog Warn MsgSpeedLimits) w else w in
                issue E (serve E fuel) fuel c id g w1) = Ret p w' ->
             error p = Some E_CMD_ABORTED \/
             now w' - (now w + 0 + Z.of_N (send_time_at E (n_send w)))
             <= timeout_commands + settle_delay).
  { intros q c id g. destruct (width_out_of_range (mr_width q) w).
    { intros H. injection H as _ <-. right. simpl. lia. }
    cbv zeta. intros H. apply issue_timely in H.
    destruct (speed_out_of_limits (mr_speed q));
      (destruct H as [H|H]; [left; exact H | right; cbn [now n_send log] in H; lia]). }
  destruct r as [q|q|q|q| |]; cbn [serve]; unfold begin_of.
  - unfold moveSrv, move_async. rewrite Hi. intros H.
    destruct (Hm q _ _ _ H); [left; split; [assumption | discriminate] | auto].
  - unfold graspSrv, grasp_async. rewrite Hi. intros H.
    destruct (Hm q _ _ _ H); [left; split; [assumption | discriminate] | auto].
  - unfold releaseSrv, release_async. rewrite Hi. intros H.
    destruct (Hm q _ _ _ H); [left; split; [assumption | discriminate] | auto].
  - unfold incrementSrv. rewrite Hi.
    assert (Ht : (snd (increment_target E q w) = w \/
                  now (snd (increment_target E q w))
                  = now w + Z.of_N (opening_time_at E (n_open w))) /\
                 n_send (snd (increment_target E q w)) = n_send w).
    { unfold increment_target.
      destruct (String.eqb (ir_direction q) "open"); [split; [right|]; reflexivity|].
      destruct (String.eqb (ir_direction q) "close"); split;
        try reflexivity; [right | left]; reflexivity. }
    destruct (increment_target E q w) as [[[nextWidth speed]|] w1] eqn:Hq;
      cbn [snd] in Ht; destruct Ht as [Ht Hn].
    + assert (Hnow : now w1 = now w + Z.of_N (opening_time_at E (n_open w))).
      { destruct Ht as [->|Ht]; [|exact Ht].
        unfold increment_target in Hq.
        destruct (String.eqb (ir_direction q) "open");
          [injection Hq as _ _ Hq; rewrite <- Hq at 1; reflexivity|].
        destruct (String.eqb (ir_direction q) "close");
          [injection Hq as _ _ Hq; rewrite <- Hq at 1; reflexivity
          |discriminate Hq]. }
      intros H. apply (issue_timely E (serve E fuel) fuel
                         (CmdMove nextWidth speed true) 0x21 None) in H.
      rewrite Hnow, Hn in H.
      destruct H; [left; split; [assumption | discriminate] | auto].
    + intros H. injection H as _ <-. right.
      destruct Ht as [->|Ht]; [lia | rewrite Ht; lia].
  - unfold homingSrv, homing_async, submit. rewrite Hi. right. revert H.
    destruct (send_at E (n_send w) =? 0).
    + set (w2 := set_last_cmd_id 32 _).
      destruct (await E (serve E fuel) false fuel 32 (now w2) w2)
        as [r w3|w3|w3] eqn:Ha; cbn [bind]; try discriminate.
      destruct (await_alone_answer E _ _ _ _ _ _ _ Ha) as (m & st & -> & _).
      pose proof (await_timely E _ _ _ _ _ _ _ _ _ Ha) as Ht.
      change (now w2) with (now w + Z.of_N (send_time_at E (n_send w))) in Ht.
      destruct (m =? -1);
        [intros H; injection H as _ <-; simpl;
         unfold timeout_commands, settle_delay in *; lia|].
      destruct ((m =? 1) && (st =? E_SUCCESS));
        intros H; injection H as _ <-; simpl;
        unfold timeout_commands, settle_delay in *; lia.
    + intros H. injection H as _ <-. simpl. lia.
  - unfold stopSrv, stop, submit. simpl in_motion. rewrite Hi. cbn [bind].
    intros H. injection H as _ <-. right. simpl. lia.
Qed.

(** A homing on a link where the command takes three seconds to write and
    the three polls 29 s together: the service returns 32.1 s after it was
    called, 29.1 s after it read [begin]. *)
Lemma reply_is_timely_unless_aborted_witness :
  let E := env_with [(0, 0, 10000000000%N); (1, E_CMD_PENDING, 10000000000%N);
                     (1, E_SUCCESS, 9000000000%N)] [] [] []
                    [3000000000%N] [] in
  let o := serve E 5 ReqHoming (startup 210) in
  o = Ret {| ok := true; error := None |} (world_of o) /\
  now (world_of o) - now (startup 210) = 32000000000 + settle_delay /\
  begin_of E ReqHoming (startup 210) = 3000000000 /\
  ((error {| ok := true; error := None |} = Some E_CMD_ABORTED /\
    ReqHoming <> ReqHoming) \/
   now (world_of o) - begin_of E ReqHoming (startup 210)
   <= timeout_commands + settle_delay).
Proof.
  intros E o.
  assert (H : o = Ret {| ok := true; error := None |} (world_of o))
    by (vm_compute; reflexivity).
  split; [exact H|]. split; [vm_compute; reflexivity|].
  split; [reflexivity|].
  exact (reply_is_timely_unless_aborted E 5 ReqHoming (startup 210) _ _
           eq_refl H).
Defined.

(** * A measure-and-move command that fails *)

(** X25: when [script_measure_move] fails (returns 0) in a turn of the
    timer that takes the script branch, the turn publishes nothing, neither
    a status nor a [moving] message, and leaves [g_ismoving] as it was; the
    failure is only logged; and the goals are cleared all the same, so the
    command that failed is not sent again. *)
Theorem failed_measure_loses_the_goal (L : Callbacks.library)
    (n : Callbacks.node) :
  Callbacks.g_mode_script n = true ->
  Callbacks.g_mode_polling n && negb (in_motion (Callbacks.base n)) = false ->
  (forall info, fst (Callbacks.script_measure_move_at L (Callbacks.n_call n) info) = 0) ->
  let n' := Callbacks.timer_cb L n in
  Callbacks.statuses (Callbacks.done n') = Callbacks.statuses (Callbacks.done n) /\
  Callbacks.movings (Callbacks.done n') = Callbacks.movings (Callbacks.done n) /\
  Callbacks.g_ismoving n' = Callbacks.g_ismoving n /\
  hd_error (Callbacks.done n')
  = Some (Callbacks.Logged Error Callbacks.NoteMeasureFailed) /\
  List.length (Callbacks.calls (Callbacks.done n'))
  = S (List.length (Callbacks.calls (Callbacks.done n))) /\
  Callbacks.isnan (Callbacks.g_goal_position n') = true /\
  Callbacks.isnan (Callbacks.g_goal_speed n') = true.
Proof.
  intros Hs Hp Hfail. unfold Callbacks.timer_cb. rewrite Hs, Hp.
  set (info := {| Callbacks.state_text := _ |}).
  unfold Callbacks.script_measure_move.
  destruct (Callbacks.isnan (Callbacks.g_goal_position n)) eqn:Hgp;
    destruct (Callbacks.isnan (Callbacks.g_goal_speed n)) eqn:Hgs; cbn [negb];
    match goal with
    | |- context [Callbacks.script_measure_move_at L ?k ?i] =>
        assert (Hres : fst (Callbacks.script_measure_move_at L k i) = 0)
          by apply Hfail;
        destruct (Callbacks.script_measure_move_at L k i) as [res info1]
    end;
    cbn [fst] in Hres; subst res;
    repeat (progress (cbn; rewrite ?Hgp, ?Hgs)); auto 10.
Qed.

Lemma failed_measure_loses_the_goal_witness :
  let n := Callbacks.position_cb Callbacks.quiet (F32.of_int 50) (F32.of_int 20)
             (Callbacks.set_g_mode_script true Callbacks.fresh) in
  let n' := Callbacks.timer_cb Callbacks.quiet n in
  Callbacks.calls (Callbacks.done n')
  = [Callbacks.ScriptMeasureMove 1 (F32.of_int 50) (F32.of_int 20)] /\
  Callbacks.statuses (Callbacks.done n') = Callbacks.statuses (Callbacks.done n) /\
  Callbacks.movings (Callbacks.done n') = Callbacks.movings (Callbacks.done n) /\
  Callbacks.g_ismoving n' = Callbacks.g_ismoving n /\
  hd_error (Callbacks.done n')
  = Some (Callbacks.Logged Error Callbacks.NoteMeasureFailed) /\
  List.length (Callbacks.calls (Callbacks.done n'))
  = S (List.length (Callbacks.calls (Callbacks.done n))) /\
  Callbacks.isnan (Callbacks.g_goal_position n') = true /\
  Callbacks.isnan (Callbacks.g_goal_speed n') = true.
Proof.
  intros n. split; [vm_compute; reflexivity|].
  apply (failed_measure_loses_the_goal Callbacks.quiet n);
    [reflexivity | reflexivity | intros info; reflexivity].
Defined.
